(** * Tabular ingestion, type inference and the file record store

    A shallow embedding of the data-ingestion core of the dashboard:
    [FileService] (CSV and spreadsheet parsing, the in-memory record map
    with its persisted copy, listing, deletion, search and statistics),
    [LocalLLMService] (type inference, the connection, and what is read
    out of the model's replies), the list of the [FileUpload] dialog, and
    the numeric-column test and data-quality count of
    [DashboardRenderer].  JavaScript values, [Number], truthiness, arrays
    and [Map] are modelled as the language defines them; numbers are
    IEEE-754 binary64 values (Rocq's primitive floats). *)

From Stdlib Require Import ZArith NArith Floats Uint63 List QArith Lia.
From Stdlib Require Import Ascii String Permutation Sorted DecimalString.
From stdpp Require Import base list gmap strings.
Import ListNotations.

Local Open Scope string_scope.
Local Open Scope list_scope.
Local Open Scope Z_scope.

(* ================================================================== *)
(** ** JavaScript values *)
(* ================================================================== *)

Module JS.

(** The scalar values a table cell can hold, and [JObject text] for an
    object or a function, of which only the string that [String] makes
    of it is kept.  No parser puts an object in a cell; reading a row at
    a name it does not own gives what the row inherits, which may be
    one. *)
Inductive Value : Type :=
  | JUndefined
  | JNull
  | JBool (b : bool)
  | JNum (x : float)
  | JStr (s : string)
  | JObject (text : string).

(** [v === ''] *)
Definition isEmptyString (v : Value) : bool :=
  match v with
  | JStr EmptyString => true
  | _ => false
  end.

(** [v === null || v === undefined] *)
Definition isNullish (v : Value) : bool :=
  match v with
  | JUndefined | JNull => true
  | _ => false
  end.

(** ToBoolean: [undefined], [null], [false], [0], [-0], [NaN] and [''] are
    falsy, everything else is truthy. *)
Definition toBoolean (v : Value) : bool :=
  match v with
  | JUndefined | JNull => false
  | JBool b => b
  | JNum x => negb (PrimFloat.is_nan x || PrimFloat.is_zero x)
  | JStr s => negb (String.eqb s "")
  | JObject _ => true
  end.

(** [a || b] *)
Definition or (a b : Value) : Value := if toBoolean a then a else b.

(** *** StringToNumber

    The StringNumericLiteral grammar of ECMAScript: optional white space,
    then nothing (the value 0), a signed decimal literal with optional
    fraction and exponent, [Infinity], or an unsigned [0x]/[0o]/[0b]
    integer; anything else is [NaN].  Characters are code units below
    256, so the white space recognised here is TAB, LF, VT, FF, CR, SP and
    NBSP. *)

Definition isStrWhiteSpaceChar (c : ascii) : bool :=
  let n := N_of_ascii c in
  (((9 <=? n) && (n <=? 13)) || (n =? 32) || (n =? 160))%N.

Fixpoint trimStart (cs : list ascii) : list ascii :=
  match cs with
  | c :: cs' => if isStrWhiteSpaceChar c then trimStart cs' else cs
  | [] => []
  end.

Definition trim (cs : list ascii) : list ascii :=
  rev (trimStart (rev (trimStart cs))).

(** The value of [c] as a digit of the given base, if it is one. *)
Definition digitOf (base : N) (c : ascii) : option N :=
  let n := N_of_ascii c in
  let d := (if (48 <=? n) && (n <=? 57) then Some (n - 48)
            else if (97 <=? n) && (n <=? 102) then Some (n - 87)
            else if (65 <=? n) && (n <=? 70) then Some (n - 55)
            else None)%N in
  match d with
  | Some v => if (v <? base)%N then Some v else None
  | None => None
  end.

(** Reads the longest prefix of digits: its value (continuing [acc]), the
    number of digits read and the remaining characters. *)
Fixpoint readDigits (base : N) (cs : list ascii) (acc : N) (count : nat)
  : N * nat * list ascii :=
  match cs with
  | c :: cs' =>
      match digitOf base c with
      | Some d => readDigits base cs' (acc * base + d)%N (S count)
      | None => (acc, count, cs)
      end
  | [] => (acc, count, [])
  end.

(** The mathematical value [m * 10^e] with sign [neg], rounded to the
    nearest binary64 value (ties to even). *)
Definition decimalToFloat (neg : bool) (m : N) (e : Z) : float :=
  match m with
  | N0 => if neg then neg_zero else PrimFloat.zero
  | Npos p =>
      if 0 <=? e then
        SF2Prim (binary_normalize prec emax
                   (if neg then Z.neg p * 10 ^ e else Z.pos p * 10 ^ e) 0 false)
      else
        SF2Prim (SFdiv prec emax (S754_finite neg p 0)
                   (S754_finite false (Z.to_pos (10 ^ (- e))) 0))
  end.

Definition isExponentIndicator (c : ascii) : bool :=
  (Ascii.eqb c "e" || Ascii.eqb c "E")%char.

(** ExponentPart, which must reach the end of the literal. *)
Definition readExponent (cs : list ascii) : option Z :=
  match cs with
  | [] => Some 0
  | c :: cs' =>
      if isExponentIndicator c then
        let '(neg, ds) :=
          match cs' with
          | "-"%char :: r => (true, r)
          | "+"%char :: r => (false, r)
          | _ => (false, cs')
          end in
        match readDigits 10 ds 0 0 with
        | (_, O, _) => None
        | (v, S _, []) => Some (if neg then - Z.of_N v else Z.of_N v)
        | (_, S _, _ :: _) => None
        end
      else None
  end.

(** StrUnsignedDecimalLiteral *)
Definition strUnsignedDecimalLiteral (neg : bool) (cs : list ascii) : float :=
  if String.eqb (string_of_list_ascii cs) "Infinity" then
    (if neg then neg_infinity else infinity)
  else
    let '(ip, ni, r1) := readDigits 10 cs 0 0 in
    match r1 with
    | "."%char :: r2 =>
        let '(m, nf, r3) := readDigits 10 r2 ip 0 in
        match ni, nf with
        | O, O => nan
        | _, _ =>
            match readExponent r3 with
            | Some e => decimalToFloat neg m (e - Z.of_nat nf)
            | None => nan
            end
        end
    | _ =>
        match ni with
        | O => nan
        | S _ =>
            match readExponent r1 with
            | Some e => decimalToFloat neg ip e
            | None => nan
            end
        end
    end.

(** NonDecimalIntegerLiteral: a prefix, then at least one digit, then the
    end of the literal. *)
Definition nonDecimalIntegerLiteral (cs : list ascii) : option float :=
  match cs with
  | "0"%char :: p :: ds =>
      let base :=
        (if Ascii.eqb p "x" || Ascii.eqb p "X" then Some 16
         else if Ascii.eqb p "o" || Ascii.eqb p "O" then Some 8
         else if Ascii.eqb p "b" || Ascii.eqb p "B" then Some 2
         else None)%char%N in
      match base with
      | Some b =>
          match readDigits b ds 0 0 with
          | (v, S _, []) => Some (decimalToFloat false v 0)
          | _ => Some nan
          end
      | None => None
      end
  | _ => None
  end.

Definition stringToNumber (s : string) : float :=
  match trim (list_ascii_of_string s) with
  | [] => PrimFloat.zero
  | "-"%char :: cs => strUnsignedDecimalLiteral true cs
  | "+"%char :: cs => strUnsignedDecimalLiteral false cs
  | cs =>
      match nonDecimalIntegerLiteral cs with
      | Some x => x
      | None => strUnsignedDecimalLiteral false cs
      end
  end.

(** [Number(v)] *)
Definition Number (v : Value) : float :=
  match v with
  | JUndefined => nan
  | JNull => PrimFloat.zero
  | JBool b => if b then PrimFloat.one else PrimFloat.zero
  | JNum x => x
  | JStr s => stringToNumber s
  | JObject text => stringToNumber text
  end.

(** [isNaN(x)] on a number *)
Definition isNaN (x : float) : bool := PrimFloat.is_nan x.

(** An array length or a count as a number. *)
Definition ofNat (n : nat) : float := of_uint63 (Uint63.of_Z (Z.of_nat n)).

(** [String.prototype.toLowerCase] on the letters A to Z. *)
Definition lowerChar (c : ascii) : ascii :=
  let n := N_of_ascii c in
  if ((65 <=? n) && (n <=? 90))%N then ascii_of_N (n + 32) else c.

Definition toLowerCase (s : string) : string :=
  string_of_list_ascii (map lowerChar (list_ascii_of_string s)).

(** [s.includes(q)] *)
Fixpoint includes (s q : string) : bool :=
  String.prefix q s ||
  match s with
  | EmptyString => false
  | String _ s' => includes s' q
  end.

(** [Math.min(a, b)] and [Math.max(a, b)]: [NaN] is contagious and [-0]
    is below [+0]. *)
Definition isNegative (x : float) : bool :=
  match Prim2SF x with
  | S754_zero s | S754_infinity s | S754_finite s _ _ => s
  | S754_nan => false
  end.

Definition min (a b : float) : float :=
  if PrimFloat.is_nan a || PrimFloat.is_nan b then nan
  else if PrimFloat.ltb a b then a
  else if PrimFloat.ltb b a then b
  else if isNegative a then a else b.

Definition max (a b : float) : float :=
  if PrimFloat.is_nan a || PrimFloat.is_nan b then nan
  else if PrimFloat.ltb a b then b
  else if PrimFloat.ltb b a then a
  else if isNegative a then b else a.

(** *** What a plain object inherits

    An object made by [{}] has [Object.prototype] as its prototype:
    under [__proto__] it reads as that prototype, under the name of one
    of the prototype's methods as that function, and under any other
    name it does not own as [undefined].  A function is given with the
    text [function name() { [native code] }]; the service hands such a
    text on to [Date.parse] only. *)

Definition objectPrototypeMethods : list string :=
  ["constructor"; "hasOwnProperty"; "isPrototypeOf"; "propertyIsEnumerable";
   "toLocaleString"; "toString"; "valueOf"; "__defineGetter__";
   "__defineSetter__"; "__lookupGetter__"; "__lookupSetter__"].

Definition inherited (name : string) : Value :=
  if String.eqb name "__proto__" then JObject "[object Object]"
  else if existsb (String.eqb name) objectPrototypeMethods then
    JObject ("function "
             +:+ (if String.eqb name "constructor" then "Object" else name)
             +:+ "() { [native code] }")
  else JUndefined.

End JS.

Import JS.

(** A row object: the properties it owns, from column name to cell value. *)
Abbreviation Row := (gmap string Value).

(** [row[col]]: the row's own cell, else what it inherits. *)
Definition getCell (row : Row) (col : string) : Value :=
  match row !! col with
  | Some v => v
  | None => inherited col
  end.

(** [row[name] = v] for a value that is not an object: under
    [__proto__] the assignment runs the prototype's setter, which ignores
    such a value, and the row gets no property. *)
Definition setCell (name : string) (v : Value) (row : Row) : Row :=
  if String.eqb name "__proto__" then row else <[name := v]> row.

(** [types[name] = label] on the object that [inferDataTypes] fills:
    likewise, a string assigned under [__proto__] is ignored. *)
Definition setType (name label : string) (types : gmap string string)
  : gmap string string :=
  if String.eqb name "__proto__" then types else <[name := label]> types.

(* ================================================================== *)
(** ** Papa.parse with [header: true, skipEmptyLines: true] *)
(* ================================================================== *)

(** The CSV reader is a third-party library (Papa Parse, here as of its
    version 5.5).  Its reading of one text is modelled as follows.

    - The delimiter is not configured, so it is guessed: each of the
      comma, the tab, the bar, the semicolon and the record and unit
      separators is tried on the first ten records, and a candidate is
      taken when its records have more than 1.99 fields on average, not
      a greater sum of differences between consecutive records than the
      candidate held so far, and more fields on average than it.  When
      none is taken the comma is used and the error
      [UndetectableDelimiter] is reported.
    - Fields are separated by the delimiter and records by line breaks;
      a field that starts with a double quote runs to the closing quote,
      a doubled quote standing for one.
    - A name that occurs again in the first record is renamed with a
      numbered suffix.
    - With [skipEmptyLines] a record that is a single empty field is
      dropped; with [header] the first remaining record names the fields
      and every other record becomes an object; a record whose length
      differs from the header's is reported in [errors].

    The model departs from the library where the text breaks its lines
    in more than one way (the library settles on one line break, the
    model takes LF, CR and CR LF alike), where white space follows a
    closing quote, and in the fields of a text that is reported to have
    a quoting error; an over-long record is reported in [errors], its
    [__parsed_extra] property is not modelled.  The averages of the guess
    are compared as exact fractions, which for the ten records of a
    preview orders them as the library's binary64 division does. *)

Module Papa.

Inductive ErrorCode : Type :=
  | MissingQuotes
  | InvalidQuotes
  | UndetectableDelimiter
  | TooFewFields
  | TooManyFields.

Inductive Mode : Type := Unquoted | Quoted | AfterQuote.

(** The reader's state; [field], [fields] and [rows] are kept reversed. *)
Record Lexer : Type := mkLexer {
  mode : Mode;
  afterCR : bool;
  field : list ascii;
  fields : list string;
  rows : list (list string);
  quoteErrors : list ErrorCode
}.

(** The reader at the start of a record, with the records and errors
    gathered so far. *)
Definition atLineStart (rs : list (list string)) (errs : list ErrorCode) : Lexer :=
  mkLexer Unquoted false [] [] rs errs.

Definition start : Lexer := atLineStart [] [].

Definition isNewline (c : ascii) : bool :=
  (Ascii.eqb c "010" || Ascii.eqb c "013")%char.

Definition isCR (c : ascii) : bool := Ascii.eqb c "013"%char.
Definition isLF (c : ascii) : bool := Ascii.eqb c "010"%char.
Definition comma : ascii := ","%char.
Definition isDelimiter (delimiter c : ascii) : bool := Ascii.eqb c delimiter.
Definition quote : ascii := "034"%char.
Definition isQuote (c : ascii) : bool := Ascii.eqb c quote.

Definition fieldText (lx : Lexer) : string :=
  string_of_list_ascii (rev (field lx)).

Definition endField (lx : Lexer) : Lexer :=
  mkLexer Unquoted false [] (fieldText lx :: fields lx) (rows lx)
          (quoteErrors lx).

Definition endRow (cr : bool) (lx : Lexer) : Lexer :=
  mkLexer Unquoted cr [] [] (rev (fieldText lx :: fields lx) :: rows lx)
          (quoteErrors lx).

Definition push (c : ascii) (m : Mode) (lx : Lexer) : Lexer :=
  mkLexer m false (c :: field lx) (fields lx) (rows lx) (quoteErrors lx).

Definition step (delimiter : ascii) (lx : Lexer) (c : ascii) : Lexer :=
  match mode lx with
  | Unquoted =>
      if afterCR lx && isLF c then
        mkLexer Unquoted false (field lx) (fields lx) (rows lx) (quoteErrors lx)
      else if isQuote c && Nat.eqb (length (field lx)) 0 then
        mkLexer Quoted false [] (fields lx) (rows lx) (quoteErrors lx)
      else if isDelimiter delimiter c then endField lx
      else if isNewline c then endRow (isCR c) lx
      else push c Unquoted lx
  | Quoted =>
      if isQuote c then
        mkLexer AfterQuote false (field lx) (fields lx) (rows lx) (quoteErrors lx)
      else push c Quoted lx
  | AfterQuote =>
      if isQuote c then push c Quoted lx
      else if isDelimiter delimiter c then endField lx
      else if isNewline c then endRow (isCR c) lx
      else
        mkLexer Quoted false (c :: quote :: field lx) (fields lx) (rows lx)
                (quoteErrors lx ++ [InvalidQuotes])
  end.

(** The end of the input closes the record being read. *)
Definition finish (lx : Lexer) : list (list string) * list ErrorCode :=
  (rev (rev (fieldText lx :: fields lx) :: rows lx),
   match mode lx with
   | Quoted => quoteErrors lx ++ [MissingQuotes]
   | _ => quoteErrors lx
   end).

Definition tokenize (delimiter : ascii) (input : string)
  : list (list string) * list ErrorCode :=
  finish (fold_left (step delimiter) (list_ascii_of_string input) start).

(** [row.length === 1 && row[0].length === 0] *)
Definition isEmptyLine (row : list string) : bool :=
  match row with
  | [f] => String.eqb f ""
  | _ => false
  end.

(** *** The guess of the delimiter *)

Definition delimitersToGuess : list ascii :=
  [","%char; "009"%char; "|"%char; ";"%char; "030"%char; "031"%char].

(** The records of the preview that count: those of the first ten that
    are not empty lines. *)
Definition previewRows (delimiter : ascii) (input : string) : list (list string) :=
  List.filter (fun r => negb (isEmptyLine r)) (take 10 (tokenize delimiter input).1).

Definition distance (a b : nat) : nat := (a - b) + (b - a).

(** The sum of the differences between the numbers of fields of
    consecutive records, [prev] being the number of the record before. *)
Fixpoint deltaFrom (prev : nat) (records : list (list string)) : nat :=
  match records with
  | [] => 0
  | r :: records' =>
      if (0 <? length r)%nat
      then (distance (length r) prev + deltaFrom (length r) records')%nat
      else deltaFrom prev records'
  end.

Record Candidate : Type := mkCandidate {
  delimiterOf : ascii;
  delta : nat;
  fieldCount : nat;
  rowCount : nat
}.

Definition candidate (delimiter : ascii) (input : string) : Candidate :=
  let records := previewRows delimiter input in
  mkCandidate delimiter
    (match records with
     | [] => 0%nat
     | r :: records' => deltaFrom (length r) records'
     end)
    (list_sum (map (fun r => length r) records))
    (length records).

(** [avgFieldCount > 1.99], the average being [fieldCount / rowCount]
    (not a number when no record counts). *)
Definition averageExceeds199 (c : Candidate) : bool :=
  (0 <? rowCount c)%nat && (199 * rowCount c <? 100 * fieldCount c)%nat.

(** [avgFieldCount > maxFieldCount] *)
Definition averageAbove (c best : Candidate) : bool :=
  (0 <? rowCount c)%nat && (0 <? rowCount best)%nat
  && (fieldCount best * rowCount c <? fieldCount c * rowCount best)%nat.

Definition improves (best : option Candidate) (c : Candidate) : bool :=
  match best with
  | None => averageExceeds199 c
  | Some b =>
      (delta c <=? delta b)%nat && averageAbove c b && averageExceeds199 c
  end.

Definition guessDelimiter (input : string) : option ascii :=
  option_map delimiterOf
    (fold_left (fun best delimiter =>
                  let c := candidate delimiter input in
                  if improves best c then Some c else best)
               delimitersToGuess None).

(** *** The names of the first record *)

Definition decimal (n : nat) : string := NilZero.string_of_uint (Nat.to_uint n).

(** [do { newHeader = header + '_' + suffix; suffix++ } while
    (used.has(newHeader))]: the names tried differ from one another, so
    one is free after at most as many steps as there are names in use. *)
Fixpoint freshName (steps : nat) (header : string) (suffix : nat)
         (used : list string) : string :=
  let newHeader := header +:+ "_" +:+ decimal suffix in
  match steps with
  | O => newHeader
  | S steps' =>
      if existsb (String.eqb newHeader) used
      then freshName steps' header (S suffix) used
      else newHeader
  end.

(** The loop over the first record: [counts] tells how often a name has
    been met, [used] holds the names of the record and those given out. *)
Fixpoint renameFrom (headers : list string) (counts : gmap string nat)
         (used : list string) : list string :=
  match headers with
  | [] => []
  | header :: headers' =>
      match counts !! header with
      | None | Some O =>
          header :: renameFrom headers' (<[header := 1%nat]> counts) (header :: used)
      | Some (S _ as count) =>
          let newHeader := freshName (length used) header count used in
          newHeader
          :: renameFrom headers' (<[header := S count]> counts)
                        (header :: newHeader :: used)
      end
  end.

Definition renameHeaders (headers : list string) : list string :=
  renameFrom headers ∅ headers.

(** *** Records to objects *)

(** The object of a record: the i-th field under the i-th header name. *)
Definition toObject (header row : list string) : Row :=
  foldl (fun obj hv => setCell hv.1 (JStr hv.2) obj) ∅ (combine header row).

Definition mismatch (header row : list string) : list ErrorCode :=
  if (length row <? length header)%nat then [TooFewFields]
  else if (length header <? length row)%nat then [TooManyFields]
  else [].

(** What the [complete] callback receives: [results.data],
    [results.errors] and [results.meta.fields]. *)
Record Results : Type := mkResults {
  data : list Row;
  errors : list ErrorCode;
  metaFields : option (list string)
}.

Definition parse (input : string) : Results :=
  let guess := guessDelimiter input in
  let '(records, quoteErrs) := tokenize (default comma guess) input in
  let renamed :=
    match records with
    | first :: others => renameHeaders first :: others
    | [] => []
    end in
  let delimiterErrs :=
    match guess with
    | Some _ => []
    | None => [UndetectableDelimiter]
    end in
  match List.filter (fun r => negb (isEmptyLine r)) renamed with
  | [] => mkResults [] (quoteErrs ++ delimiterErrs) (Some [])
  | header :: body =>
      mkResults (map (toObject header) body)
                (quoteErrs ++ delimiterErrs ++ flat_map (mismatch header) body)
                (Some header)
  end.

End Papa.

(* ================================================================== *)
(** ** What the spreadsheet reader hands to parseXLSX *)
(* ================================================================== *)

(** [XLSX.read] followed by [sheet_to_json(firstSheet, {header: 1})]: the
    reader throws, or returns [jsonData], an array of rows.  The source
    types the first row [string[]] and the others [any[]]; the reader
    gives strings, numbers and booleans, and a cell that is missing in a
    row reads as [undefined]. *)
Inductive SheetJson : Type :=
  | XlsxThrows (message : string)
  | XlsxNoRows
  | XlsxRows (headers : list string) (rows : list (list Value)).

(** A [File]: its name and size, the text a CSV reader sees in it and
    what the spreadsheet reader makes of it. *)
Record File : Type := mkFile {
  fileName : string;
  fileSize : N;
  fileText : string;
  fileSheet : SheetJson
}.

(* ================================================================== *)
(** ** The records of FileService *)
(* ================================================================== *)

Inductive FileType : Type := csv | xlsx.

Module ParsedData.
Record t : Type := mk {
  data : list Row;
  columns : list string;
  rowCount : nat;
  preview : list Row
}.
End ParsedData.

(** [uploadedAt] is the ISO-8601 string of [new Date()]; it is kept as
    the time value in milliseconds that [new Date(uploadedAt).getTime()]
    reads back from it. *)
Module FileData.
Record t : Type := mk {
  id : string;
  name : string;
  type : FileType;
  size : N;
  uploadedAt : Z;
  data : list Row;
  columns : list string;
  rowCount : nat;
  preview : list Row
}.
End FileData.

(** The [Map] of records.  A [Map] iterates in insertion order; [set] on
    a key that is present replaces the value where it stands. *)
Abbreviation FileMap := (list (string * FileData.t)).

(** The errors the promises reject with. *)
Inductive ParseFailure : Type :=
  | CsvParsingError (first : Papa.ErrorCode)
  | ExcelFileIsEmpty
  | FailedToParseExcel (message : string).

(** The errors [uploadFile] throws. *)
Inductive UploadFailure : Type :=
  | UnsupportedFileType
  | FailedToProcessFile (cause : ParseFailure).

(** The error [getFileStats] throws: a call with more arguments than
    the engine takes. *)
Inductive StatsFailure : Type :=
  | RangeError.

Inductive result (E A : Type) : Type :=
  | Ok (a : A)
  | Err (e : E).
Arguments Ok {E A} a.
Arguments Err {E A} e.

(** The [sampleStats] block. *)
Module SampleStats.
Record t : Type := mk {
  column : string;
  min : float;
  max : float;
  avg : float;
  count : nat
}.
End SampleStats.

(** The statistics object without its two display strings ([fileSize]
    and the localised [uploadedAt]). *)
Module Stats.
Record t : Type := mk {
  totalRows : nat;
  totalColumns : nat;
  numericColumns : nat;
  textColumns : nat;
  sampleStats : option SampleStats.t
}.
End Stats.

(* ================================================================== *)
(** ** What is taken as given of the engine *)
(* ================================================================== *)

Section Engine.

(** [Date.parse] on a string: the time value, or [NaN].  Which strings
    besides the ISO format it accepts is left to the engine. *)
Variable dateParse : string -> float.

(** [Number.prototype.toString]; the service only passes its result on
    to [Date.parse] and to the substring test of the search. *)
Variable numberToString : float -> string.

(** The number of arguments a call can take: spreading a longer array
    into a call throws [RangeError]. *)
Variable maxArguments : nat.

(** [String(v)] *)
Definition toString (v : Value) : string :=
  match v with
  | JUndefined => "undefined"
  | JNull => "null"
  | JBool b => if b then "true" else "false"
  | JNum x => numberToString x
  | JStr s => s
  | JObject text => text
  end.

(* ================================================================== *)
(** ** LocalLLMService.inferDataTypes *)
(* ================================================================== *)

(** The literal [0.8]: the binary64 value nearest to eight tenths. *)
Definition threshold : float := 0x1.999999999999ap-1%float.

(** [data.slice(0, 100).map(row => row[column]).filter(val => val !== null
    && val !== undefined && val !== '')] *)
Definition sampleOf (data : list Row) (column : string) : list Value :=
  List.filter (fun val => negb (isNullish val) && negb (isEmptyString val))
    (map (fun row => getCell row column) (take 100 data)).

Definition numericCount (sample : list Value) : nat :=
  length (List.filter (fun val => negb (isNaN (Number val))) sample).

Definition dateCount (sample : list Value) : nat :=
  length (List.filter (fun val => negb (isNaN (dateParse (toString val)))) sample).

(** The body of the [columns.forEach] callback: the string stored under
    [types[column]]. *)
Definition inferColumnType (data : list Row) (column : string) : string :=
  let sample := sampleOf data column in
  if Nat.eqb (length sample) 0 then "unknown"
  else if PrimFloat.ltb threshold
            (ofNat (numericCount sample) / ofNat (length sample))%float
  then "numeric"
  else if PrimFloat.ltb threshold
            (ofNat (dateCount sample) / ofNat (length sample))%float
  then "date"
  else "text".

Definition inferDataTypes (data : list Row) (columns : list string)
  : gmap string string :=
  foldl (fun types column => setType column (inferColumnType data column) types)
        ∅ columns.

(** The threshold in the words of the specification: the fraction of
    the sample, as an exact rational, strictly exceeds eight tenths. *)
Definition fractionExceeds (count total : nat) : bool :=
  negb (Qle_bool (Z.of_nat count # Pos.of_nat total) (8 # 10)).

(* ================================================================== *)
(** ** FileService *)
(* ================================================================== *)

Definition parseCSV (file : File) : result ParseFailure ParsedData.t :=
  let results := Papa.parse (fileText file) in
  match Papa.errors results with
  | e :: _ => Err (CsvParsingError e)
  | [] =>
      let data := Papa.data results in
      let columns := default [] (Papa.metaFields results) in
      let rowCount := length data in
      let preview := take 10 data in
      Ok (ParsedData.mk data columns rowCount preview)
  end.

(** [obj[header] = row[index] || ''] for every header, in order. *)
Definition rowToObject (headers : list string) (row : list Value) : Row :=
  foldl (fun obj hi =>
           setCell hi.2 (JS.or (default JUndefined (row !! hi.1)) (JStr "")) obj)
        ∅ (imap (fun index header => (index, header)) headers).

Definition parseXLSX (file : File) : result ParseFailure ParsedData.t :=
  match fileSheet file with
  | XlsxThrows message => Err (FailedToParseExcel message)
  | XlsxNoRows => Err ExcelFileIsEmpty
  | XlsxRows headers rows =>
      let processedData := map (rowToObject headers) rows in
      let columns := headers in
      let rowCount := length processedData in
      let preview := take 10 processedData in
      Ok (ParsedData.mk processedData columns rowCount preview)
  end.

(** [filename.toLowerCase().split('.').pop()] *)
Fixpoint lastSegment (cs acc : list ascii) : list ascii :=
  match cs with
  | [] => rev acc
  | c :: cs' =>
      if Ascii.eqb c "."%char then lastSegment cs' [] else lastSegment cs' (c :: acc)
  end.

Definition extension (filename : string) : string :=
  string_of_list_ascii
    (lastSegment (list_ascii_of_string (toLowerCase filename)) []).

Definition getFileType (filename : string) : option FileType :=
  let ext := extension filename in
  if String.eqb ext "csv" then Some csv
  else if String.eqb ext "xlsx" || String.eqb ext "xls" then Some xlsx
  else None.

(** *** The record map *)

Fixpoint mapSet (k : string) (v : FileData.t) (m : FileMap) : FileMap :=
  match m with
  | [] => [(k, v)]
  | (k', v') :: m' =>
      if String.eqb k' k then (k, v) :: m' else (k', v') :: mapSet k v m'
  end.

Fixpoint mapGet (k : string) (m : FileMap) : option FileData.t :=
  match m with
  | [] => None
  | (k', v') :: m' => if String.eqb k' k then Some v' else mapGet k m'
  end.

Definition mapHas (k : string) (m : FileMap) : bool :=
  match mapGet k m with Some _ => true | None => false end.

Definition mapDelete (k : string) (m : FileMap) : FileMap :=
  List.filter (fun kv => negb (String.eqb kv.1 k)) m.

Definition mapValues (m : FileMap) : list FileData.t := map snd m.

(** The service: the record map, the item kept in local storage under
    [STORAGE_KEY] (the id-to-record object that was last written there)
    and the number of times the item has been written. *)
Record Store : Type := mkStore {
  files : FileMap;
  storage : option FileMap;
  writes : nat
}.

(** The service constructed over an empty local storage. *)
Definition emptyStore : Store := mkStore [] None 0.

(** [saveFilesToStorage]; [saved] tells whether serialising the map
    and [localStorage.setItem] go through at this call.  When they throw
    (the quota is exceeded), the error is caught and logged, and the item
    stays as it was. *)
Definition saveFilesToStorage (saved : bool) (st : Store) : Store :=
  if saved then mkStore (files st) (Some (files st)) (S (writes st)) else st.

(** [uploadFile]; [newId] is what [generateId()] returns, [now] the
    clock's reading at the call and [saved] whether local storage takes
    the item. *)
Definition uploadFile (file : File) (newId : string) (now : Z) (saved : bool)
           (st : Store) : result UploadFailure FileData.t * Store :=
  match getFileType (fileName file) with
  | None => (Err UnsupportedFileType, st)
  | Some fileType =>
      let parsed :=
        match fileType with
        | csv => parseCSV file
        | xlsx => parseXLSX file
        end in
      match parsed with
      | Err error => (Err (FailedToProcessFile error), st)
      | Ok parsedData =>
          let fileData :=
            FileData.mk newId (fileName file) fileType (fileSize file) now
              (ParsedData.data parsedData) (ParsedData.columns parsedData)
              (ParsedData.rowCount parsedData) (ParsedData.preview parsedData) in
          (Ok fileData,
           saveFilesToStorage saved
             (mkStore (mapSet newId fileData (files st)) (storage st) (writes st)))
      end
  end.

(** [Array.prototype.sort] is stable; an insertion sort that puts an
    element in front of the first one it does not have to follow. *)
Fixpoint sortInsert {A : Type} (cmp : A -> A -> Z) (x : A) (l : list A) : list A :=
  match l with
  | [] => [x]
  | y :: l' => if cmp x y <=? 0 then x :: l else y :: sortInsert cmp x l'
  end.

Definition sort {A : Type} (cmp : A -> A -> Z) (l : list A) : list A :=
  foldr (sortInsert cmp) [] l.

(** [(a, b) => new Date(b.uploadedAt).getTime() - new Date(a.uploadedAt).getTime()] *)
Definition newestFirst (a b : FileData.t) : Z :=
  FileData.uploadedAt b - FileData.uploadedAt a.

Definition getFiles (st : Store) : list FileData.t :=
  sort newestFirst (mapValues (files st)).

Definition getFile (fileId : string) (st : Store) : option FileData.t :=
  mapGet fileId (files st).

Definition deleteFile (fileId : string) (saved : bool) (st : Store)
  : bool * Store :=
  let deleted := mapHas fileId (files st) in
  let st' := mkStore (mapDelete fileId (files st)) (storage st) (writes st) in
  (deleted, if deleted then saveFilesToStorage saved st' else st').

Definition objectValues (row : Row) : list Value := map snd (map_to_list row).
Definition objectKeys (row : Row) : list string := map fst (map_to_list row).

Definition searchInFile (fileId query : string) (st : Store) : list Row :=
  match mapGet fileId (files st) with
  | None => []
  | Some file =>
      let lowerQuery := toLowerCase query in
      List.filter
        (fun row =>
           existsb (fun value => includes (toLowerCase (toString value)) lowerQuery)
                   (objectValues row))
        (FileData.data file)
  end.

(** *** getFileStats *)

(** [!isNaN(Number(row[col])) && row[col] !== ''] *)
Definition looksNumeric (col : string) (row : Row) : bool :=
  negb (isNaN (Number (getCell row col))) && negb (isEmptyString (getCell row col)).

(** The columns for which every one of the first 100 rows looks numeric. *)
Definition statsNumericColumns (file : FileData.t) : list string :=
  List.filter
    (fun col => forallb (looksNumeric col) (take 100 (FileData.data file)))
    (FileData.columns file).

(** [file.data.map(row => Number(row[col])).filter(val => !isNaN(val))] *)
Definition columnValues (file : FileData.t) (col : string) : list float :=
  List.filter (fun val => negb (isNaN val))
    (map (fun row => Number (getCell row col)) (FileData.data file)).

Definition sum (values : list float) : float :=
  fold_left PrimFloat.add values PrimFloat.zero.

(** The [sampleStats] block of the first numeric column, if there is
    one and it has values; [Math.min(...values)] and [Math.max(...values)]
    throw when [values] is longer than a call takes arguments. *)
Definition sampleStatsOf (file : FileData.t) (numericColumns : list string)
  : result StatsFailure (option SampleStats.t) :=
  match numericColumns with
  | [] => Ok None
  | firstNumCol :: _ =>
      let values := columnValues file firstNumCol in
      if (0 <? length values)%nat then
        if (maxArguments <? length values)%nat then Err RangeError
        else
          Ok (Some (SampleStats.mk firstNumCol
                      (fold_left JS.min values infinity)
                      (fold_left JS.max values neg_infinity)
                      (sum values / ofNat (length values))%float
                      (length values)))
      else Ok None
  end.

Definition getFileStats (fileId : string) (st : Store)
  : result StatsFailure (option Stats.t) :=
  match mapGet fileId (files st) with
  | None => Ok None
  | Some file =>
      let numericColumns := statsNumericColumns file in
      match sampleStatsOf file numericColumns with
      | Err e => Err e
      | Ok sampleStats =>
          Ok (Some (Stats.mk
                      (FileData.rowCount file)
                      (length (FileData.columns file))
                      (length numericColumns)
                      (length (FileData.columns file) - length numericColumns)
                      sampleStats))
      end
  end.

(* ================================================================== *)
(** ** DashboardRenderer: the numeric columns of the data shown *)
(* ================================================================== *)

(** [data.slice(0, 50).some(row => !isNaN(Number(row[col])) && row[col] !== '')] *)
Definition someLooksNumeric (data : list Row) (col : string) : bool :=
  existsb (looksNumeric col) (take 50 data).

(** [Object.keys(data[0]).filter(...)]; the component renders nothing for
    empty data.  The order in which an object lists its keys is not
    modelled. *)
Definition numericColumns (data : list Row) : list string :=
  match data with
  | [] => []
  | first :: _ => List.filter (someLooksNumeric data) (objectKeys first)
  end.

(* ================================================================== *)
(** ** Sequences of calls on the service *)
(* ================================================================== *)

Inductive Call : Type :=
  | CallUpload (file : File) (newId : string) (now : Z) (saved : bool)
  | CallGetFiles
  | CallGetFile (fileId : string)
  | CallDeleteFile (fileId : string) (saved : bool)
  | CallSearchInFile (fileId query : string)
  | CallGetFileStats (fileId : string).

(** The service after a call; the calls that only read leave it as it is. *)
Definition after (c : Call) (st : Store) : Store :=
  match c with
  | CallUpload file newId now saved => (uploadFile file newId now saved st).2
  | CallDeleteFile fileId saved => (deleteFile fileId saved st).2
  | CallGetFiles | CallGetFile _ | CallSearchInFile _ _ | CallGetFileStats _ => st
  end.

Definition run (calls : list Call) (st : Store) : Store :=
  fold_left (fun s c => after c s) calls st.

End Engine.

(** The invariant of a record: [rowCount] is the length of [data] and
    [preview] is its first [min(10, rowCount)] rows. *)
Definition consistent (r : FileData.t) : Prop :=
  FileData.rowCount r = length (FileData.data r)
  /\ FileData.preview r
     = take (Nat.min 10 (FileData.rowCount r)) (FileData.data r).


(** [a] is listed no later than [b]: it is at least as new. *)
Definition notOlder (a b : FileData.t) : Prop :=
  FileData.uploadedAt b <= FileData.uploadedAt a.

(** Whether a record carries the timestamp [t]. *)
Definition uploadedAtIs (t : Z) (r : FileData.t) : bool :=
  FileData.uploadedAt r =? t.

(** The cells of a column over the whole table. *)
Definition columnCells (file : FileData.t) (col : string) : list Value :=
  map (fun row => getCell row col) (FileData.data file).

(** [!isNaN(Number(v))]: what the code takes for a number. *)
Definition convertsToNumber (v : Value) : bool := negb (isNaN (Number v)).

(* ================================================================== *)
(** ** The words of the specification *)
(* ================================================================== *)

(** What the specification says of a value that parses as a number, of
    the sample and of the rule of the type inferencer, and of the parsed
    values of a column: written from its words, not from the code. *)

Module Spec.

Definition isDigit (c : ascii) : bool :=
  let n := N_of_ascii c in ((48 <=? n) && (n <=? 57))%N.

Definition digitValue (c : ascii) : N := (N_of_ascii c - 48)%N.

(** The characters before the first point, and those after it if there
    is one. *)
Fixpoint splitAtPoint (cs : list ascii) : list ascii * option (list ascii) :=
  match cs with
  | [] => ([], None)
  | c :: cs' =>
      if Ascii.eqb c "."%char then ([], Some cs')
      else let '(whole, fraction) := splitAtPoint cs' in (c :: whole, fraction)
  end.

Definition isDigits (cs : list ascii) : bool :=
  negb (Nat.eqb (length cs) 0) && forallb isDigit cs.

(** The sign of a numeral, and the numeral without it. *)
Definition signOf (cs : list ascii) : bool * list ascii :=
  match cs with
  | "-"%char :: cs' => (true, cs')
  | "+"%char :: cs' => (false, cs')
  | _ => (false, cs)
  end.

(** "Integer or decimal, optional sign, no thousands separators": an
    optional sign, then digits, then for a decimal a point and digits. *)
Definition isNumeral (s : string) : bool :=
  match splitAtPoint (signOf (list_ascii_of_string s)).2 with
  | (whole, None) => isDigits whole
  | (whole, Some fraction) => isDigits whole && isDigits fraction
  end.

Definition natural (cs : list ascii) : N :=
  fold_left (fun n c => (n * 10 + digitValue c)%N) cs 0%N.

(** The number a numeral denotes, as the nearest binary64 value. *)
Definition numeralValue (s : string) : float :=
  let '(negative, cs) := signOf (list_ascii_of_string s) in
  let '(whole, fraction) := splitAtPoint cs in
  decimalToFloat negative (natural (whole ++ default [] fraction))
                 (- Z.of_nat (length (default [] fraction))).

(** A value that parses as a number: a number, or a string that is a
    numeral. *)
Definition parsesAsNumber (v : Value) : bool :=
  match v with
  | JNum x => negb (PrimFloat.is_nan x)
  | JStr s => isNumeral s
  | _ => false
  end.


(** "Empty-string and null/undefined values". *)
Definition isEmptyValue (v : Value) : bool :=
  match v with
  | JUndefined | JNull => true
  | JStr s => String.eqb s ""
  | _ => false
  end.

(** A record is a mapping from column name to value; a column that a
    record lacks has no value in it. *)
Definition cell (column : string) (row : Row) : Value :=
  default JUndefined (row !! column).

(** The sample: the values of the column in up to the first 100 rows,
    the empty ones excluded. *)
Definition sample (data : list Row) (column : string) : list Value :=
  List.filter (fun v => negb (isEmptyValue v)) (map (cell column) (take 100 data)).

(** The string representation of a value. *)
Definition text (numberToString : float -> string) (v : Value) : string :=
  match v with
  | JUndefined => "undefined"
  | JNull => "null"
  | JBool true => "true"
  | JBool false => "false"
  | JNum x => numberToString x
  | JStr s => s
  | JObject t => t
  end.

(** A value that parses as a date: one whose string representation
    standard date parsing accepts. *)
Definition parsesAsDate (dateParse : string -> float)
           (numberToString : float -> string) (v : Value) : bool :=
  negb (PrimFloat.is_nan (dateParse (text numberToString v))).

Definition count (test : Value -> bool) (values : list Value) : nat :=
  length (List.filter test values).

(** The rule, in its order: unknown for an empty sample, numeric when
    the fraction of the sample that parses as a number exceeds 0.8, else
    date when the fraction that parses as a date does, else text. *)
Definition classify (isNumber isDate : Value -> bool) (values : list Value)
  : string :=
  match values with
  | [] => "unknown"
  | _ :: _ =>
      if fractionExceeds (count isNumber values) (length values) then "numeric"
      else if fractionExceeds (count isDate values) (length values) then "date"
      else "text"
  end.


End Spec.


(** Whether the binary64 comparison of [inferColumnType] and the exact
    comparison of the specification agree on [n] out of [k]. *)
Definition thresholdAgrees (k n : nat) : bool :=
  Bool.eqb (PrimFloat.ltb threshold (ofNat n / ofNat k)%float)
           (fractionExceeds n k).

(* ================================================================== *)
(** ** CSV text of a header and its data lines *)
(* ================================================================== *)

(** The text of a table: the fields of a line joined by commas, the
    lines joined by line breaks, with or without a line break after the
    last line. *)
Fixpoint joinChars (sep : list ascii) (parts : list (list ascii)) : list ascii :=
  match parts with
  | [] => []
  | [part] => part
  | part :: parts' => part ++ sep ++ joinChars sep parts'
  end.

Definition csvLine (fields : list string) : list ascii :=
  joinChars [","%char] (map list_ascii_of_string fields).

(** How the lines of a text are broken: by LF or by CR LF. *)
Inductive LineBreak : Type := LF | CRLF.

Definition breakChars (br : LineBreak) : list ascii :=
  match br with
  | LF => ["010"%char]
  | CRLF => ["013"%char; "010"%char]
  end.

Definition csvText (lines : list (list string)) (br : LineBreak)
           (finalBreak : bool) : string :=
  string_of_list_ascii
    (joinChars (breakChars br) (map csvLine lines)
     ++ if finalBreak then breakChars br else []).

(** A field as a text holds it: as it is, or between double quotes with
    each double quote in it written twice. *)
Record Cell : Type := mkCell {
  isQuoted : bool;
  content : string
}.

Definition plain (f : string) : Cell := mkCell false f.

Fixpoint doubleQuotes (cs : list ascii) : list ascii :=
  match cs with
  | [] => []
  | c :: cs' =>
      if Papa.isQuote c then c :: c :: doubleQuotes cs' else c :: doubleQuotes cs'
  end.

Definition cellChars (c : Cell) : list ascii :=
  if isQuoted c
  then Papa.quote :: doubleQuotes (list_ascii_of_string (content c)) ++ [Papa.quote]
  else list_ascii_of_string (content c).

Definition cellLine (cells : list Cell) : list ascii :=
  joinChars [","%char] (map cellChars cells).

Definition cellText (lines : list (list Cell)) (br : LineBreak)
           (finalBreak : bool) : string :=
  string_of_list_ascii
    (joinChars (breakChars br) (map cellLine lines)
     ++ if finalBreak then breakChars br else []).

Definition contents (line : list Cell) : list string := map content line.

(** A field written without quoting: no comma, quote or line break. *)
Definition isPlainChar (c : ascii) : bool :=
  negb (Papa.isDelimiter Papa.comma c || Papa.isQuote c || Papa.isNewline c).

Definition isPlainField (f : string) : bool :=
  forallb isPlainChar (list_ascii_of_string f).

(** A field that the reader can take in: quoted, or plain. *)
Definition canRead (c : Cell) : bool := isQuoted c || isPlainField (content c).

(** The mode in which the reader is left by a field. *)
Definition modeAfter (c : Cell) : Papa.Mode :=
  if isQuoted c then Papa.AfterQuote else Papa.Unquoted.

(** The lines of a text that [skipEmptyLines] keeps. *)
Definition nonEmptyLines (lines : list (list string)) : list (list string) :=
  List.filter (fun line => negb (Papa.isEmptyLine line)) lines.

Definition nonEmptyCellLines (lines : list (list Cell)) : list (list Cell) :=
  List.filter (fun line => negb (Papa.isEmptyLine (contents line))) lines.

(** The characters besides the comma that the reader may take for the
    delimiter: tab, bar, semicolon, record separator, unit separator. *)
Definition isOtherDelimiter (c : ascii) : bool :=
  let n := N_of_ascii c in
  ((n =? 9) || (n =? 124) || (n =? 59) || (n =? 30) || (n =? 31))%N.

(** A field of a valid text: it holds none of these characters, and it
    is quoted unless it is plain. *)
Definition isValidCell (c : Cell) : bool :=
  forallb (fun ch => negb (isOtherDelimiter ch)) (list_ascii_of_string (content c))
  && (isQuoted c || isPlainField (content c)).

(** A valid table: a header of two or more names, no two of them the
    same, and data lines with as many fields as the header, every field
    valid. *)
Definition isValidTable (header : list Cell) (rows : list (list Cell)) : bool :=
  (2 <=? length header)%nat
  && bool_decide (NoDup (contents header))
  && forallb (fun line => forallb isValidCell line
                          && Nat.eqb (length line) (length header))
             (header :: rows).

(* ================================================================== *)
(** ** What the service keeps true of its state *)
(* ================================================================== *)

(** The item in local storage mirrors the record map, or nothing has
    been written yet and the map is empty. *)
Definition inSync (st : Store) : Prop :=
  storage st = Some (files st) \/ (storage st = None /\ files st = []).

(** Whether local storage takes the write of a call that makes one. *)
Definition callSaves (c : Call) : bool :=
  match c with
  | CallUpload _ _ _ saved | CallDeleteFile _ saved => saved
  | _ => true
  end.

(** Every key occurs once and is the id of the record it holds. *)
Definition wellKeyed (m : FileMap) : Prop :=
  NoDup (map fst m) /\ Forall (fun kv => FileData.id kv.2 = kv.1) m.

(** The name [base.ext]. *)
Definition withExtension (base ext : string) : string :=
  String.append base (String "." ext).

(** Whether a name has no dot in it. *)
Definition hasNoDot (s : string) : bool :=
  forallb (fun c => negb (Ascii.eqb c "."%char)) (list_ascii_of_string s).

(** A table whose rows all have exactly the given columns as keys. *)
Definition rectangular (columns : list string) (data : list Row) : Prop :=
  Forall (fun row : Row => forall h, is_Some (row !! h) <-> In h columns) data.

(** The columns under which a row can have a property: all but
    [__proto__], under which no row gets one. *)
Definition ownColumns (columns : list string) : list string :=
  List.filter (fun h => negb (String.eqb h "__proto__")) columns.

(** A cell as the spreadsheet parser leaves it: truthy, or the empty
    string. *)
Definition truthyOrEmpty (v : Value) : Prop :=
  toBoolean v = true \/ v = JStr "".

(** A cell as the CSV parser leaves it: a string. *)
Definition isString (v : Value) : Prop := exists s, v = JStr s.

(** All cells of a table. *)
Definition cellsSatisfy (P : Value -> Prop) (data : list Row) : Prop :=
  Forall (fun row : Row => forall h v, row !! h = Some v -> P v) data.

(** A text of plain fields whose first line is a header: every line has
    at least one field, and the header is not an empty line. *)
Definition isPlainCsv (header : list string) (rest : list (list string)) : bool :=
  negb (Papa.isEmptyLine header)
  && forallb (fun line => forallb isPlainField line
                          && negb (Nat.eqb (length line) 0))
             (header :: rest).

(** The characters the reader may take for the delimiter of a text
    that does not name one; and a text of plain fields that leaves it no
    choice but the comma: no field holds one of these characters, and
    the header has two fields or more. *)
Definition isDelimiterCandidate (c : ascii) : bool :=
  let n := N_of_ascii c in
  ((n =? 44) || (n =? 9) || (n =? 124) || (n =? 59) || (n =? 30) || (n =? 31))%N.

Definition isCommaCsv (header : list string) (rest : list (list string)) : bool :=
  isPlainCsv header rest
  && (2 <=? length header)%nat
  && forallb (forallb (fun f => forallb (fun c => negb (isDelimiterCandidate c))
                                        (list_ascii_of_string f)))
             (header :: rest).

(** A cell that [inferDataTypes] leaves out of its sample. *)
Definition isBlank (v : Value) : bool := isNullish v || isEmptyString v.

(* ================================================================== *)
(** ** LocalLLMService: the connection and the commands in a reply *)
(* ================================================================== *)

(** What the service does with the model's words.  The requests
    themselves are the environment's: the reply to [fetch] is an
    argument of the function that awaits it.  Of the configuration only
    [model] is read outside the request, and of the [LLMResponse] that
    [generateResponse] builds only [response] is read by its callers. *)

Module LocalLLM.

Inductive ConnectionStatus : Type :=
  | disconnected
  | connecting
  | connected
  | error.

Record Service : Type := mkService {
  model : string;
  isConnected : bool;
  connectionStatus : ConnectionStatus
}.

(** The service as the module constructs it. *)
Definition initial : Service := mkService "llama3.1:8b" false disconnected.

(** [updateConfig({model})] *)
Definition updateConfig (newModel : string) (svc : Service) : Service :=
  mkService newModel (isConnected svc) (connectionStatus svc).

(** What [fetch] of [/api/tags] comes to: it throws (or its body makes
    the test throw), it answers with a status that is not ok, or it
    answers ok with a body whose [models] may be missing; a model is
    given by its [name]. *)
Inductive TagsReply : Type :=
  | TagsThrows
  | TagsNotOk
  | TagsOk (models : option (list string)).

(** [s.split(':')[0]] *)
Fixpoint beforeColon (s : string) : string :=
  match s with
  | EmptyString => EmptyString
  | String c s' =>
      if Ascii.eqb c ":"%char then EmptyString else String c (beforeColon s')
  end.

(** [models.some(m => m.name === model || m.name.startsWith(model.split(':')[0]))] *)
Definition modelExists (configured : string) (names : list string) : bool :=
  existsb (fun name => String.eqb name configured
                       || String.prefix (beforeColon configured) name)
          names.

Definition testConnection (reply : TagsReply) (svc : Service) : bool * Service :=
  match reply with
  | TagsOk data =>
      let models := default [] data in
      if modelExists (model svc) models
      then (true, mkService (model svc) true connected)
      else (false, mkService (model svc) (isConnected svc) error)
  | TagsNotOk => (false, mkService (model svc) (isConnected svc) error)
  | TagsThrows => (false, mkService (model svc) false error)
  end.

(** What [fetch] of the generate endpoint comes to: it throws an error
    with a message, it answers with a status that is not ok, or it
    answers ok with a body whose [response] may be missing. *)
Inductive GenerateReply : Type :=
  | GenerateThrows (message : string)
  | GenerateNotOk (status statusText : string)
  | GenerateOk (response : option string).

Definition notConnectedMessage : string :=
  "Local LLM is not connected. Please check your configuration and connection.".

(** [generateResponse]: the [response] of its result, or the message of
    the error it throws. *)
Definition generateResponse (svc : Service) (reply : GenerateReply)
  : result string string :=
  if negb (isConnected svc) then Err notConnectedMessage
  else
    match reply with
    | GenerateOk data =>
        Ok (match data with
            | Some text => if String.eqb text "" then "No response generated" else text
            | None => "No response generated"
            end)
    | GenerateNotOk status statusText =>
        Err ("Failed to generate response: "
             +:+ ("LLM API error: " +:+ status +:+ " " +:+ statusText))
    | GenerateThrows message =>
        Err ("Failed to generate response: " +:+ message)
    end.

Definition noDataMessage : string :=
  "No data available to analyze. Please upload some files or connect a data source.".

Definition analyzeData (data : list Row) (svc : Service) (reply : GenerateReply)
  : string :=
  match data with
  | [] => noDataMessage
  | _ :: _ =>
      match generateResponse svc reply with
      | Ok response => response
      | Err message =>
          "I encountered an error while analyzing your data: " +:+ message
          +:+ ". Please check your local LLM connection."
      end
  end.

(** *** The regular expressions *)

(** [\w] *)
Definition isWordChar (c : ascii) : bool :=
  let n := N_of_ascii c in
  (((48 <=? n) && (n <=? 57)) || ((65 <=? n) && (n <=? 90))
   || ((97 <=? n) && (n <=? 122)) || (n =? 95))%N.

(** [[^\]]] *)
Definition isNotClose (c : ascii) : bool := negb (Ascii.eqb c "]"%char).

(** The longest run of characters of a class at the start of a text, and
    what follows it. *)
Fixpoint span (p : ascii -> bool) (cs : list ascii) : list ascii * list ascii :=
  match cs with
  | c :: cs' =>
      if p c then let '(run, rest) := span p cs' in (c :: run, rest)
      else ([], cs)
  | [] => ([], [])
  end.

Fixpoint stripPrefix (literal cs : list ascii) : option (list ascii) :=
  match literal, cs with
  | [], _ => Some cs
  | a :: literal', c :: cs' =>
      if Ascii.eqb a c then stripPrefix literal' cs' else None
  | _ :: _, [] => None
  end.

Definition opener : list ascii := list_ascii_of_string "[VISUALIZATION:".

(** [/\[VISUALIZATION:(\w+):([^\]]+)\]/] tried at the start of a text:
    the two groups and the text after the match.  Each of the two
    repetitions is greedy and must be followed by a character outside
    its class, so only its longest run can lead to a match. *)
Definition matchCommand (cs : list ascii)
  : option (list ascii * list ascii * list ascii) :=
  match stripPrefix opener cs with
  | Some afterOpener =>
      match span isWordChar afterOpener with
      | ((_ :: _) as chartType, ":"%char :: afterColon) =>
          match span isNotClose afterColon with
          | ((_ :: _) as title, "]"%char :: rest) => Some (chartType, title, rest)
          | _ => None
          end
      | _ => None
      end
  | None => None
  end.

(** [/\[VISUALIZATION:[^\]]+\]/] tried at the start of a text: the text
    after the match. *)
Definition matchMarker (cs : list ascii) : option (list ascii) :=
  match stripPrefix opener cs with
  | Some afterOpener =>
      match span isNotClose afterOpener with
      | (_ :: _, "]"%char :: rest) => Some rest
      | _ => None
      end
  | None => None
  end.

(** [response.match(regex)]: the match that starts first. *)
Fixpoint firstCommand (cs : list ascii) : option (list ascii * list ascii) :=
  match matchCommand cs with
  | Some (chartType, title, _) => Some (chartType, title)
  | None =>
      match cs with
      | [] => None
      | _ :: cs' => firstCommand cs'
      end
  end.

(** [response.replace(regex, '')]: the text without the match that
    starts first. *)
Fixpoint removeFirstMarker (cs : list ascii) : list ascii :=
  match matchMarker cs with
  | Some rest => rest
  | None =>
      match cs with
      | [] => []
      | c :: cs' => c :: removeFirstMarker cs'
      end
  end.

Module Command.
Record t : Type := mk {
  chartType : string;
  title : string
}.
End Command.

Definition parseVisualizationCommand (response : string) : option Command.t :=
  match firstCommand (list_ascii_of_string response) with
  | Some (chartType, title) =>
      Some (Command.mk (string_of_list_ascii chartType)
                       (string_of_list_ascii title))
  | None => None
  end.

(** *** suggestVisualization *)

Module Suggestion.
Record t : Type := mk {
  chartType : string;
  reasoning : string
}.
End Suggestion.

Definition chartTypeIn (text : string) : string :=
  if includes text "line" then "line"
  else if includes text "pie" then "pie"
  else if includes text "area" then "area"
  else if includes text "scatter" then "scatter"
  else if includes text "dashboard" then "dashboard"
  else "bar".

Definition suggestVisualization (data : list Row) (svc : Service)
           (reply : GenerateReply) : Suggestion.t :=
  match data with
  | [] =>
      Suggestion.mk "bar" "Default bar chart selected as no data is available."
  | _ :: _ =>
      match generateResponse svc reply with
      | Ok response =>
          Suggestion.mk (chartTypeIn (toLowerCase response)) response
      | Err _ =>
          Suggestion.mk "bar"
            "Default bar chart selected due to LLM connection error."
      end
  end.

(** *** analyzeDataWithVisualization *)

Module Analysis.
Record t : Type := mk {
  response : string;
  shouldCreateVisualization : bool;
  chartType : option string;
  chartTitle : option string
}.
End Analysis.

Definition visualizationKeywords : list string :=
  ["chart"; "graph"; "plot"; "visualize"; "show"; "display"; "create";
   "bar chart"; "line chart"; "pie chart"; "scatter plot"; "dashboard"].

Definition hasVisualizationIntent (lowerQuery lowerResponse : string) : bool :=
  existsb (fun keyword => includes lowerQuery keyword
                          || includes lowerResponse keyword)
          visualizationKeywords.

(** [String.prototype.toUpperCase] on the letters a to z. *)
Definition upperChar (c : ascii) : ascii :=
  let n := N_of_ascii c in
  if ((97 <=? n) && (n <=? 122))%N then ascii_of_N (n - 32) else c.

(** [s.charAt(0).toUpperCase() + s.slice(1)] *)
Definition capitalize (s : string) : string :=
  match s with
  | EmptyString => EmptyString
  | String c s' => String (upperChar c) s'
  end.

(** [response.replace(/\[VISUALIZATION:[^\]]+\]/, '').trim()] *)
Definition withoutMarker (response : string) : string :=
  string_of_list_ascii (trim (removeFirstMarker (list_ascii_of_string response))).

(** [analyzeDataWithVisualization]; [analysisReply] is the reply to the
    request of [analyzeData], [suggestionReply] the reply to the request
    of [suggestVisualization], should it come to that. *)
Definition analyzeDataWithVisualization (data : list Row) (query : string)
           (svc : Service) (analysisReply suggestionReply : GenerateReply)
  : Analysis.t :=
  let response := analyzeData data svc analysisReply in
  match parseVisualizationCommand response with
  | Some visualizationCommand =>
      Analysis.mk (withoutMarker response) true
                  (Some (Command.chartType visualizationCommand))
                  (Some (Command.title visualizationCommand))
  | None =>
      let lowerResponse := toLowerCase response in
      let lowerQuery := toLowerCase query in
      if hasVisualizationIntent lowerQuery lowerResponse then
        let suggestion := suggestVisualization data svc suggestionReply in
        Analysis.mk response true
                    (Some (Suggestion.chartType suggestion))
                    (Some (capitalize (Suggestion.chartType suggestion) +:+ " Chart"))
      else Analysis.mk response false None None
  end.

(** The calls that change the service, and the service after a sequence
    of them. *)
Inductive Step : Type :=
  | StepUpdateConfig (newModel : string)
  | StepTestConnection (reply : TagsReply).

Definition afterStep (s : Step) (svc : Service) : Service :=
  match s with
  | StepUpdateConfig newModel => updateConfig newModel svc
  | StepTestConnection reply => (testConnection reply svc).2
  end.

Definition runSteps (steps : list Step) (svc : Service) : Service :=
  fold_left (fun s step => afterStep step s) steps svc.

(** The marker the prompt asks the model for. *)
Definition marker (chartType title : string) : string :=
  "[VISUALIZATION:" +:+ chartType +:+ ":" +:+ title +:+ "]".

Definition isChartWord (s : string) : bool :=
  negb (String.eqb s "") && forallb isWordChar (list_ascii_of_string s).

Definition isTitle (s : string) : bool :=
  negb (String.eqb s "") && forallb isNotClose (list_ascii_of_string s).

Definition hasNoOpenBracket (s : string) : bool :=
  forallb (fun c => negb (Ascii.eqb c "["%char)) (list_ascii_of_string s).

Definition availableChartTypes : list string :=
  ["bar"; "line"; "pie"; "area"; "scatter"; "dashboard"].

(** What [analyzeData] answers while the service is not connected. *)
Definition offlineMessage : string :=
  "I encountered an error while analyzing your data: " +:+ notConnectedMessage
  +:+ ". Please check your local LLM connection.".

(** [s.trim()] *)
Definition trimmed (s : string) : string :=
  string_of_list_ascii (trim (list_ascii_of_string s)).

End LocalLLM.

(* ================================================================== *)
(** ** FileUpload: the list the dialog shows *)
(* ================================================================== *)

(** The state of the component that the handlers below change:
    [uploadedFiles], [selectedFile] and [error] (the failure whose
    message is shown, if any), with the service they call. *)
Module Dialog.
Record t : Type := mk {
  uploadedFiles : list FileData.t;
  selectedFile : option FileData.t;
  error : option UploadFailure;
  service : Store
}.
End Dialog.

(** The component when it is mounted: [useState(fileService.getFiles())]. *)
Definition mountDialog (st : Store) : Dialog.t :=
  Dialog.mk (getFiles st) None None st.

(** A file that is handed to [uploadFile], with what [generateId()]
    returns and the clock reads at that call. *)
Record Upload : Type := mkUpload {
  uploadOf : File;
  idOf : string;
  clockOf : Z;
  savedOf : bool
}.

(** The loop of [handleFiles]: each record is put in front of the list;
    the first failure ends the loop and sets [error]. *)
Fixpoint uploadEach (batch : list Upload) (d : Dialog.t) : Dialog.t :=
  match batch with
  | [] => d
  | u :: rest =>
      match uploadFile (uploadOf u) (idOf u) (clockOf u) (savedOf u) (Dialog.service d) with
      | (Ok fileData, st) =>
          uploadEach rest
            (Dialog.mk (fileData :: Dialog.uploadedFiles d)
                       (Dialog.selectedFile d) (Dialog.error d) st)
      | (Err failure, st) =>
          Dialog.mk (Dialog.uploadedFiles d) (Dialog.selectedFile d)
                    (Some failure) st
      end
  end.

Definition handleFiles (batch : list Upload) (d : Dialog.t) : Dialog.t :=
  uploadEach batch
    (Dialog.mk (Dialog.uploadedFiles d) (Dialog.selectedFile d) None
               (Dialog.service d)).

Definition handleDeleteFile (fileId : string) (saved : bool) (d : Dialog.t)
  : Dialog.t :=
  Dialog.mk
    (List.filter (fun f => negb (String.eqb (FileData.id f) fileId))
                 (Dialog.uploadedFiles d))
    (match Dialog.selectedFile d with
     | Some f => if String.eqb (FileData.id f) fileId then None else Some f
     | None => None
     end)
    (Dialog.error d)
    (deleteFile fileId saved (Dialog.service d)).2.

(** The dialog lists what the service would list. *)
Definition mirrorsService (d : Dialog.t) : Prop :=
  Dialog.uploadedFiles d = getFiles (Dialog.service d).

(** An upload that comes with an id the service does not hold and at a
    time after that of every record it holds; and a batch of such. *)
Definition isNewer (u : Upload) (st : Store) : bool :=
  negb (mapHas (idOf u) (files st))
  && forallb (fun r => FileData.uploadedAt r <? clockOf u) (mapValues (files st)).

Fixpoint allNewer (batch : list Upload) (st : Store) : bool :=
  match batch with
  | [] => true
  | u :: rest =>
      isNewer u st
      && allNewer rest (uploadFile (uploadOf u) (idOf u) (clockOf u) (savedOf u) st).2
  end.

(** The service after the uploads of a batch, one after the other. *)
Definition uploaded (batch : list Upload) (st : Store) : Store :=
  fold_left (fun s u => (uploadFile (uploadOf u) (idOf u) (clockOf u) (savedOf u) s).2)
            batch st.

(* ================================================================== *)
(** ** DashboardRenderer: the data quality shown *)
(* ================================================================== *)

(** [data.reduce((count, row) => count + Object.values(row).filter(val =>
    val !== null && val !== undefined && val !== '').length, 0)] *)
Definition filledCells (data : list Row) : nat :=
  foldl (fun count row =>
           (count
            + length (List.filter (fun val => negb (isNullish val)
                                              && negb (isEmptyString val))
                                  (objectValues row)))%nat)
        0%nat data.

(** [data.length * columns.length], with [columns = Object.keys(data[0])];
    the component renders nothing for empty data. *)
Definition totalCells (data : list Row) : option nat :=
  match data with
  | [] => None
  | first :: _ => Some (length data * length (objectKeys first))%nat
  end.

(* ================================================================== *)
(** ** One engine, to run the definitions on examples *)
(* ================================================================== *)

Module Samples.

Definition isDigit (c : ascii) : bool :=
  match digitOf 10 c with Some _ => true | None => false end.

(** An engine whose [Date.parse] accepts exactly the calendar form
    [YYYY-MM-DD], read as midnight UTC. *)
Definition daysFromCivil (y m d : Z) : Z :=
  let y' := if m <=? 2 then y - 1 else y in
  let era := y' / 400 in
  let yoe := y' - era * 400 in
  let mp := (m + 9) mod 12 in
  let doy := (153 * mp + 2) / 5 + d - 1 in
  let doe := yoe * 365 + yoe / 4 - yoe / 100 + doy in
  era * 146097 + doe - 719468.

Definition daysInMonth (y m : Z) : Z :=
  if m =? 2 then
    (if ((y mod 4 =? 0) && negb (y mod 100 =? 0)) || (y mod 400 =? 0)
     then 29 else 28)
  else if (m =? 4) || (m =? 6) || (m =? 9) || (m =? 11) then 30 else 31.

Definition dateParse (s : string) : float :=
  match list_ascii_of_string s with
  | [y1; y2; y3; y4; "-"%char; m1; m2; "-"%char; d1; d2] =>
      if forallb isDigit [y1; y2; y3; y4; m1; m2; d1; d2] then
        let y := Z.of_N (fst (fst (readDigits 10 [y1; y2; y3; y4] 0 0))) in
        let m := Z.of_N (fst (fst (readDigits 10 [m1; m2] 0 0))) in
        let d := Z.of_N (fst (fst (readDigits 10 [d1; d2] 0 0))) in
        if (1 <=? m) && (m <=? 12) && (1 <=? d) && (d <=? daysInMonth y m) then
          SF2Prim (binary_normalize prec emax
                     (daysFromCivil y m d * 86400000) 0 false)
        else nan
      else nan
  | _ => nan
  end.

Fixpoint digitsOf (fuel : nat) (n : N) (acc : list ascii) : list ascii :=
  match fuel with
  | O => acc
  | S fuel' =>
      let acc' := ascii_of_N (48 + n mod 10) :: acc in
      if (n / 10 =? 0)%N then acc' else digitsOf fuel' (n / 10) acc'
  end.

(** [Number.prototype.toString] on [NaN], the infinities, the zeros and
    the integers of magnitude below 2^53; this engine prints only the
    integer part of any other number. *)
Definition numberToString (x : float) : string :=
  match Prim2SF x with
  | S754_nan => "NaN"
  | S754_infinity s => if s then "-Infinity" else "Infinity"
  | S754_zero _ => "0"
  | S754_finite s m e =>
      let n := Z.to_N (if 0 <=? e then Z.pos m * 2 ^ e else Z.pos m / 2 ^ (- e)) in
      let ds := string_of_list_ascii (digitsOf 400 n []) in
      if s then "-" ++ ds else ds
  end.

(** Builds a row object from its entries, in order. *)
Definition object (entries : list (string * Value)) : Row :=
  foldl (fun obj kv => <[kv.1 := kv.2]> obj) ∅ entries.

(** Scenario D: one column holding "1", "2", "abc", "4", "5". *)
Definition scenarioD : list Row :=
  map (fun s => object [("v", JStr s)]) ["1"; "2"; "abc"; "4"; "5"].

(** A column of strings that hold one space each. *)
Definition blanks : list Row :=
  map (fun s => object [("v", JStr s)]) [" "; " "; " "].

(** A table with the one column name. *)
Definition named : list Row := [object [("name", JStr "a")]].

(** Scenario A: header name,value and the rows (a,1), (b,2), (c,3). *)
Definition scenarioA : File :=
  mkFile "sales.csv" 24
    (csvText [["name"; "value"]; ["a"; "1"]; ["b"; "2"]; ["c"; "3"]] LF true)
    XlsxNoRows.

(** Scenario B: a CSV file with a header line only. *)
Definition headerOnly : File :=
  mkFile "empty.csv" 11 (csvText [["name"; "value"]] LF true) XlsxNoRows.

(** Scenario C: a file with an extension that is not recognised. *)
Definition report : File := mkFile "report.pdf" 4 "%PDF" XlsxNoRows.

(** A CSV file whose quoted field is never closed. *)
Definition unterminated : File :=
  mkFile "broken.csv" 9
    (string_of_list_ascii
       (list_ascii_of_string "a,b" ++ ["010"%char; Papa.quote]
        ++ list_ascii_of_string "x,y"))
    XlsxNoRows.

(** A workbook whose first sheet has no rows at all. *)
Definition emptySheet : File := mkFile "book.xlsx" 0 "" XlsxNoRows.

(** The service after Scenario A has been uploaded. *)
Definition oneFile : Store := (uploadFile scenarioA "f1" 1000 true emptyStore).2.

(** The service after a second upload within the same millisecond. *)
Definition twoAtOnce : Store :=
  (uploadFile headerOnly "f2" 1000 true oneFile).2.

(** The statistics of Scenario A: min 1, max 3, average 2, count 3. *)
Definition oneFileStats : Stats.t :=
  Stats.mk 3 2 1 1 (Some (SampleStats.mk "value" 1 3 2 3)).

(** A column with one number and one word. *)
Definition mixed : list Row :=
  [object [("v", JStr "1")]; object [("v", JStr "abc")]].

(** A sheet with a zero in it. *)
Definition stock : File :=
  mkFile "stock.xlsx" 512 ""
    (XlsxRows ["item"; "qty"] [[JStr "bolt"; JNum 0]; [JStr "nut"; JNum 12]; [JStr "washer"]]).

(** A table with two numeric columns, uploaded to the fresh service. *)
Definition measurements : File :=
  mkFile "measurements.csv" 18
    (csvText [["x"; "y"]; ["1"; "10"]; ["2"; "20"]; ["3"; "60"]] LF true)
    XlsxNoRows.

Definition measured : Store :=
  (uploadFile measurements "m1" 1000 true emptyStore).2.

(** Scenario E: a table with "ABC Corp" in one cell. *)
Definition customers : File :=
  mkFile "customers.csv" 40
    (csvText [["id"; "company"]; ["1"; "ABC Corp"]; ["2"; "Initech"]] LF false)
    XlsxNoRows.

(** A CSV file one of whose lines lacks a field. *)
Definition ragged : File :=
  mkFile "ragged.csv" 20
    (csvText [["name"; "value"]; ["a"; "1"]; ["b"]; ["c"; "3"]] LF true)
    XlsxNoRows.

(** A CSV file with one column. *)
Definition oneColumn : File :=
  mkFile "names.csv" 12 (csvText [["name"]; ["ann"]; ["bob"]] LF false) XlsxNoRows.

(** A CSV file whose fields hold semicolons. *)
Definition semicolons : File :=
  mkFile "pairs.csv" 15 (csvText [["a;b"; "c;d"]; ["1;2"; "3;4"]] LF false)
    XlsxNoRows.

(** A CSV file that names two columns alike. *)
Definition repeated : File :=
  mkFile "twice.csv" 7 (csvText [["a"; "a"]; ["1"; "2"]] LF false) XlsxNoRows.

(** A CSV file with quoted fields: one holds a comma, one a line break
    and a double quote; one line is empty. *)
Definition notes : list (list Cell) :=
  [[plain "name"; plain "note"];
   [plain "a"; mkCell true "x, y"];
   [plain ""];
   [mkCell true "b";
    mkCell true (string_of_list_ascii
                   (list_ascii_of_string "say" ++ ["010"%char; Papa.quote]
                    ++ list_ascii_of_string "hi"))]].

Definition quoted : File :=
  mkFile "notes.csv" 39 (cellText notes CRLF true) XlsxNoRows.

(** A sequence of calls on the fresh service. *)
Definition session : list Call :=
  [CallUpload scenarioA "f1" 1000 true; CallGetFiles; CallSearchInFile "f1" "b";
   CallUpload report "f2" 2000 true; CallDeleteFile "f7" true; CallGetFile "f1";
   CallUpload headerOnly "f3" 3000 false; CallGetFileStats "f1";
   CallDeleteFile "f3" true].

End Samples.

(* ================================================================== *)
(** * Properties *)
(* ================================================================== *)

Example number_examples :
  map (fun s => isNaN (stringToNumber s))
      ["1"; "2"; "abc"; "4"; "5"; ""; "  "; " 12.5 "; "-3e2"; "1,000"; ".";
       "0x1F"; "-0x1F"; "Infinity"; "1e"; "1.5.2"; "+.5"; "12px"]
  = [false; false; true; false; false; false; false; false; false; true; true;
     false; true; false; true; true; false; true].
Proof. vm_compute. reflexivity. Qed.

Example number_values :
  map stringToNumber ["12.5"; "-3e2"; "0x1F"; ".5"; "1e-2"; "  7 "]
  = [12.5%float; (-300)%float; 31%float; 0.5%float;
     0x1.47ae147ae147bp-7%float; 7%float].
Proof. vm_compute. reflexivity. Qed.

Example numeral_examples :
  map Spec.isNumeral
      ["1"; "-12"; "+3.25"; "abc"; ""; " "; "1."; ".5"; "1e3"; "0x1F";
       "Infinity"; "1,000"; " 7"; "1.5.2"; "-"]
  = [true; true; true; false; false; false; false; false; false; false;
     false; false; false; false; false]
  /\ map Spec.numeralValue ["12.5"; "-300"; "007"; "-0.25"]
     = [12.5%float; (-300)%float; 7%float; (-0.25)%float].
Proof. vm_compute. split; reflexivity. Qed.

Example engine_examples :
  map Samples.numberToString [42%float; (-7)%float; nan; 0%float]
    = ["42"; "-7"; "NaN"; "0"]
  /\ map (fun s => isNaN (Samples.dateParse s))
         ["2024-02-29"; "2023-02-29"; "abc"; "1"; "1970-01-01"]
    = [false; true; true; true; false]
  /\ Samples.dateParse "1970-01-02" = 86400000%float.
Proof. vm_compute. repeat split; reflexivity. Qed.

(** *** The threshold *)

Lemma threshold_table :
  forallb (fun k => forallb (thresholdAgrees k) (seq 0 (S k))) (seq 1 100) = true.
Proof. vm_compute. reflexivity. Qed.

Lemma threshold_exact (n k : nat) :
  (1 <= k <= 100)%nat -> (n <= k)%nat ->
  PrimFloat.ltb threshold (ofNat n / ofNat k)%float = fractionExceeds n k.
Proof.
  intros Hk Hn.
  pose proof threshold_table as T.
  rewrite forallb_forall in T.
  specialize (T k).
  rewrite forallb_forall in T.
  assert (Hin : In k (seq 1 100)) by (apply in_seq; lia).
  specialize (T Hin n).
  assert (Hin' : In n (seq 0 (S k))) by (apply in_seq; lia).
  specialize (T Hin').
  unfold thresholdAgrees in T.
  now apply Bool.eqb_prop in T.
Qed.

(** *** inferDataTypes *)

Lemma filter_length_le {A : Type} (f : A -> bool) (l : list A) :
  (length (List.filter f l) <= length l)%nat.
Proof.
  induction l as [|x l IH]; simpl; [lia|].
  destruct (f x); simpl; lia.
Qed.

Lemma filter_agree {A : Type} (f g : A -> bool) (l : list A) :
  forallb (fun x => Bool.eqb (f x) (g x)) l = true ->
  List.filter f l = List.filter g l.
Proof.
  induction l as [|x l IH]; [reflexivity|].
  cbn [forallb List.filter]. intros [Hx Hl]%andb_true_iff.
  apply Bool.eqb_prop in Hx. now rewrite Hx, IH.
Qed.

Lemma filter_pointwise {A : Type} (f g : A -> bool) (l : list A) :
  (forall x, f x = g x) -> List.filter f l = List.filter g l.
Proof.
  intros H. induction l as [|x l IH]; [reflexivity|].
  cbn [List.filter]. now rewrite H, IH.
Qed.

Lemma getCell_cell (row : Row) (column : string) :
  inherited column = JUndefined -> getCell row column = Spec.cell column row.
Proof.
  intros H. unfold getCell, Spec.cell. now destruct (row !! column).
Qed.

Lemma isEmptyValue_excluded (v : Value) :
  negb (isNullish v) && negb (isEmptyString v) = negb (Spec.isEmptyValue v).
Proof. destruct v as [| | | |[|c s]|]; reflexivity. Qed.

Lemma sampleOf_sample (data : list Row) (column : string) :
  inherited column = JUndefined -> sampleOf data column = Spec.sample data column.
Proof.
  intros H. unfold sampleOf, Spec.sample.
  rewrite (filter_pointwise _ _ _ isEmptyValue_excluded). f_equal.
  apply map_ext. intros row. now apply getCell_cell.
Qed.

Section InferDataTypes.

Variable dateParse : string -> float.
Variable numberToString : float -> string.

Lemma sampleOf_length (data : list Row) (column : string) :
  (length (sampleOf data column) <= 100)%nat.
Proof.
  unfold sampleOf.
  etransitivity; [apply filter_length_le|].
  rewrite length_map, length_take. lia.
Qed.

Lemma numericCount_le (sample : list Value) :
  (numericCount sample <= length sample)%nat.
Proof. apply filter_length_le. Qed.

Lemma dateCount_le (sample : list Value) :
  (dateCount dateParse numberToString sample <= length sample)%nat.
Proof. apply filter_length_le. Qed.

Lemma toString_text (v : Value) :
  toString numberToString v = Spec.text numberToString v.
Proof. destruct v as [| |[|]| | |]; reflexivity. Qed.

Lemma dateCount_count (sample : list Value) :
  dateCount dateParse numberToString sample
  = Spec.count (Spec.parsesAsDate dateParse numberToString) sample.
Proof.
  unfold dateCount, Spec.count. apply (f_equal (@length Value)).
  apply filter_pointwise.
  intros v. unfold Spec.parsesAsDate, isNaN. now rewrite toString_text.
Qed.

(** The binary64 comparisons of the code give the ordered rule over
    exact fractions, with [Number] deciding what a number is. *)
Lemma inferColumnType_classify (data : list Row) (column : string) :
  inferColumnType dateParse numberToString data column
  = Spec.classify convertsToNumber
      (Spec.parsesAsDate dateParse numberToString) (sampleOf data column).
Proof.
  unfold inferColumnType.
  pose proof (sampleOf_length data column) as Hlen.
  destruct (sampleOf data column) as [|v sample] eqn:E; [reflexivity|].
  change (Nat.eqb (length (v :: sample)) 0) with false.
  cbv beta iota zeta.
  unfold Spec.classify.
  rewrite <- dateCount_count.
  change (Spec.count convertsToNumber (v :: sample))
    with (numericCount (v :: sample)).
  rewrite !threshold_exact;
    auto using numericCount_le, dateCount_le; simpl in *; lia.
Qed.

Lemma inferDataTypes_lookup (data : list Row) (columns : list string)
      (column : string) :
  In column columns -> column <> "__proto__" ->
  inferDataTypes dateParse numberToString data columns !! column
  = Some (inferColumnType dateParse numberToString data column).
Proof.
  unfold inferDataTypes. intros Hin Hown.
  apply String.eqb_neq in Hown.
  generalize (∅ : gmap string string) as types. revert Hin.
  induction columns as [|c columns IH] using rev_ind; intros Hin types.
  - destruct Hin.
  - rewrite foldl_app. cbn [foldl]. unfold setType at 1.
    destruct (decide (c = column)) as [->|Hne].
    + rewrite Hown. apply lookup_insert_eq.
    + assert (Hrest : In column columns)
        by (apply in_app_or in Hin as [Hin|[Heq|[]]]; congruence).
      destruct (String.eqb c "__proto__"); [now apply IH|].
      rewrite lookup_insert_ne by exact Hne. now apply IH.
Qed.

End InferDataTypes.

(** C1, as stated, fails.  A column of strings that hold one space each
    is classified 'numeric', since [Number] reads such a string as 0,
    while no value of it is an integer or a decimal and the rule of the
    claim gives 'text'.  And a column named toString that no row has is
    classified 'text', since each row inherits a function under that
    name, while for the claim the column has no values and is
    'unknown'. *)
Lemma blank_strings_count_as_numbers :
  inferDataTypes Samples.dateParse Samples.numberToString Samples.blanks ["v"]
    !! "v" = Some "numeric"
  /\ Spec.classify Spec.parsesAsNumber
       (Spec.parsesAsDate Samples.dateParse Samples.numberToString)
       (Spec.sample Samples.blanks "v") = "text"
  /\ inferDataTypes Samples.dateParse Samples.numberToString Samples.named
       ["toString"] !! "toString" = Some "text"
  /\ Spec.classify Spec.parsesAsNumber
       (Spec.parsesAsDate Samples.dateParse Samples.numberToString)
       (Spec.sample Samples.named "toString") = "unknown".
Proof. vm_compute. repeat split; reflexivity. Qed.

(** C1, amended: for every table and every column whose name is not one
    that rows inherit, the inferencer's answer is the ordered rule
    applied to the sample (the values of the column in the first 100
    rows, without null, undefined and empty strings): 'unknown' for an
    empty sample, 'numeric' when the fraction of values that [Number]
    converts strictly exceeds 8/10, else 'date' when the fraction that
    parses as a date does, else 'text'.  On a sample whose values
    convert exactly when they are numbers or numerals (integer or
    decimal, optional sign), this is the rule with the numerals of the
    claim.  The sample "1","2","abc","4","5" sits on the boundary (4/5)
    and is 'text', on any engine whose [Date.parse] rejects "abc". *)
Theorem inferDataTypes_follows_rule
        (dateParse : string -> float) (numberToString : float -> string) :
  (forall data columns column,
      In column columns ->
      inherited column = JUndefined ->
      inferDataTypes dateParse numberToString data columns !! column
      = Some (Spec.classify convertsToNumber
                (Spec.parsesAsDate dateParse numberToString)
                (Spec.sample data column)))
  /\ (forall data columns column,
      In column columns ->
      inherited column = JUndefined ->
      forallb (fun v => Bool.eqb (convertsToNumber v) (Spec.parsesAsNumber v))
              (Spec.sample data column) = true ->
      inferDataTypes dateParse numberToString data columns !! column
      = Some (Spec.classify Spec.parsesAsNumber
                (Spec.parsesAsDate dateParse numberToString)
                (Spec.sample data column)))
  /\ (forall data columns column,
      In column columns ->
      inherited column = JUndefined ->
      isNaN (dateParse "abc") = true ->
      Spec.sample data column
      = [JStr "1"; JStr "2"; JStr "abc"; JStr "4"; JStr "5"] ->
      inferDataTypes dateParse numberToString data columns !! column
      = Some "text").
Proof.
  assert (Hrule : forall data columns column,
             In column columns ->
             inherited column = JUndefined ->
             inferDataTypes dateParse numberToString data columns !! column
             = Some (Spec.classify convertsToNumber
                       (Spec.parsesAsDate dateParse numberToString)
                       (Spec.sample data column))).
  { intros data columns column Hin Hown.
    rewrite inferDataTypes_lookup;
      [|exact Hin|intros ->; discriminate Hown].
    now rewrite inferColumnType_classify, sampleOf_sample. }
  split; [exact Hrule|]. split.
  - intros data columns column Hin Hown Hagree.
    rewrite Hrule by assumption. f_equal.
    unfold Spec.classify, Spec.count.
    now rewrite (filter_agree _ _ _ Hagree).
  - intros data columns column Hin Hown Habc Hsample.
    rewrite Hrule by assumption. rewrite Hsample. f_equal.
    unfold Spec.classify.
    change (Spec.count convertsToNumber _) with 4%nat.
    change (fractionExceeds 4 _) with false.
    cbv beta iota.
    assert (Hd : (Spec.count (Spec.parsesAsDate dateParse numberToString)
                   [JStr "1"; JStr "2"; JStr "abc"; JStr "4"; JStr "5"] <= 4)%nat).
    { unfold Spec.count, Spec.parsesAsDate.
      cbn [List.filter Spec.text]. unfold isNaN in Habc. rewrite Habc.
      cbn [negb].
      repeat (match goal with
              | |- context [negb ?b] => destruct b; cbn [negb length]
              end); cbn [length]; lia. }
    remember (Spec.count _ _) as d.
    simpl length.
    assert (Hcases : (d = 0 \/ d = 1 \/ d = 2 \/ d = 3 \/ d = 4)%nat) by lia.
    destruct Hcases as [->|[->|[->|[->| ->]]]]; reflexivity.
Qed.

Lemma inferDataTypes_follows_rule_witness :
  inferDataTypes Samples.dateParse Samples.numberToString Samples.scenarioD ["v"]
    !! "v"
  = Some (Spec.classify Spec.parsesAsNumber
            (Spec.parsesAsDate Samples.dateParse Samples.numberToString)
            (Spec.sample Samples.scenarioD "v"))
  /\ inferDataTypes Samples.dateParse Samples.numberToString Samples.scenarioD
       ["v"] !! "v" = Some "text".
Proof.
  split.
  - apply (proj1 (proj2 (inferDataTypes_follows_rule Samples.dateParse
                           Samples.numberToString))).
    + simpl. auto.
    + reflexivity.
    + vm_compute. reflexivity.
  - apply (proj2 (proj2 (inferDataTypes_follows_rule Samples.dateParse
                           Samples.numberToString))).
    + simpl. auto.
    + reflexivity.
    + reflexivity.
    + reflexivity.
Defined.

(** *** Reading CSV text *)

Section CsvReading.

Import Papa.

Lemma step_plain_char (c : ascii) buf fs rs errs :
  isPlainChar c = true ->
  step comma (mkLexer Unquoted false buf fs rs errs) c
  = mkLexer Unquoted false (c :: buf) fs rs errs.
Proof.
  unfold isPlainChar, step. cbn [mode afterCR andb].
  intros H. apply negb_true_iff in H.
  apply orb_false_iff in H as [H Hn].
  apply orb_false_iff in H as [Hd Hq].
  now rewrite Hq, Hd, Hn.
Qed.

Lemma run_field (cs : list ascii) buf fs rs errs :
  forallb isPlainChar cs = true ->
  fold_left (step comma) cs (mkLexer Unquoted false buf fs rs errs)
  = mkLexer Unquoted false (rev cs ++ buf) fs rs errs.
Proof.
  revert buf.
  induction cs as [|c cs IH]; intros buf H; [reflexivity|].
  cbn [forallb] in H. apply andb_true_iff in H as [Hc Hcs].
  cbn [fold_left]. rewrite step_plain_char by exact Hc.
  rewrite IH by exact Hcs.
  cbn [rev]. now rewrite <- app_assoc.
Qed.

Lemma step_quoted_other (c : ascii) buf fs rs errs :
  isQuote c = false ->
  step comma (mkLexer Quoted false buf fs rs errs) c
  = mkLexer Quoted false (c :: buf) fs rs errs.
Proof. intros H. unfold step. cbn [mode]. now rewrite H. Qed.

Lemma step_quoted_quote (c : ascii) buf fs rs errs :
  isQuote c = true ->
  step comma (step comma (mkLexer Quoted false buf fs rs errs) c) c
  = mkLexer Quoted false (c :: buf) fs rs errs.
Proof.
  intros H. unfold step at 2. cbn [mode]. rewrite H.
  unfold step. cbn [mode]. now rewrite H.
Qed.

(** Between quotes every character is kept, a doubled quote as one. *)
Lemma run_quoted (cs : list ascii) buf fs rs errs :
  fold_left (step comma) (doubleQuotes cs) (mkLexer Quoted false buf fs rs errs)
  = mkLexer Quoted false (rev cs ++ buf) fs rs errs.
Proof.
  revert buf.
  induction cs as [|c cs IH]; intros buf; [reflexivity|].
  cbn [doubleQuotes]. destruct (isQuote c) eqn:E; cbn [fold_left].
  - rewrite step_quoted_quote by exact E.
    rewrite IH. cbn [rev]. now rewrite <- app_assoc.
  - rewrite step_quoted_other by exact E.
    rewrite IH. cbn [rev]. now rewrite <- app_assoc.
Qed.

Lemma run_cell (c : Cell) fs rs errs :
  canRead c = true ->
  fold_left (step comma) (cellChars c) (mkLexer Unquoted false [] fs rs errs)
  = mkLexer (modeAfter c) false (rev (list_ascii_of_string (content c)))
            fs rs errs.
Proof.
  unfold canRead, cellChars, modeAfter. destruct c as [[|] f]; cbn [isQuoted content].
  - intros _. cbn [fold_left]. rewrite fold_left_app.
    change (step comma (mkLexer Unquoted false [] fs rs errs) quote)
      with (mkLexer Quoted false [] fs rs errs).
    rewrite run_quoted, app_nil_r. reflexivity.
  - cbn [orb]. intros H. rewrite run_field by exact H. now rewrite app_nil_r.
Qed.

Lemma fieldText_content (c : Cell) m cr fs rs errs :
  fieldText (mkLexer m cr (rev (list_ascii_of_string (content c))) fs rs errs)
  = content c.
Proof.
  unfold fieldText. cbn [field].
  now rewrite rev_involutive, string_of_list_ascii_of_string.
Qed.

(** After a field, the delimiter closes it. *)
Lemma step_comma_after (c : Cell) fs rs errs :
  step comma (mkLexer (modeAfter c) false
                      (rev (list_ascii_of_string (content c))) fs rs errs)
       ","%char
  = mkLexer Unquoted false [] (content c :: fs) rs errs.
Proof.
  unfold modeAfter, step. destruct (isQuoted c);
    cbn [mode afterCR andb]; unfold endField; now rewrite fieldText_content.
Qed.

Lemma joinChars_cons (sep part next : list ascii) (parts : list (list ascii)) :
  joinChars sep (part :: next :: parts)
  = part ++ sep ++ joinChars sep (next :: parts).
Proof. reflexivity. Qed.

Lemma forallb_over_map {A B : Type} (f : B -> bool) (g : A -> B) (l : list A) :
  forallb f (map g l) = forallb (fun x => f (g x)) l.
Proof. induction l as [|x l IH]; [reflexivity|]. cbn. now rewrite IH. Qed.

Lemma forallb_pointwise {A : Type} (f g : A -> bool) (l : list A) :
  (forall x, f x = g x) -> forallb f l = forallb g l.
Proof.
  intros H. induction l as [|x l IH]; [reflexivity|]. cbn. now rewrite H, IH.
Qed.

Lemma forallb_cons {A : Type} (f : A -> bool) (x : A) (l : list A) :
  forallb f (x :: l) = true <-> f x = true /\ forallb f l = true.
Proof. cbn [forallb]. apply andb_true_iff. Qed.

(** The reader after the fields of a line: in its last field, outside
    quotes or just after a closing one, with the fields before it
    gathered. *)
Lemma run_line (c : Cell) (more : list Cell) fs rs errs :
  forallb canRead (c :: more) = true ->
  exists m buf fs',
    fold_left (step comma) (cellLine (c :: more))
              (mkLexer Unquoted false [] fs rs errs)
    = mkLexer m false buf fs' rs errs
    /\ (m = Unquoted \/ m = AfterQuote)
    /\ rev (string_of_list_ascii (rev buf) :: fs')
       = rev fs ++ contents (c :: more).
Proof.
  revert c fs.
  induction more as [|g more IH]; intros c fs H.
  - apply forallb_cons in H as [Hc _].
    unfold cellLine. cbn [map joinChars].
    rewrite run_cell by exact Hc.
    eexists _, _, _. split; [reflexivity|]. split.
    + unfold modeAfter. destruct (isQuoted c); auto.
    + now rewrite rev_involutive, string_of_list_ascii_of_string.
  - apply forallb_cons in H as [Hc Hrest].
    unfold cellLine. rewrite !map_cons, joinChars_cons, <- !map_cons.
    fold (cellLine (g :: more)).
    rewrite fold_left_app. rewrite run_cell by exact Hc.
    cbn [app fold_left]. rewrite step_comma_after.
    destruct (IH g (content c :: fs) Hrest) as (m & buf & fs' & -> & Hm & Hrow).
    eexists _, _, _. split; [reflexivity|]. split; [exact Hm|].
    rewrite Hrow. cbn [rev contents map]. now rewrite <- app_assoc.
Qed.

(** A line break closes the record, whichever of the two it is. *)
Lemma run_break (br : LineBreak) m buf fs rs errs :
  m = Unquoted \/ m = AfterQuote ->
  fold_left (step comma) (breakChars br) (mkLexer m false buf fs rs errs)
  = endRow false (mkLexer m false buf fs rs errs).
Proof. intros [-> | ->]; now destruct br. Qed.

Lemma run_line_break (br : LineBreak) (line : list Cell) rs errs :
  forallb canRead line = true ->
  negb (Nat.eqb (length line) 0) = true ->
  fold_left (step comma) (cellLine line ++ breakChars br) (atLineStart rs errs)
  = atLineStart (contents line :: rs) errs.
Proof.
  intros Hread Hne. destruct line as [|c more]; [discriminate|].
  rewrite fold_left_app. unfold atLineStart.
  destruct (run_line c more [] rs errs Hread) as (m & buf & fs' & -> & Hm & Hrow).
  rewrite run_break by exact Hm.
  unfold endRow, fieldText. cbn [field fields rows quoteErrors].
  now rewrite Hrow.
Qed.

(** Reading all lines but the last leaves the reader at the start of the
    last one, with the lines read as its records. *)
Lemma run_lines (br : LineBreak) (init : list (list Cell))
      (last : list Cell) rs errs :
  forallb (forallb canRead) init = true ->
  forallb (fun l => negb (Nat.eqb (length l) 0)) init = true ->
  fold_left (step comma)
            (joinChars (breakChars br) (map cellLine (init ++ [last])))
            (atLineStart rs errs)
  = fold_left (step comma) (cellLine last)
              (atLineStart (rev (map contents init) ++ rs) errs).
Proof.
  revert rs.
  induction init as [|line init IH]; intros rs Hread Hne; [reflexivity|].
  apply forallb_cons in Hread as [Hl Hread].
  apply forallb_cons in Hne as [Hn Hne].
  replace (map cellLine ((line :: init) ++ [last]))
    with (cellLine line :: cellLine (hd last init)
          :: map cellLine (tl (init ++ [last])))
    by (now destruct init).
  rewrite joinChars_cons.
  replace (cellLine (hd last init) :: map cellLine (tl (init ++ [last])))
    with (map cellLine (init ++ [last])) by (now destruct init).
  rewrite app_assoc, fold_left_app.
  rewrite run_line_break by assumption.
  rewrite IH by assumption.
  cbn [rev map]. now rewrite <- app_assoc.
Qed.

(** The text of lines of fields reads as those lines, and as one more,
    empty, line when the text ends in a line break. *)
Lemma tokenize_cellText (line : list Cell) (lines : list (list Cell))
      (br : LineBreak) (finalBreak : bool) :
  forallb (forallb canRead) (line :: lines) = true ->
  forallb (fun l => negb (Nat.eqb (length l) 0)) (line :: lines) = true ->
  tokenize comma (cellText (line :: lines) br finalBreak)
  = (map contents (line :: lines) ++ (if finalBreak then [[""]] else []), []).
Proof.
  intros Hread Hne.
  destruct (exists_last (l := line :: lines)) as (init & last & Heq);
    [discriminate|].
  rewrite Heq in *.
  rewrite forallb_app in Hread, Hne.
  apply andb_true_iff in Hread as [Hread Hread_last].
  apply andb_true_iff in Hne as [Hne Hne_last].
  apply forallb_cons in Hread_last as [Hread_last _].
  apply forallb_cons in Hne_last as [Hne_last _].
  unfold tokenize, cellText.
  rewrite list_ascii_of_string_of_list_ascii, fold_left_app.
  change start with (atLineStart [] []).
  rewrite run_lines by assumption. rewrite app_nil_r.
  rewrite map_app. cbn [map].
  destruct finalBreak.
  - rewrite <- fold_left_app, run_line_break by assumption.
    unfold finish, fieldText, atLineStart.
    cbn [mode field Papa.fields rows quoteErrors rev app string_of_list_ascii].
    now rewrite rev_involutive.
  - cbn [fold_left].
    destruct last as [|c more]; [discriminate|].
    unfold atLineStart.
    destruct (run_line c more [] (rev (map contents init)) [] Hread_last)
      as (m & buf & fs' & -> & Hm & Hrow).
    unfold finish, fieldText. cbn [mode field Papa.fields rows quoteErrors].
    rewrite Hrow. cbn [rev app].
    rewrite rev_involutive, app_nil_r.
    now destruct Hm as [-> | ->].
Qed.

Lemma csvText_cellText (lines : list (list string)) (br : LineBreak)
      (finalBreak : bool) :
  csvText lines br finalBreak = cellText (map (map plain) lines) br finalBreak.
Proof.
  unfold csvText, cellText. do 3 f_equal.
  rewrite map_map. apply map_ext. intros line.
  unfold csvLine, cellLine. f_equal. now rewrite map_map.
Qed.

Lemma contents_plain (line : list string) : contents (map plain line) = line.
Proof. unfold contents. rewrite map_map. apply map_id. Qed.

(** *** The guess of the delimiter *)

(** Where the text does not hold the delimiter, every record is one
    field. *)
Lemma step_keeps_one_field (d : ascii) (lx : Lexer) (c : ascii) :
  isDelimiter d c = false ->
  fields lx = [] -> Forall (fun r : list string => length r = 1%nat) (rows lx) ->
  fields (step d lx c) = []
  /\ Forall (fun r : list string => length r = 1%nat) (rows (step d lx c)).
Proof.
  intros Hd Hf Hr. unfold step. rewrite Hd.
  destruct (mode lx);
    repeat match goal with
           | |- context [if ?b then _ else _] => destruct b
           end;
    cbn [fields rows endRow push]; (split; [exact Hf || reflexivity|]);
    try exact Hr; constructor; try exact Hr; now rewrite Hf.
Qed.

Lemma run_keeps_one_field (d : ascii) (cs : list ascii) (lx : Lexer) :
  forallb (fun c => negb (isDelimiter d c)) cs = true ->
  fields lx = [] -> Forall (fun r : list string => length r = 1%nat) (rows lx) ->
  fields (fold_left (step d) cs lx) = []
  /\ Forall (fun r : list string => length r = 1%nat)
            (rows (fold_left (step d) cs lx)).
Proof.
  revert lx. induction cs as [|c cs IH]; intros lx H Hf Hr; [now split|].
  apply forallb_cons in H as [Hc Hcs]. apply negb_true_iff in Hc.
  destruct (step_keeps_one_field d lx c Hc Hf Hr) as [Hf' Hr'].
  cbn [fold_left]. now apply IH.
Qed.

Lemma tokenize_one_field (d : ascii) (input : string) :
  forallb (fun c => negb (isDelimiter d c)) (list_ascii_of_string input) = true ->
  Forall (fun r : list string => length r = 1%nat) (tokenize d input).1.
Proof.
  intros H. unfold tokenize, finish. cbn [fst].
  destruct (run_keeps_one_field d _ start H eq_refl (List.Forall_nil _)) as [Hf Hr].
  rewrite Hf. apply Forall_rev. constructor; [reflexivity|exact Hr].
Qed.

Lemma forall_preview {P : list string -> Prop} (records : list (list string)) :
  Forall P (List.filter (fun r => negb (isEmptyLine r)) records) ->
  Forall P (List.filter (fun r => negb (isEmptyLine r)) (take 10 records)).
Proof.
  rewrite !List.Forall_forall. intros H r Hr.
  apply filter_In in Hr as [Hr Hne]. apply H, filter_In. split; [|exact Hne].
  apply list_elem_of_In. apply list_elem_of_In in Hr.
  now apply (subseteq_take 10 records).
Qed.

Lemma list_sum_lengths (n : nat) (records : list (list string)) :
  Forall (fun r : list string => length r = n) records ->
  list_sum (map (fun r => length r) records) = (n * length records)%nat.
Proof.
  induction 1 as [|r records Hr _ IH]; [cbn; lia|].
  cbn [map length]. change (list_sum (?x :: ?l)) with (x + list_sum l)%nat.
  rewrite IH, Hr. lia.
Qed.

Lemma one_field_is_no_candidate (d : ascii) (input : string) :
  forallb (fun c => negb (isDelimiter d c)) (list_ascii_of_string input) = true ->
  averageExceeds199 (candidate d input) = false.
Proof.
  intros H. apply tokenize_one_field in H.
  unfold averageExceeds199, candidate, previewRows. cbn [rowCount fieldCount].
  rewrite (list_sum_lengths 1).
  - apply andb_false_iff. right. apply Nat.ltb_ge. lia.
  - apply forall_preview. apply List.Forall_forall. intros r Hr.
    apply filter_In in Hr as [Hr _].
    rewrite List.Forall_forall in H. now apply H.
Qed.

Lemma guess_skips (input : string) (best : option Candidate) (ds : list ascii) :
  Forall (fun d => averageExceeds199 (candidate d input) = false) ds ->
  fold_left (fun best delimiter =>
               let c := candidate delimiter input in
               if improves best c then Some c else best) ds best
  = best.
Proof.
  induction 1 as [|d ds Hd _ IH]; [reflexivity|].
  cbn [fold_left]. cbv zeta.
  replace (improves best (candidate d input)) with false; [exact IH|].
  unfold improves. destruct best; rewrite Hd; [|reflexivity].
  now rewrite andb_false_r.
Qed.

(** A text without a tab, bar, semicolon, record separator or unit
    separator: the guess is the comma, or there is none. *)
Lemma guessDelimiter_comma_or_none (input : string) :
  forallb (fun c => negb (isOtherDelimiter c)) (list_ascii_of_string input) = true ->
  guessDelimiter input
  = if averageExceeds199 (candidate comma input) then Some comma else None.
Proof.
  intros H.
  assert (Hother : forall d, isOtherDelimiter d = true ->
            averageExceeds199 (candidate d input) = false).
  { intros d Hd. apply one_field_is_no_candidate.
    rewrite forallb_forall in *. intros c Hc. specialize (H c Hc).
    unfold isDelimiter. destruct (Ascii.eqb_spec c d) as [->|]; [|reflexivity].
    now rewrite Hd in H. }
  unfold guessDelimiter, delimitersToGuess.
  change (fold_left ?f (?x :: ?l) ?a) with (fold_left f l (f a x)).
  rewrite guess_skips.
  - cbv beta zeta. unfold improves. change ","%char with comma.
    now destruct (averageExceeds199 (candidate comma input)).
  - repeat constructor; now apply Hother.
Qed.

(** The records of a text that has [n] fields, two or more, in each of
    its lines that are not empty, the first line among them: the comma
    is a candidate. *)
Lemma comma_is_candidate (input : string) (n : nat) (first : list string)
      (others : list (list string)) :
  (tokenize comma input).1 = first :: others ->
  isEmptyLine first = false ->
  (2 <= n)%nat ->
  Forall (fun r : list string => length r = n)
         (List.filter (fun r => negb (isEmptyLine r)) (first :: others)) ->
  averageExceeds199 (candidate comma input) = true.
Proof.
  intros Hrecords Hfirst Hn Hall. apply forall_preview in Hall.
  unfold averageExceeds199, candidate, previewRows. cbn [rowCount fieldCount].
  rewrite Hrecords in *.
  rewrite (list_sum_lengths n) by exact Hall.
  change (take 10 (first :: others)) with (first :: take 9 others).
  cbn [List.filter]. rewrite Hfirst. cbn [negb length].
  apply andb_true_iff. split; [reflexivity|]. apply Nat.ltb_lt. nia.
Qed.

(** *** The names of the first record *)

Lemma renameFrom_length (headers : list string) (counts : gmap string nat)
      (used : list string) :
  length (renameFrom headers counts used) = length headers.
Proof.
  revert counts used.
  induction headers as [|h headers IH]; intros counts used; [reflexivity|].
  cbn [renameFrom]. destruct (counts !! h) as [[|count]|]; cbn [length];
    now rewrite IH.
Qed.

Lemma renameHeaders_length (headers : list string) :
  length (renameHeaders headers) = length headers.
Proof. apply renameFrom_length. Qed.

(** Names that do not repeat are kept. *)
Lemma renameFrom_fresh (headers : list string) (counts : gmap string nat)
      (used : list string) :
  NoDup headers -> (forall h, In h headers -> counts !! h = None) ->
  renameFrom headers counts used = headers.
Proof.
  revert counts used.
  induction headers as [|h headers IH]; intros counts used Hnd Hc; [reflexivity|].
  cbn [renameFrom]. rewrite (Hc h) by now left.
  apply NoDup_cons in Hnd as [Hnotin Hnd].
  f_equal. apply IH; [exact Hnd|].
  intros h' Hin. rewrite lookup_insert_ne; [apply Hc; now right|].
  intros ->. apply Hnotin. now apply list_elem_of_In.
Qed.

Lemma renameHeaders_NoDup (headers : list string) :
  NoDup headers -> renameHeaders headers = headers.
Proof. intros H. apply renameFrom_fresh; [exact H|]. intros h _. apply lookup_empty. Qed.

Lemma renameHeaders_isEmptyLine (headers : list string) :
  isEmptyLine (renameHeaders headers) = isEmptyLine headers.
Proof.
  destruct headers as [|h [|g headers]]; [reflexivity|reflexivity|].
  pose proof (renameHeaders_length (h :: g :: headers)) as H.
  destruct (renameHeaders (h :: g :: headers)) as [|? [|? ?]]; try discriminate.
  reflexivity.
Qed.

(** *** The characters of a text *)

Lemma forallb_joinChars (P : ascii -> bool) (sep : list ascii)
      (parts : list (list ascii)) :
  forallb P sep = true -> forallb (forallb P) parts = true ->
  forallb P (joinChars sep parts) = true.
Proof.
  intros Hsep.
  induction parts as [|part parts IH]; intros H; [reflexivity|].
  apply forallb_cons in H as [Hp Hps].
  destruct parts as [|next parts]; [exact Hp|].
  rewrite joinChars_cons, !forallb_app, Hp, Hsep. now apply IH.
Qed.

Lemma forallb_doubleQuotes (P : ascii -> bool) (cs : list ascii) :
  forallb P (doubleQuotes cs) = forallb P cs.
Proof.
  induction cs as [|c cs IH]; [reflexivity|].
  cbn [doubleQuotes]. destruct (isQuote c); cbn [forallb]; rewrite IH;
    now destruct (P c).
Qed.

Lemma forallb_cellChars (P : ascii -> bool) (c : Cell) :
  P quote = true ->
  forallb P (list_ascii_of_string (content c)) = true ->
  forallb P (cellChars c) = true.
Proof.
  intros Hq H. unfold cellChars. destruct (isQuoted c); [|exact H].
  cbn [forallb]. rewrite forallb_app, forallb_doubleQuotes, Hq, H.
  cbn [forallb]. now rewrite Hq.
Qed.

(** The characters of a text are those of its fields, the comma, the
    quote and the line breaks. *)
Lemma forallb_cellText (P : ascii -> bool) (lines : list (list Cell))
      (br : LineBreak) (finalBreak : bool) :
  P ","%char = true -> P quote = true -> P "013"%char = true -> P "010"%char = true ->
  forallb (forallb (fun c => forallb P (list_ascii_of_string (content c)))) lines
  = true ->
  forallb P (list_ascii_of_string (cellText lines br finalBreak)) = true.
Proof.
  intros Hcomma Hquote Hcr Hlf H.
  assert (Hbr : forallb P (breakChars br) = true)
    by (destruct br; cbn [breakChars forallb]; now rewrite ?Hcr, Hlf).
  unfold cellText. rewrite list_ascii_of_string_of_list_ascii, forallb_app.
  apply andb_true_iff. split; [|now destruct finalBreak].
  apply forallb_joinChars; [exact Hbr|].
  rewrite forallb_over_map. rewrite forallb_forall in *.
  intros line Hline. specialize (H line Hline). unfold cellLine.
  apply forallb_joinChars; [cbn [forallb]; now rewrite Hcomma|].
  rewrite forallb_over_map. rewrite forallb_forall in *.
  intros g Hg. apply forallb_cellChars; auto.
Qed.

End CsvReading.

(** *** What the reader makes of a text *)

Lemma no_mismatch (header : list string) (rows : list (list string)) :
  Forall (fun l : list string => length l = length header) rows ->
  flat_map (Papa.mismatch header) rows = [].
Proof.
  induction 1 as [|l rows Hl _ IH]; [reflexivity|].
  cbn [flat_map]. rewrite IH. unfold Papa.mismatch.
  rewrite Hl, Nat.ltb_irrefl. reflexivity.
Qed.

Lemma no_mismatch_inv (header : list string) (rows : list (list string)) :
  flat_map (Papa.mismatch header) rows = [] ->
  Forall (fun l : list string => length l = length header) rows.
Proof.
  induction rows as [|l rows IH]; cbn [flat_map]; intros H; [constructor|].
  apply app_eq_nil in H as [Hl Hrows].
  constructor; [|now apply IH].
  unfold Papa.mismatch in Hl.
  destruct (length l <? length header)%nat eqn:E1; [discriminate|].
  destruct (length header <? length l)%nat eqn:E2; [discriminate|].
  apply Nat.ltb_ge in E1, E2. lia.
Qed.

Lemma isEmptyLine_true (line : list string) :
  Papa.isEmptyLine line = true -> line = [""].
Proof.
  destruct line as [|f [|g line]]; try discriminate.
  cbn [Papa.isEmptyLine]. now intros ->%String.eqb_eq.
Qed.

Lemma filter_contents (lines : list (list Cell)) (finalBreak : bool) :
  List.filter (fun r => negb (Papa.isEmptyLine r))
              (map contents lines ++ (if finalBreak then [[""]] else []))
  = map contents (nonEmptyCellLines lines).
Proof.
  rewrite List.filter_app.
  replace (List.filter _ (if finalBreak then [[""]] else []))
    with (@nil (list string)) by (now destruct finalBreak).
  rewrite app_nil_r. unfold nonEmptyCellLines.
  induction lines as [|l lines IH]; [reflexivity|].
  cbn [map List.filter]. rewrite IH.
  now destruct (Papa.isEmptyLine (contents l)).
Qed.

(** The text of a header and of lines of fields, none of which holds a
    character that the reader may take for another delimiter, reads as
    the header with its names made distinct, one row for each line that
    is not empty, one error if the comma is not recognised and one for
    each row whose number of fields is not the header's. *)
Lemma parse_cellText (header : list Cell) (rest : list (list Cell))
      (br : LineBreak) (finalBreak : bool) :
  forallb (forallb canRead) (header :: rest) = true ->
  forallb (fun l => negb (Nat.eqb (length l) 0)) (header :: rest) = true ->
  forallb (forallb (fun c => forallb (fun ch => negb (isOtherDelimiter ch))
                                     (list_ascii_of_string (content c))))
          (header :: rest) = true ->
  Papa.isEmptyLine (contents header) = false ->
  Papa.parse (cellText (header :: rest) br finalBreak)
  = Papa.mkResults
      (map (Papa.toObject (Papa.renameHeaders (contents header)))
           (map contents (nonEmptyCellLines rest)))
      ((if Papa.averageExceeds199
             (Papa.candidate Papa.comma (cellText (header :: rest) br finalBreak))
        then [] else [Papa.UndetectableDelimiter])
       ++ flat_map (Papa.mismatch (Papa.renameHeaders (contents header)))
                   (map contents (nonEmptyCellLines rest)))
      (Some (Papa.renameHeaders (contents header))).
Proof.
  intros Hread Hne Hchars Hheader.
  unfold Papa.parse.
  rewrite guessDelimiter_comma_or_none by (now apply forallb_cellText).
  replace (default Papa.comma _) with Papa.comma
    by (now destruct (Papa.averageExceeds199 _)).
  rewrite tokenize_cellText by assumption.
  cbn [map app]. cbn [List.filter].
  rewrite renameHeaders_isEmptyLine, Hheader. cbn [negb].
  rewrite filter_contents.
  now destruct (Papa.averageExceeds199 _).
Qed.

(** When the lines that are not empty all have the header's two or more
    fields, the comma is recognised. *)
Lemma comma_recognised (header : list Cell) (rest : list (list Cell))
      (br : LineBreak) (finalBreak : bool) :
  forallb (forallb canRead) (header :: rest) = true ->
  forallb (fun l => negb (Nat.eqb (length l) 0)) (header :: rest) = true ->
  (2 <= length header)%nat ->
  Forall (fun l : list string => length l = length header)
         (map contents (nonEmptyCellLines rest)) ->
  Papa.averageExceeds199
    (Papa.candidate Papa.comma (cellText (header :: rest) br finalBreak)) = true.
Proof.
  intros Hread Hne Hlen Hfit.
  assert (Hheader : Papa.isEmptyLine (contents header) = false).
  { unfold contents. destruct header as [|c [|g header]]; cbn in Hlen; [lia|lia|].
    reflexivity. }
  eapply (comma_is_candidate _ (length header)).
  - rewrite tokenize_cellText by assumption. cbn [fst map app]. reflexivity.
  - exact Hheader.
  - exact Hlen.
  - cbn [List.filter]. rewrite Hheader. cbn [negb].
    rewrite filter_contents. constructor; [|exact Hfit].
    unfold contents. apply length_map.
Qed.

Lemma empty_cell_line (l : list Cell) :
  Papa.isEmptyLine (contents l) = true -> exists c, l = [c] /\ content c = "".
Proof.
  intros H. apply isEmptyLine_true in H.
  destruct l as [|c [|g l]]; try discriminate.
  exists c. split; [reflexivity|]. now injection H.
Qed.

Lemma isValidTable_lines (header : list Cell) (rest : list (list Cell)) :
  isValidTable header (nonEmptyCellLines rest) = true ->
  (2 <= length header)%nat
  /\ NoDup (contents header)
  /\ forallb (forallb canRead) (header :: rest) = true
  /\ forallb (fun l => negb (Nat.eqb (length l) 0)) (header :: rest) = true
  /\ forallb (forallb (fun c => forallb (fun ch => negb (isOtherDelimiter ch))
                                        (list_ascii_of_string (content c))))
             (header :: rest) = true
  /\ Forall (fun l : list string => length l = length (contents header))
            (map contents (nonEmptyCellLines rest)).
Proof.
  unfold isValidTable. intros H.
  apply andb_true_iff in H as [H Hall]. apply andb_true_iff in H as [Hlen Hnd].
  apply Nat.leb_le in Hlen. apply bool_decide_eq_true in Hnd.
  rewrite forallb_forall in Hall.
  assert (Hvalid : forall l, In l (header :: nonEmptyCellLines rest) ->
            forallb canRead l = true
            /\ length l = length header
            /\ forallb (fun c => forallb (fun ch => negb (isOtherDelimiter ch))
                                         (list_ascii_of_string (content c))) l
               = true).
  { intros l Hl. specialize (Hall l Hl).
    apply andb_true_iff in Hall as [Hcells Hl_len]. apply Nat.eqb_eq in Hl_len.
    rewrite forallb_forall in Hcells.
    repeat split; [|exact Hl_len|]; apply forallb_forall; intros c Hc;
      specialize (Hcells c Hc); unfold isValidCell in Hcells;
      now apply andb_true_iff in Hcells as [? ?]. }
  assert (Hline : forall l, In l (header :: rest) ->
            forallb canRead l = true
            /\ negb (Nat.eqb (length l) 0) = true
            /\ forallb (fun c => forallb (fun ch => negb (isOtherDelimiter ch))
                                         (list_ascii_of_string (content c))) l
               = true).
  { intros l Hl.
    destruct (Papa.isEmptyLine (contents l)) eqn:E.
    - apply empty_cell_line in E as (c & -> & Hc).
      unfold canRead. cbn [forallb length]. rewrite Hc.
      cbn. now rewrite orb_true_r.
    - assert (Hin : In l (header :: nonEmptyCellLines rest)).
      { destruct Hl as [<-|Hl]; [now left|right].
        apply filter_In. now rewrite E. }
      destruct (Hvalid l Hin) as (Hr & Hl_len & Hch).
      repeat split; [exact Hr| |exact Hch].
      rewrite Hl_len. apply negb_true_iff, Nat.eqb_neq. lia. }
  split; [exact Hlen|]. split; [exact Hnd|].
  repeat split; try (apply forallb_forall; intros l Hl; now apply Hline).
  apply Forall_fmap, List.Forall_forall. intros l Hl. cbn.
  unfold contents. rewrite !length_map. apply Hvalid. now right.
Qed.

(** The table that the upload parser makes of a valid text. *)
Lemma parseCSV_table (file : File) (header : list Cell)
      (rest : list (list Cell)) (br : LineBreak) (finalBreak : bool) :
  isValidTable header (nonEmptyCellLines rest) = true ->
  fileText file = cellText (header :: rest) br finalBreak ->
  exists parsed,
    parseCSV file = Ok parsed
    /\ ParsedData.columns parsed = contents header
    /\ ParsedData.data parsed
       = map (Papa.toObject (contents header))
             (map contents (nonEmptyCellLines rest))
    /\ ParsedData.preview parsed = take 10 (ParsedData.data parsed)
    /\ ParsedData.rowCount parsed = length (ParsedData.data parsed).
Proof.
  intros Hvalid Htext.
  apply isValidTable_lines in Hvalid
    as (Hlen & Hnd & Hread & Hne & Hchars & Hfit).
  assert (Hheader : Papa.isEmptyLine (contents header) = false).
  { unfold contents. destruct header as [|c [|g header]]; cbn in Hlen; [lia|lia|].
    reflexivity. }
  unfold parseCSV. rewrite Htext, parse_cellText by assumption.
  rewrite comma_recognised; try assumption.
  - rewrite renameHeaders_NoDup by exact Hnd.
    rewrite no_mismatch by exact Hfit.
    cbn [Papa.errors Papa.data Papa.metaFields default app].
    eexists. split; [reflexivity|].
    cbn [ParsedData.columns ParsedData.data ParsedData.rowCount ParsedData.preview].
    auto.
  - unfold contents in Hfit. now rewrite length_map in Hfit.
Qed.

(** C2, what fails: a text of one column is valid CSV, and the reader,
    which is not told the delimiter and finds none of its candidates in
    the text, reports that it could not detect one, so the upload parser
    rejects the file.  A header that names two columns alike comes back
    with the second name changed, and fields that hold semicolons are
    split at them. *)
Lemma single_column_csv_is_rejected :
  fileText Samples.oneColumn = csvText [["name"]; ["ann"]; ["bob"]] LF false
  /\ parseCSV Samples.oneColumn
     = Err (CsvParsingError Papa.UndetectableDelimiter)
  /\ fileText Samples.repeated = csvText [["a"; "a"]; ["1"; "2"]] LF false
  /\ (exists parsed,
        parseCSV Samples.repeated = Ok parsed
        /\ ParsedData.columns parsed = ["a"; "a_1"])
  /\ fileText Samples.semicolons
     = csvText [["a;b"; "c;d"]; ["1;2"; "3;4"]] LF false
  /\ (exists parsed,
        parseCSV Samples.semicolons = Ok parsed
        /\ ParsedData.columns parsed = ["a"; "b,c"; "d"]).
Proof.
  split; [reflexivity|]. split; [vm_compute; reflexivity|].
  split; [reflexivity|]. split; [eexists; split; vm_compute; reflexivity|].
  split; [reflexivity|]. eexists; split; vm_compute; reflexivity.
Qed.

(** C2, amended: a CSV text whose first line is a header of two or more
    names h1,...,hn, no two the same, followed by lines of which m are
    not empty, each of these with n fields -- the fields plain or between
    double quotes, none holding a tab, a bar, a semicolon or a record or
    unit separator, the lines broken by LF or by CR LF, with or without
    a final line break -- parses to a table whose columns are h1,...,hn
    in that order and whose data has exactly m rows, one for each line
    that is not empty, in the order of the text, with rowCount equal to
    that length. *)
Theorem parseCSV_valid (file : File) (header : list Cell)
        (rest : list (list Cell)) (br : LineBreak) (finalBreak : bool) :
  isValidTable header (nonEmptyCellLines rest) = true ->
  fileText file = cellText (header :: rest) br finalBreak ->
  exists parsed,
    parseCSV file = Ok parsed
    /\ ParsedData.columns parsed = contents header
    /\ ParsedData.data parsed
       = map (Papa.toObject (contents header))
             (map contents (nonEmptyCellLines rest))
    /\ length (ParsedData.data parsed) = length (nonEmptyCellLines rest)
    /\ ParsedData.rowCount parsed = length (ParsedData.data parsed).
Proof.
  intros Hvalid Htext.
  destruct (parseCSV_table file header rest br finalBreak Hvalid Htext)
    as (parsed & Hparsed & Hcolumns & Hdata & _ & Hcount).
  exists parsed. split; [exact Hparsed|]. split; [exact Hcolumns|].
  split; [exact Hdata|]. split; [|exact Hcount].
  now rewrite Hdata, !length_map.
Qed.

Lemma parseCSV_valid_witness :
  exists parsed,
    parseCSV Samples.quoted = Ok parsed
    /\ ParsedData.columns parsed = ["name"; "note"]
    /\ ParsedData.data parsed
       = map (Papa.toObject ["name"; "note"])
             (map contents (nonEmptyCellLines (tl Samples.notes)))
    /\ length (ParsedData.data parsed) = 2%nat
    /\ ParsedData.rowCount parsed = length (ParsedData.data parsed).
Proof.
  apply (parseCSV_valid Samples.quoted [plain "name"; plain "note"]
           (tl Samples.notes) CRLF true).
  - vm_compute. reflexivity.
  - reflexivity.
Defined.

(** *** Lines that do not fit the header *)

Lemma nonEmptyCellLines_plain (lines : list (list string)) :
  map contents (nonEmptyCellLines (map (map plain) lines)) = nonEmptyLines lines.
Proof.
  unfold nonEmptyCellLines, nonEmptyLines.
  induction lines as [|l lines IH]; [reflexivity|].
  cbn [map List.filter]. rewrite contents_plain.
  destruct (Papa.isEmptyLine l); cbn [negb map]; now rewrite ?contents_plain, IH.
Qed.

Lemma isCommaCsv_lines (header : list string) (rest : list (list string)) :
  isCommaCsv header rest = true ->
  (2 <= length header)%nat
  /\ Papa.isEmptyLine header = false
  /\ forallb (forallb canRead) (map (map plain) (header :: rest)) = true
  /\ forallb (fun l => negb (Nat.eqb (length l) 0))
             (map (map plain) (header :: rest)) = true
  /\ forallb (forallb (fun c => forallb (fun ch => negb (isOtherDelimiter ch))
                                        (list_ascii_of_string (content c))))
             (map (map plain) (header :: rest)) = true.
Proof.
  unfold isCommaCsv, isPlainCsv. intros H.
  apply andb_true_iff in H as [H Hchars]. apply andb_true_iff in H as [H Hlen].
  apply andb_true_iff in H as [Hh Hplain].
  apply Nat.leb_le in Hlen. apply negb_true_iff in Hh.
  split; [exact Hlen|]. split; [exact Hh|].
  rewrite forallb_forall in Hplain, Hchars.
  repeat split; rewrite forallb_over_map; apply forallb_forall; intros l Hl;
    specialize (Hplain l Hl); specialize (Hchars l Hl);
    apply andb_true_iff in Hplain as [Hplain Hne].
  - rewrite forallb_over_map. exact Hplain.
  - now rewrite length_map.
  - rewrite forallb_over_map. rewrite forallb_forall in *.
    intros f Hf. specialize (Hchars f Hf). cbn [plain content].
    rewrite forallb_forall in *. intros ch Hch. specialize (Hchars ch Hch).
    unfold isDelimiterCandidate in Hchars. unfold isOtherDelimiter.
    destruct (N_of_ascii ch =? 44)%N; [discriminate|exact Hchars].
Qed.

(** X14: a CSV text of plain fields, none of which holds a character
    the reader may take for a delimiter, under a header of two fields or
    more, is accepted exactly when every line that is not empty has as
    many fields as the header.  One line with a field too few or too
    many has the whole file rejected. *)
Theorem parseCSV_accepts_iff_lines_fit (file : File) (header : list string)
        (rest : list (list string)) (br : LineBreak) (finalBreak : bool) :
  isCommaCsv header rest = true ->
  fileText file = csvText (header :: rest) br finalBreak ->
  (exists parsed, parseCSV file = Ok parsed)
  <-> List.Forall (fun l => length l = length header) (nonEmptyLines rest).
Proof.
  intros H Htext.
  apply isCommaCsv_lines in H as (Hlen & Hheader & Hread & Hne & Hchars).
  cbn [map] in Hread, Hne, Hchars.
  unfold parseCSV.
  rewrite Htext, csvText_cellText. cbn [map].
  rewrite parse_cellText by (rewrite ?contents_plain; assumption).
  rewrite contents_plain, nonEmptyCellLines_plain.
  cbn [Papa.errors Papa.data Papa.metaFields default].
  split.
  - intros [parsed Hp].
    destruct (_ ++ flat_map _ _) eqn:E in Hp; [|discriminate].
    apply app_eq_nil in E as [_ E]. apply no_mismatch_inv in E.
    now rewrite renameHeaders_length in E.
  - intros Hfit.
    rewrite comma_recognised.
    + rewrite no_mismatch by (now rewrite renameHeaders_length). cbn [app]. eauto.
    + exact Hread.
    + exact Hne.
    + now rewrite length_map.
    + now rewrite nonEmptyCellLines_plain, length_map.
Qed.

Lemma parseCSV_accepts_iff_lines_fit_witness :
  (exists parsed, parseCSV Samples.ragged = Ok parsed)
  <-> List.Forall (fun l => length l = 2%nat)
        (nonEmptyLines [["a"; "1"]; ["b"]; ["c"; "3"]]).
Proof.
  apply (parseCSV_accepts_iff_lines_fit Samples.ragged ["name"; "value"]
           [["a"; "1"]; ["b"]; ["c"; "3"]] LF true).
  - vm_compute. reflexivity.
  - reflexivity.
Defined.

(** *** The record map *)

Lemma mapGet_mapSet_eq (k : string) (v : FileData.t) (m : FileMap) :
  mapGet k (mapSet k v m) = Some v.
Proof.
  induction m as [|[k' v'] m IH]; cbn [mapSet mapGet].
  - now rewrite String.eqb_refl.
  - destruct (String.eqb k' k) eqn:E; cbn [mapGet].
    + now rewrite String.eqb_refl.
    + now rewrite E.
Qed.

Lemma mapGet_mapSet_ne (k k' : string) (v : FileData.t) (m : FileMap) :
  k <> k' -> mapGet k' (mapSet k v m) = mapGet k' m.
Proof.
  intros Hne.
  assert (Hkk : String.eqb k k' = false) by now apply String.eqb_neq.
  induction m as [|[k0 v0] m IH]; cbn [mapSet mapGet].
  - now rewrite Hkk.
  - destruct (String.eqb k0 k) eqn:E; cbn [mapGet].
    + apply String.eqb_eq in E as ->. now rewrite Hkk.
    + now rewrite IH.
Qed.

Lemma mapDelete_absent (k : string) (m : FileMap) :
  mapGet k m = None -> mapDelete k m = m.
Proof.
  induction m as [|[k' v'] m IH]; cbn [mapGet]; [reflexivity|].
  unfold mapDelete. cbn [List.filter fst].
  destruct (String.eqb k' k); [discriminate|].
  intros H. cbn [negb]. f_equal. now apply IH.
Qed.

Lemma mapGet_mapDelete_eq (k : string) (m : FileMap) :
  mapGet k (mapDelete k m) = None.
Proof.
  induction m as [|[k0 v0] m IH]; [reflexivity|].
  unfold mapDelete. cbn [List.filter fst].
  destruct (String.eqb k0 k) eqn:E; cbn [negb mapGet]; [exact IH|].
  rewrite E. exact IH.
Qed.

Lemma mapGet_mapDelete_ne (k k' : string) (m : FileMap) :
  k <> k' -> mapGet k' (mapDelete k m) = mapGet k' m.
Proof.
  intros Hne.
  induction m as [|[k0 v0] m IH]; [reflexivity|].
  unfold mapDelete. cbn [List.filter fst mapGet].
  destruct (String.eqb k0 k) eqn:E; cbn [negb mapGet].
  - apply String.eqb_eq in E. subst k0.
    apply String.eqb_neq in Hne. rewrite Hne. exact IH.
  - destruct (String.eqb k0 k'); [reflexivity|exact IH].
Qed.

Lemma mapGet_mapDelete (k k' : string) (m : FileMap) (v : FileData.t) :
  mapGet k' (mapDelete k m) = Some v -> mapGet k' m = Some v.
Proof.
  destruct (String.eqb_spec k k') as [->|Hne].
  - now rewrite mapGet_mapDelete_eq.
  - now rewrite mapGet_mapDelete_ne.
Qed.

Lemma mapGet_In (k : string) (m : FileMap) (v : FileData.t) :
  mapGet k m = Some v -> In v (mapValues m).
Proof.
  induction m as [|[k' v'] m IH]; [discriminate|].
  cbn [mapGet mapValues map snd].
  destruct (String.eqb k' k).
  - intros [= ->]. now left.
  - intros H. right. now apply IH.
Qed.

Lemma mapValues_mapSet (k : string) (v : FileData.t) (m : FileMap) (x : FileData.t) :
  In x (mapValues (mapSet k v m)) -> x = v \/ In x (mapValues m).
Proof.
  induction m as [|[k' v'] m IH]; cbn [mapSet mapValues map snd In].
  - intros [<-|[]]. now left.
  - destruct (String.eqb k' k); cbn [map snd In].
    + intros [<-|H]; auto.
    + intros [<-|H]; auto. destruct (IH H); auto.
Qed.

Lemma mapValues_mapDelete (k : string) (m : FileMap) (x : FileData.t) :
  In x (mapValues (mapDelete k m)) -> In x (mapValues m).
Proof.
  unfold mapValues, mapDelete. rewrite !in_map_iff.
  intros (kv & Hx & Hin). apply filter_In in Hin as [Hin _]. eauto.
Qed.

Lemma store_eta (st : Store) : mkStore (files st) (storage st) (writes st) = st.
Proof. now destruct st. Qed.

(** *** uploadFile and deleteFile *)

(** Whether or not the write goes through, the record map is the same. *)
Lemma files_saveFilesToStorage (saved : bool) (st : Store) :
  files (saveFilesToStorage saved st) = files st.
Proof. now destruct saved. Qed.

Example upload_failures :
  (uploadFile Samples.report "f2" 2000 true Samples.oneFile).1 = Err UnsupportedFileType
  /\ (uploadFile Samples.unterminated "f2" 2000 true Samples.oneFile).1
     = Err (FailedToProcessFile (CsvParsingError Papa.MissingQuotes))
  /\ (uploadFile Samples.emptySheet "f2" 2000 true Samples.oneFile).1
     = Err (FailedToProcessFile ExcelFileIsEmpty).
Proof. vm_compute. repeat split; reflexivity. Qed.

Example searchInFile_scenario_E :
  let st := (uploadFile Samples.customers "f1" 1000 true emptyStore).2 in
  searchInFile Samples.numberToString "f1" "abc" st
    = [Papa.toObject ["id"; "company"] ["1"; "ABC Corp"]]
  /\ searchInFile Samples.numberToString "f1" "xyz" st = []
  /\ searchInFile Samples.numberToString "f9" "abc" st = [].
Proof. vm_compute. repeat split; reflexivity. Qed.




Lemma uploadFile_failure_cases (file : File) (newId : string) (now : Z)
      (saved : bool)
      (st : Store) (e : UploadFailure) :
  (uploadFile file newId now saved st).1 = Err e ->
  (getFileType (fileName file) = None /\ e = UnsupportedFileType)
  \/ (exists cause,
        e = FailedToProcessFile cause
        /\ ((getFileType (fileName file) = Some csv /\ parseCSV file = Err cause)
            \/ (getFileType (fileName file) = Some xlsx
                /\ parseXLSX file = Err cause))).
Proof.
  unfold uploadFile.
  destruct (getFileType (fileName file)) as [[|]|].
  - destruct (parseCSV file) as [|cause]; [discriminate|].
    intros [= <-]. right. exists cause. auto.
  - destruct (parseXLSX file) as [|cause]; [discriminate|].
    intros [= <-]. right. exists cause. auto.
  - intros [= <-]. now left.
Qed.

Lemma uploadFile_failure_keeps_store (file : File) (newId : string) (now : Z)
      (saved : bool)
      (st : Store) (e : UploadFailure) :
  (uploadFile file newId now saved st).1 = Err e ->
  (uploadFile file newId now saved st).2 = st.
Proof.
  unfold uploadFile.
  destruct (getFileType (fileName file)) as [[|]|]; [| |reflexivity].
  - destruct (parseCSV file); [discriminate|reflexivity].
  - destruct (parseXLSX file); [discriminate|reflexivity].
Qed.

(** C7: an upload that fails, whether for an extension that is not
    recognised or for a file the parser rejects (malformed text, a sheet
    without rows), leaves the service as it was: the record map with
    every record in it, the persisted copy and the count of writes are
    those from before the call. *)
Theorem failed_upload_leaves_store (file : File) (newId : string) (now : Z)
      (saved : bool)
        (st : Store) (e : UploadFailure) :
  (uploadFile file newId now saved st).1 = Err e ->
  (uploadFile file newId now saved st).2 = st
  /\ files (uploadFile file newId now saved st).2 = files st
  /\ (forall fileId,
        getFile fileId (uploadFile file newId now saved st).2 = getFile fileId st).
Proof.
  intros H. rewrite (uploadFile_failure_keeps_store _ _ _ _ _ _ H). auto.
Qed.

Lemma failed_upload_leaves_store_witness :
  (uploadFile Samples.unterminated "f2" 2000 true Samples.oneFile).2 = Samples.oneFile
  /\ files (uploadFile Samples.unterminated "f2" 2000 true Samples.oneFile).2
     = files Samples.oneFile
  /\ (forall fileId,
        getFile fileId (uploadFile Samples.unterminated "f2" 2000 true Samples.oneFile).2
        = getFile fileId Samples.oneFile).
Proof.
  apply (failed_upload_leaves_store Samples.unterminated "f2" 2000 true Samples.oneFile
           (FailedToProcessFile (CsvParsingError Papa.MissingQuotes))).
  vm_compute. reflexivity.
Defined.

(** C9: deleting an id that the record map does not hold returns false
    and changes nothing: the map, the persisted copy and the count of
    writes to local storage stay as they were. *)
Theorem deleteFile_absent (fileId : string) (saved : bool) (st : Store) :
  getFile fileId st = None ->
  deleteFile fileId saved st = (false, st).
Proof.
  unfold getFile, deleteFile, mapHas. intros H. rewrite H.
  rewrite mapDelete_absent by exact H.
  now rewrite store_eta.
Qed.

Lemma deleteFile_absent_witness :
  deleteFile "f9" true Samples.oneFile = (false, Samples.oneFile).
Proof.
  apply (deleteFile_absent "f9" true Samples.oneFile).
  vm_compute. reflexivity.
Defined.

Example deleteFile_twice :
  let first := deleteFile "f1" true Samples.oneFile in
  let second := deleteFile "f1" true first.2 in
  first.1 = true /\ writes first.2 = 2%nat /\ getFile "f1" first.2 = None
  /\ second = (false, first.2).
Proof. vm_compute. repeat split; reflexivity. Qed.

(** *** The invariant of the stored records *)

Lemma parseCSV_consistent (file : File) (parsed : ParsedData.t) :
  parseCSV file = Ok parsed ->
  ParsedData.rowCount parsed = length (ParsedData.data parsed)
  /\ ParsedData.preview parsed = take 10 (ParsedData.data parsed).
Proof.
  unfold parseCSV. destruct (Papa.errors _); [|discriminate].
  intros [= <-]. now split.
Qed.

Lemma parseXLSX_consistent (file : File) (parsed : ParsedData.t) :
  parseXLSX file = Ok parsed ->
  ParsedData.rowCount parsed = length (ParsedData.data parsed)
  /\ ParsedData.preview parsed = take 10 (ParsedData.data parsed).
Proof.
  unfold parseXLSX. destruct (fileSheet file); try discriminate.
  intros [= <-]. now split.
Qed.

Lemma take_min_length {A : Type} (n : nat) (l : list A) :
  take (Nat.min n (length l)) l = take n l.
Proof.
  destruct (Nat.le_ge_cases n (length l)) as [H|H].
  - now rewrite Nat.min_l.
  - rewrite Nat.min_r by exact H. now rewrite firstn_all, take_ge.
Qed.

Lemma uploadFile_consistent (file : File) (newId : string) (now : Z)
      (saved : bool)
      (st : Store) (record : FileData.t) :
  (uploadFile file newId now saved st).1 = Ok record -> consistent record.
Proof.
  unfold uploadFile.
  destruct (getFileType (fileName file)) as [[|]|]; [| |discriminate].
  - destruct (parseCSV file) as [parsed|] eqn:E; [|discriminate].
    apply parseCSV_consistent in E as [Hc Hp].
    intros [= <-]. unfold consistent.
    cbn [FileData.rowCount FileData.data FileData.preview].
    now rewrite Hc, take_min_length.
  - destruct (parseXLSX file) as [parsed|] eqn:E; [|discriminate].
    apply parseXLSX_consistent in E as [Hc Hp].
    intros [= <-]. unfold consistent.
    cbn [FileData.rowCount FileData.data FileData.preview].
    now rewrite Hc, take_min_length.
Qed.

Lemma uploadFile_stored (file : File) (newId : string) (now : Z)
      (saved : bool)
      (st : Store) (record : FileData.t) :
  (uploadFile file newId now saved st).1 = Ok record ->
  files (uploadFile file newId now saved st).2 = mapSet newId record (files st).
Proof.
  unfold uploadFile.
  destruct (getFileType (fileName file)) as [[|]|]; [| |discriminate].
  - destruct (parseCSV file); [|discriminate]. intros [= <-].
    apply files_saveFilesToStorage.
  - destruct (parseXLSX file); [|discriminate]. intros [= <-].
    apply files_saveFilesToStorage.
Qed.

(** A record found after a call was there, unchanged, before the call,
    unless the call is the upload that created it. *)
Lemma after_keeps_records (c : Call) (st : Store) (fileId : string)
      (r : FileData.t) :
  getFile fileId (after c st) = Some r ->
  getFile fileId st = Some r
  \/ exists file now saved,
       c = CallUpload file fileId now saved
       /\ (uploadFile file fileId now saved st).1 = Ok r.
Proof.
  destruct c as [file newId now saved| |fid|fid saved|fid q|fid]; cbn [after]; auto.
  - destruct (uploadFile file newId now saved st).1 as [record|e] eqn:E.
    + unfold getFile. rewrite (uploadFile_stored _ _ _ _ _ _ E).
      destruct (String.eqb_spec newId fileId) as [->|Hne].
      * rewrite mapGet_mapSet_eq. intros [= <-]. right. eauto.
      * rewrite mapGet_mapSet_ne by exact Hne. auto.
    + rewrite (uploadFile_failure_keeps_store _ _ _ _ _ _ E). auto.
  - unfold deleteFile, getFile. cbn [snd].
    destruct (mapHas fid (files st)); rewrite ?files_saveFilesToStorage;
      cbn [files]; intros H; left; eapply mapGet_mapDelete; exact H.
Qed.

Lemma after_consistent (c : Call) (st : Store) :
  Forall consistent (mapValues (files st)) ->
  Forall consistent (mapValues (files (after c st))).
Proof.
  intros Hst. rewrite List.Forall_forall in *.
  destruct c as [file newId now saved| |fid|fid saved|fid q|fid]; cbn [after]; auto.
  - destruct (uploadFile file newId now saved st).1 as [record|e] eqn:E.
    + rewrite (uploadFile_stored _ _ _ _ _ _ E).
      intros x Hx. apply mapValues_mapSet in Hx as [->|Hx]; [|auto].
      eapply uploadFile_consistent; exact E.
    + now rewrite (uploadFile_failure_keeps_store _ _ _ _ _ _ E).
  - intros x Hx. apply Hst.
    apply (mapValues_mapDelete fid).
    unfold deleteFile in Hx. cbn [snd] in Hx.
    destruct (mapHas fid (files st)); rewrite ?files_saveFilesToStorage in Hx;
      exact Hx.
Qed.

Lemma run_consistent (calls : list Call) (st : Store) :
  Forall consistent (mapValues (files st)) ->
  Forall consistent (mapValues (files (run calls st))).
Proof.
  revert st. induction calls as [|c calls IH]; intros st Hst; [exact Hst|].
  cbn [run fold_left]. apply IH. now apply after_consistent.
Qed.

(** *** The stable sort of getFiles *)

Section Sorting.

Context {A : Type} (cmp : A -> A -> Z).

Lemma sortInsert_Permutation (x : A) (l : list A) :
  Permutation (sortInsert cmp x l) (x :: l).
Proof.
  induction l as [|y l IH]; cbn [sortInsert]; [reflexivity|].
  destruct (cmp x y <=? 0); [reflexivity|].
  rewrite IH. apply perm_swap.
Qed.

Lemma sort_Permutation (l : list A) : Permutation (sort cmp l) l.
Proof.
  induction l as [|x l IH]; [reflexivity|].
  unfold sort in *. cbn [foldr].
  rewrite sortInsert_Permutation. now apply perm_skip.
Qed.

Lemma sort_In (x : A) (l : list A) : In x (sort cmp l) <-> In x l.
Proof.
  split; apply Permutation_in; [|symmetry]; apply sort_Permutation.
Qed.

End Sorting.

Lemma sortInsert_newestFirst_sorted (x : FileData.t) (l : list FileData.t) :
  StronglySorted notOlder l ->
  StronglySorted notOlder (sortInsert newestFirst x l).
Proof.
  induction 1 as [|y l Hl IH Hy]; cbn [sortInsert].
  - constructor; constructor.
  - destruct (newestFirst x y <=? 0) eqn:E.
    + apply Z.leb_le in E. unfold newestFirst in E.
      constructor; [now constructor|].
      constructor; [unfold notOlder; lia|].
      rewrite List.Forall_forall in *. intros z Hz.
      specialize (Hy z Hz). unfold notOlder in *. lia.
    + apply Z.leb_gt in E. unfold newestFirst in E.
      constructor; [exact IH|].
      rewrite List.Forall_forall in *. intros z Hz.
      apply (Permutation_in _ (sortInsert_Permutation newestFirst x l)) in Hz.
      destruct Hz as [<-|Hz]; [unfold notOlder; lia|auto].
Qed.

Lemma sort_newestFirst_sorted (l : list FileData.t) :
  StronglySorted notOlder (sort newestFirst l).
Proof.
  induction l as [|x l IH]; [constructor|].
  unfold sort in *. cbn [foldr]. now apply sortInsert_newestFirst_sorted.
Qed.

(** Inserting [x] moves it past strictly newer records only, so the
    records of any one timestamp keep their order. *)
Lemma filter_sortInsert (t : Z) (x : FileData.t) (l : list FileData.t) :
  List.filter (uploadedAtIs t) (sortInsert newestFirst x l)
  = List.filter (uploadedAtIs t) (x :: l).
Proof.
  induction l as [|y l IH]; cbn [sortInsert]; [reflexivity|].
  destruct (newestFirst x y <=? 0) eqn:E; [reflexivity|].
  apply Z.leb_gt in E. unfold newestFirst in E.
  cbn [List.filter] in *. rewrite IH.
  unfold uploadedAtIs.
  destruct (FileData.uploadedAt y =? t) eqn:Ey;
    destruct (FileData.uploadedAt x =? t) eqn:Ex; try reflexivity.
  apply Z.eqb_eq in Ex, Ey. lia.
Qed.

Lemma filter_sort (t : Z) (l : list FileData.t) :
  List.filter (uploadedAtIs t) (sort newestFirst l)
  = List.filter (uploadedAtIs t) l.
Proof.
  induction l as [|x l IH]; [reflexivity|].
  unfold sort in *. cbn [foldr]. rewrite filter_sortInsert.
  cbn [List.filter]. now rewrite IH.
Qed.

(** *** getFiles *)



Example getFiles_examples :
  map FileData.id (getFiles Samples.twoAtOnce) = ["f1"; "f2"]
  /\ map FileData.id
       (getFiles (uploadFile Samples.scenarioA "f3" 3000 true Samples.twoAtOnce).2)
     = ["f3"; "f1"; "f2"].
Proof. vm_compute. split; reflexivity. Qed.

(** C10: a record created by a successful upload has rowCount equal to
    the length of its data and preview equal to the first min(10,
    rowCount) rows of it; no call changes a stored record (a record found
    under an id after a call is the one that was there before, or the one
    that very call created), so on a service all of whose records are
    consistent, and in particular on the fresh one, every record found or
    listed after any sequence of calls is consistent. *)
Theorem stored_records_stay_consistent :
  (forall file newId now saved st record,
      (uploadFile file newId now saved st).1 = Ok record ->
      consistent record
      /\ getFile newId (uploadFile file newId now saved st).2 = Some record)
  /\ (forall c st fileId r,
      getFile fileId (after c st) = Some r ->
      getFile fileId st = Some r
      \/ exists file now saved,
           c = CallUpload file fileId now saved
           /\ (uploadFile file fileId now saved st).1 = Ok r)
  /\ (forall calls st,
      Forall consistent (mapValues (files st)) ->
      (forall fileId r, getFile fileId (run calls st) = Some r -> consistent r)
      /\ (forall r, In r (getFiles (run calls st)) -> consistent r))
  /\ Forall consistent (mapValues (files emptyStore)).
Proof.
  split; [|split; [|split]].
  - intros file newId now saved st record H. split.
    + eapply uploadFile_consistent; exact H.
    + unfold getFile. rewrite (uploadFile_stored _ _ _ _ _ _ H).
      apply mapGet_mapSet_eq.
  - apply after_keeps_records.
  - intros calls st H.
    pose proof (run_consistent calls st H) as Hall.
    rewrite List.Forall_forall in Hall.
    split.
    + intros fileId r Hr. apply Hall. eapply mapGet_In. exact Hr.
    + intros r Hr. apply Hall.
      unfold getFiles in Hr. now apply sort_In in Hr.
  - constructor.
Qed.

Lemma stored_records_stay_consistent_witness :
  exists r, getFile "f1" (run Samples.session emptyStore) = Some r /\ consistent r.
Proof.
  eexists. split; [vm_compute; reflexivity|].
  destruct stored_records_stay_consistent as (_ & _ & Hrun & Hempty).
  apply (proj1 (Hrun Samples.session emptyStore Hempty) "f1").
  vm_compute. reflexivity.
Defined.

(** *** parseXLSX *)

Lemma setCell_lookup (name : string) (v : Value) (row : Row) (k : string) :
  setCell name v row !! k
  = if String.eqb name "__proto__" then row !! k
    else if String.eqb name k then Some v else row !! k.
Proof.
  unfold setCell. destruct (String.eqb name "__proto__"); [reflexivity|].
  destruct (String.eqb_spec name k) as [->|Hne].
  - apply lookup_insert_eq.
  - now apply lookup_insert_ne.
Qed.

(** No row gets a property of the name [__proto__]. *)
Lemma setCell_proto (name : string) (v : Value) (row : Row) :
  setCell name v row !! "__proto__" = row !! "__proto__".
Proof.
  rewrite setCell_lookup.
  now destruct (String.eqb name "__proto__").
Qed.

Lemma foldl_setCell_proto {A : Type} (name : A -> string) (value : A -> Value)
      (l : list A) (row : Row) :
  foldl (fun obj x => setCell (name x) (value x) obj) row l !! "__proto__"
  = row !! "__proto__".
Proof.
  revert row. induction l as [|x l IH]; intros row; [reflexivity|].
  cbn [foldl]. now rewrite IH, setCell_proto.
Qed.

(** What a record holds under a header: the cell of the same position if
    there is one and it is truthy, the empty string otherwise; under the
    header [__proto__] it holds nothing. *)
Lemma rowToObject_lookup (headers : list string) (row : list Value)
      (i : nat) (header : string) :
  NoDup headers -> headers !! i = Some header ->
  rowToObject headers row !! header
  = if String.eqb header "__proto__" then None
    else Some (JS.or (default JUndefined (row !! i)) (JStr "")).
Proof.
  unfold rowToObject.
  induction headers as [|h headers IH] using rev_ind; intros Hnd Hi.
  - discriminate.
  - rewrite imap_app, foldl_app. cbn [imap foldl fst snd].
    apply NoDup_app in Hnd as (Hnd & Hfresh & _).
    rewrite setCell_lookup.
    destruct (decide (i < length headers)%nat) as [Hlt|Hge].
    + rewrite lookup_app_l in Hi by exact Hlt.
      assert (Hne : h <> header).
      { intros ->. apply (Hfresh header); [|left].
        eapply list_elem_of_lookup_2; exact Hi. }
      apply String.eqb_neq in Hne. rewrite Hne.
      destruct (String.eqb h "__proto__"); now apply IH.
    + rewrite lookup_app_r in Hi by lia.
      destruct (i - length headers)%nat as [|n] eqn:E; [|now destruct n].
      injection Hi as ->.
      replace (length headers + 0)%nat with i by lia.
      rewrite String.eqb_refl.
      destruct (String.eqb header "__proto__") eqn:Ep; [|reflexivity].
      apply String.eqb_eq in Ep as ->.
      rewrite (foldl_setCell_proto snd
                 (fun hi => JS.or (default JUndefined (row !! hi.1)) (JStr ""))).
      apply lookup_empty.
Qed.

(** C8: the code departs from the claim on a cell that is present and
    falsy.  In a sheet with the header item, qty and the row bolt, 0 the
    record's qty is the empty string, not the cell's value 0; a cell that
    is present and truthy is kept, and a missing one becomes the empty
    string. *)
Theorem zero_cell_becomes_empty_string :
  exists parsed r1 r2 r3,
    parseXLSX Samples.stock = Ok parsed
    /\ ParsedData.data parsed = [r1; r2; r3]
    /\ r1 !! "item" = Some (JStr "bolt")
    /\ r1 !! "qty" = Some (JStr "")
    /\ r2 !! "qty" = Some (JNum 12)
    /\ r3 !! "qty" = Some (JStr "").
Proof.
  do 4 eexists. split; [reflexivity|].
  split; [reflexivity|].
  repeat split; vm_compute; reflexivity.
Qed.

(** *** The three tests for a numeric column *)

(** C5, as stated, fails: on a two-row table whose column holds "1" and
    "abc", the dashboard's test deems the column numeric while the
    classifier calls it 'text'; the statistics builder's test rejects it
    too. *)
Lemma eligibility_differs_from_classifier :
  (length Samples.mixed <= 50)%nat
  /\ In "v" (numericColumns Samples.mixed)
  /\ inferColumnType Samples.dateParse Samples.numberToString Samples.mixed "v"
     = "text"
  /\ forallb (looksNumeric "v") (take 100 Samples.mixed) = false.
Proof.
  split; [cbn; lia|].
  repeat split; vm_compute; auto.
Qed.

Lemma objectKeys_In (row : Row) (col : string) :
  In col (objectKeys row) <-> is_Some (row !! col).
Proof.
  unfold objectKeys. rewrite in_map_iff. split.
  - intros ([k v] & <- & Hin).
    apply list_elem_of_In, elem_of_map_to_list in Hin. cbn. eauto.
  - intros [v Hv]. exists (col, v). split; [reflexivity|].
    now apply list_elem_of_In, elem_of_map_to_list.
Qed.

Lemma fractionExceeds_zero (total : nat) : fractionExceeds 0 total = false.
Proof. reflexivity. Qed.

Lemma filter_nonempty_In {A : Type} (f : A -> bool) (l : list A) :
  (0 < length (List.filter f l))%nat -> exists x, In x l /\ f x = true.
Proof.
  destruct (List.filter f l) as [|x l'] eqn:E; cbn [length]; [lia|].
  intros _. exists x. apply filter_In. rewrite E. now left.
Qed.

Lemma isEmptyString_false (v : Value) :
  isEmptyString v = false <-> v <> JStr "".
Proof.
  destruct v as [| | | |[|c s]|]; cbn [isEmptyString];
    split; congruence.
Qed.

(** The test of one row, shared by the statistics builder and the
    dashboard: the cell converts to a number and is not the empty
    string. *)
Lemma looksNumeric_iff (col : string) (row : Row) :
  inherited col = JUndefined ->
  looksNumeric col row = true
  <-> convertsToNumber (Spec.cell col row) = true /\ Spec.cell col row <> JStr "".
Proof.
  intros Hown. unfold looksNumeric. rewrite getCell_cell by exact Hown.
  rewrite andb_true_iff. fold (convertsToNumber (Spec.cell col row)).
  now rewrite negb_true_iff, isEmptyString_false.
Qed.

(** The classifier says 'numeric' exactly when more than eight tenths of
    the sample convert to a number. *)
Lemma inferColumnType_numeric (dateParse : string -> float)
      (numberToString : float -> string) (data : list Row) (col : string) :
  inherited col = JUndefined ->
  inferColumnType dateParse numberToString data col = "numeric"
  <-> fractionExceeds (Spec.count convertsToNumber (Spec.sample data col))
                      (length (Spec.sample data col)) = true.
Proof.
  intros Hown.
  rewrite inferColumnType_classify, sampleOf_sample by exact Hown.
  unfold Spec.classify.
  destruct (Spec.sample data col) as [|v sample] eqn:E.
  - split; discriminate.
  - destruct (fractionExceeds (Spec.count convertsToNumber _) _); [tauto|].
    destruct (fractionExceeds _ _); split; discriminate.
Qed.

Lemma statsNumericColumns_iff (file : FileData.t) (col : string) :
  inherited col = JUndefined ->
  In col (statsNumericColumns file)
  <-> In col (FileData.columns file)
      /\ forall row, In row (take 100 (FileData.data file)) ->
           convertsToNumber (Spec.cell col row) = true
           /\ Spec.cell col row <> JStr "".
Proof.
  intros Hown. unfold statsNumericColumns.
  rewrite filter_In, forallb_forall.
  split; intros [Hin Hall]; (split; [exact Hin|]); intros row Hrow;
    apply (looksNumeric_iff col row Hown); now apply Hall.
Qed.

Lemma numericColumns_iff (data : list Row) (col : string) :
  inherited col = JUndefined ->
  In col (numericColumns data)
  <-> (exists first rest, data = first :: rest /\ is_Some (first !! col))
      /\ exists row, In row (take 50 data)
                     /\ convertsToNumber (Spec.cell col row) = true
                     /\ Spec.cell col row <> JStr "".
Proof.
  intros Hown. unfold numericColumns.
  destruct data as [|first rest].
  - split; [intros []|]. now intros [(first & rest & H & _) _].
  - rewrite filter_In, objectKeys_In. unfold someLooksNumeric.
    rewrite existsb_exists. split.
    + intros [Hkey (row & Hrow & Hlooks)]. split; [eauto|].
      exists row. split; [exact Hrow|]. now apply looksNumeric_iff.
    + intros [(first' & rest' & [= <- <-] & Hkey) (row & Hrow & Hlooks)].
      split; [exact Hkey|]. exists row. split; [exact Hrow|].
      now apply looksNumeric_iff.
Qed.

(** A sample more than eight tenths of which convert holds a row whose
    cell converts and is not empty. *)
Lemma numeric_sample_has_numeric_cell (data : list Row) (col : string) :
  fractionExceeds (Spec.count convertsToNumber (Spec.sample data col))
                  (length (Spec.sample data col)) = true ->
  exists row, In row (take 100 data)
              /\ convertsToNumber (Spec.cell col row) = true
              /\ Spec.cell col row <> JStr "".
Proof.
  intros Hn.
  assert (Hpos : (0 < Spec.count convertsToNumber (Spec.sample data col))%nat).
  { destruct (Spec.count convertsToNumber (Spec.sample data col)); [|lia].
    now rewrite fractionExceeds_zero in Hn. }
  apply filter_nonempty_In in Hpos as (x & Hx & Hnum).
  unfold Spec.sample in Hx. apply filter_In in Hx as [Hx Hfull].
  apply in_map_iff in Hx as (row & <- & Hrow).
  exists row. split; [exact Hrow|]. split; [exact Hnum|].
  intros Hempty. rewrite Hempty in Hfull. discriminate.
Qed.

(** C5, amended: the call sites apply three different tests to a column
    whose name is not one that rows inherit.  The classifier says
    'numeric' exactly when more than eight tenths of the non-empty values
    of the first 100 rows convert to a number; the statistics builder
    takes a column for numeric exactly when it is a column of the file
    and in every one of the first 100 rows its cell converts to a number
    and is not the empty string; the dashboard takes it for numeric
    exactly when the first row has it and in at least one of the first 50
    rows its cell converts and is not the empty string.  On a table of at
    most 50 rows whose first row has the column, a column the classifier
    calls 'numeric' is numeric for the dashboard; the converse does not
    hold. *)
Theorem three_numeric_tests
        (dateParse : string -> float) (numberToString : float -> string)
        (file : FileData.t) (col : string) :
  inherited col = JUndefined ->
  let data := FileData.data file in
  (inferColumnType dateParse numberToString data col = "numeric"
   <-> fractionExceeds (Spec.count convertsToNumber (Spec.sample data col))
                       (length (Spec.sample data col)) = true)
  /\ (In col (statsNumericColumns file)
      <-> In col (FileData.columns file)
          /\ forall row, In row (take 100 data) ->
               convertsToNumber (Spec.cell col row) = true
               /\ Spec.cell col row <> JStr "")
  /\ (In col (numericColumns data)
      <-> (exists first rest, data = first :: rest /\ is_Some (first !! col))
          /\ exists row, In row (take 50 data)
                         /\ convertsToNumber (Spec.cell col row) = true
                         /\ Spec.cell col row <> JStr "")
  /\ ((length data <= 50)%nat ->
      (exists first rest, data = first :: rest /\ is_Some (first !! col)) ->
      inferColumnType dateParse numberToString data col = "numeric" ->
      In col (numericColumns data)).
Proof.
  intros Hown data.
  split; [now apply inferColumnType_numeric|].
  split; [now apply statsNumericColumns_iff|].
  split; [now apply numericColumns_iff|].
  intros Hlen Hkey Hnum.
  apply inferColumnType_numeric in Hnum; [|exact Hown].
  apply numeric_sample_has_numeric_cell in Hnum as (row & Hrow & Hlooks).
  apply numericColumns_iff; [exact Hown|]. split; [exact Hkey|].
  exists row. split; [|exact Hlooks].
  rewrite take_ge in Hrow by lia. now rewrite take_ge by lia.
Qed.

Lemma three_numeric_tests_witness :
  In "value"
     (numericColumns
        (map (Papa.toObject ["name"; "value"]) [["a"; "1"]; ["b"; "2"]; ["c"; "3"]])).
Proof.
  apply (proj2 (proj2 (proj2
           (three_numeric_tests Samples.dateParse Samples.numberToString
              (FileData.mk "f1" "sales.csv" csv 24 1000
                 (map (Papa.toObject ["name"; "value"])
                      [["a"; "1"]; ["b"; "2"]; ["c"; "3"]])
                 ["name"; "value"] 3 [])
              "value" eq_refl)))).
  - cbn. lia.
  - do 2 eexists. split; [reflexivity|]. vm_compute. eauto.
  - vm_compute. reflexivity.
Defined.

(** *** Numerals *)













(** *** getFileStats *)

Lemma columnValues_map_filter (file : FileData.t) (col : string) :
  columnValues file col
  = map Number (List.filter convertsToNumber (columnCells file col)).
Proof.
  unfold columnValues, columnCells, convertsToNumber.
  induction (FileData.data file) as [|row rows IH]; [reflexivity|].
  cbn [map List.filter].
  destruct (negb (isNaN (Number (getCell row col)))); cbn [map]; now rewrite IH.
Qed.






Example getFileStats_examples :
  (* Scenario A *)
  getFileStats 1000 "f1" Samples.oneFile = Ok (Some Samples.oneFileStats)
  (* a table without rows: every column passes the test, no block *)
  /\ getFileStats 1000 "f2" Samples.twoAtOnce = Ok (Some (Stats.mk 0 2 2 0 None))
  (* an id that is not stored *)
  /\ getFileStats 1000 "f9" Samples.oneFile = Ok None
  (* a column with more values than a call takes arguments *)
  /\ getFileStats 2 "f1" Samples.oneFile = Err RangeError
  (* strings of one space convert, to 0 *)
  /\ Number (JStr " ") = 0%float /\ Spec.parsesAsNumber (JStr " ") = false.
Proof. vm_compute. repeat split; reflexivity. Qed.

(* ================================================================== *)
(** * Further properties of the services *)
(* ================================================================== *)

(** *** getFileType *)

Lemma list_ascii_of_string_append (s t : string) :
  list_ascii_of_string (String.append s t)
  = list_ascii_of_string s ++ list_ascii_of_string t.
Proof.
  induction s as [|c s IH]; [reflexivity|].
  change (String.append (String c s) t) with (String c (String.append s t)).
  cbn [list_ascii_of_string app]. now rewrite IH.
Qed.

Lemma lowerChar_idempotent (c : ascii) : lowerChar (lowerChar c) = lowerChar c.
Proof.
  destruct c as [[] [] [] [] [] [] [] []]; vm_compute; reflexivity.
Qed.

Lemma lowerChar_dot (c : ascii) :
  Ascii.eqb (lowerChar c) "."%char = Ascii.eqb c "."%char.
Proof.
  destruct c as [[] [] [] [] [] [] [] []]; vm_compute; reflexivity.
Qed.

Lemma toLowerCase_idempotent (s : string) :
  toLowerCase (toLowerCase s) = toLowerCase s.
Proof.
  unfold toLowerCase. rewrite list_ascii_of_string_of_list_ascii, map_map.
  f_equal. apply map_ext. intros c. apply lowerChar_idempotent.
Qed.

Lemma lastSegment_after_dot (before after acc : list ascii) :
  lastSegment (before ++ "."%char :: after) acc = lastSegment after [].
Proof.
  revert acc. induction before as [|c before IH]; intros acc; cbn [app lastSegment].
  - reflexivity.
  - destruct (Ascii.eqb c "."); apply IH.
Qed.

Lemma lastSegment_no_dot (cs acc : list ascii) :
  forallb (fun c => negb (Ascii.eqb c "."%char)) cs = true ->
  lastSegment cs acc = rev acc ++ cs.
Proof.
  revert acc. induction cs as [|c cs IH]; intros acc H; cbn [lastSegment].
  - now rewrite app_nil_r.
  - apply forallb_cons in H as [Hc Hcs].
    apply negb_true_iff in Hc. rewrite Hc, IH by exact Hcs.
    cbn [rev]. now rewrite <- app_assoc.
Qed.

(** X1: the type of a file is decided by what follows the last dot of its
    name, whatever the case of the letters.  The extension of [base.ext],
    with no dot in [ext], is [ext] in lower case; [base.rest] has the
    type of the bare name [rest]; and a name has the type of its
    lower-case form. *)
Theorem getFileType_last_extension (base ext : string) :
  hasNoDot ext = true ->
  extension (withExtension base ext) = toLowerCase ext
  /\ getFileType (withExtension base ext) = getFileType ext
  /\ getFileType (toLowerCase (withExtension base ext))
     = getFileType (withExtension base ext).
Proof.
  intros Hext.
  assert (Hseg : forall name,
             lastSegment (list_ascii_of_string (toLowerCase (withExtension base name))) []
             = lastSegment (list_ascii_of_string (toLowerCase name)) []).
  { intros name. unfold toLowerCase, withExtension.
    rewrite !list_ascii_of_string_of_list_ascii.
    rewrite list_ascii_of_string_append. cbn [list_ascii_of_string].
    rewrite map_app. cbn [map].
    change (lowerChar ".") with "."%char.
    apply lastSegment_after_dot. }
  split; [|split].
  - unfold extension. rewrite Hseg.
    unfold toLowerCase at 1. rewrite list_ascii_of_string_of_list_ascii.
    rewrite lastSegment_no_dot; [reflexivity|].
    unfold hasNoDot in Hext. rewrite forallb_forall in *.
    intros c Hc. apply in_map_iff in Hc as (c0 & <- & Hc0).
    rewrite lowerChar_dot. now apply Hext.
  - unfold getFileType, extension. now rewrite Hseg.
  - unfold getFileType, extension. now rewrite toLowerCase_idempotent.
Qed.

Lemma getFileType_last_extension_witness :
  extension (withExtension "Report.final" "CSV") = toLowerCase "CSV"
  /\ getFileType (withExtension "Report.final" "CSV") = getFileType "CSV"
  /\ getFileType (toLowerCase (withExtension "Report.final" "CSV"))
     = getFileType (withExtension "Report.final" "CSV").
Proof.
  apply (getFileType_last_extension "Report.final" "CSV"). reflexivity.
Defined.

Example getFileType_examples :
  map getFileType ["data.csv"; "DATA.CSV"; "book.xlsx"; "old.XLS"; "archive.csv.zip";
                   "report.pdf"; "csv"; "noextension"; ""; ".csv"; "trailing."]
  = [Some csv; Some csv; Some xlsx; Some xlsx; None; None; Some csv; None; None;
     Some csv; None].
Proof. vm_compute. reflexivity. Qed.

(** *** What an upload and a deletion do to the service *)

Lemma uploadFile_ok_inv (file : File) (newId : string) (now : Z)
      (saved : bool) (st : Store)
      (record : FileData.t) :
  (uploadFile file newId now saved st).1 = Ok record ->
  exists fileType parsed,
    getFileType (fileName file) = Some fileType
    /\ match fileType with
       | csv => parseCSV file
       | xlsx => parseXLSX file
       end = Ok parsed
    /\ record = FileData.mk newId (fileName file) fileType (fileSize file) now
                  (ParsedData.data parsed) (ParsedData.columns parsed)
                  (ParsedData.rowCount parsed) (ParsedData.preview parsed)
    /\ (uploadFile file newId now saved st).2
       = saveFilesToStorage saved
           (mkStore (mapSet newId record (files st)) (storage st) (writes st)).
Proof.
  unfold uploadFile.
  destruct (getFileType (fileName file)) as [fileType|]; [|discriminate].
  destruct (match fileType with csv => parseCSV file | xlsx => parseXLSX file end)
    as [parsed|] eqn:E; [|discriminate].
  intros [= <-]. exists fileType, parsed. repeat split. exact E.
Qed.

(** X2: a successful upload returns a record that carries the given id,
    the file's name and size, the clock's reading and the type its name
    stands for; the record map then holds it under that id and holds
    under every other id what it held before.  When local storage takes
    the write, the item there is the new map and has been written once
    more; when the write fails, the item and the count of writes stay as
    they were, and the upload succeeds all the same. *)
Theorem uploadFile_effect (file : File) (newId : string) (now : Z)
        (saved : bool) (st : Store) (record : FileData.t) :
  (uploadFile file newId now saved st).1 = Ok record ->
  let st' := (uploadFile file newId now saved st).2 in
  FileData.id record = newId
  /\ FileData.name record = fileName file
  /\ FileData.size record = fileSize file
  /\ FileData.uploadedAt record = now
  /\ getFileType (fileName file) = Some (FileData.type record)
  /\ getFile newId st' = Some record
  /\ (forall other, other <> newId -> getFile other st' = getFile other st)
  /\ storage st' = (if saved then Some (files st') else storage st)
  /\ writes st' = (if saved then S (writes st) else writes st).
Proof.
  intros H. cbv zeta.
  destruct (uploadFile_ok_inv _ _ _ _ _ _ H)
    as (fileType & parsed & Ht & _ & Hr & ->).
  unfold getFile. rewrite files_saveFilesToStorage. cbn [files].
  rewrite Hr at 1 2 3 4 5. cbn [FileData.id FileData.name FileData.size
                                 FileData.uploadedAt FileData.type].
  repeat split; try assumption.
  - apply mapGet_mapSet_eq.
  - intros other Hne. apply mapGet_mapSet_ne. congruence.
  - now destruct saved.
  - now destruct saved.
Qed.

Lemma uploadFile_effect_witness :
  exists record,
    (uploadFile Samples.customers "c1" 5000 false Samples.oneFile).1 = Ok record
    /\ let st' := (uploadFile Samples.customers "c1" 5000 false Samples.oneFile).2 in
       FileData.id record = "c1"
       /\ FileData.name record = "customers.csv"
       /\ FileData.size record = 40%N
       /\ FileData.uploadedAt record = 5000
       /\ getFileType "customers.csv" = Some (FileData.type record)
       /\ getFile "c1" st' = Some record
       /\ (forall other, other <> "c1" -> getFile other st' = getFile other Samples.oneFile)
       /\ storage st' = storage Samples.oneFile
       /\ writes st' = writes Samples.oneFile.
Proof.
  eexists. split; [vm_compute; reflexivity|].
  apply (uploadFile_effect Samples.customers "c1" 5000 false Samples.oneFile).
  vm_compute. reflexivity.
Defined.

(** X3: deleting an id that the record map holds returns true; the id is
    then absent and every other id holds what it held before.  When
    local storage takes the write, the item there is the new map and has
    been written once more; when the write fails, the item and the count
    of writes stay as they were. *)
Theorem deleteFile_present (fileId : string) (saved : bool) (st : Store)
        (record : FileData.t) :
  getFile fileId st = Some record ->
  let st' := (deleteFile fileId saved st).2 in
  (deleteFile fileId saved st).1 = true
  /\ getFile fileId st' = None
  /\ (forall other, other <> fileId -> getFile other st' = getFile other st)
  /\ storage st' = (if saved then Some (files st') else storage st)
  /\ writes st' = (if saved then S (writes st) else writes st).
Proof.
  unfold getFile, deleteFile, mapHas. intros H. rewrite H.
  cbn [fst snd]. rewrite files_saveFilesToStorage. cbn [files].
  repeat split.
  - apply mapGet_mapDelete_eq.
  - intros other Hne. apply mapGet_mapDelete_ne. congruence.
  - now destruct saved.
  - now destruct saved.
Qed.

Lemma deleteFile_present_witness :
  let st' := (deleteFile "f1" true Samples.twoAtOnce).2 in
  (deleteFile "f1" true Samples.twoAtOnce).1 = true
  /\ getFile "f1" st' = None
  /\ (forall other, other <> "f1" -> getFile other st' = getFile other Samples.twoAtOnce)
  /\ storage st' = Some (files st')
  /\ writes st' = S (writes Samples.twoAtOnce).
Proof.
  eapply (deleteFile_present "f1" true Samples.twoAtOnce).
  vm_compute. reflexivity.
Defined.

Lemma deleteFile_missing (fileId : string) (saved : bool) (st : Store) :
  mapGet fileId (files st) = None -> deleteFile fileId saved st = (false, st).
Proof.
  unfold deleteFile, mapHas. intros H. rewrite H.
  rewrite mapDelete_absent by exact H. now rewrite store_eta.
Qed.

(** X4: deleting the same id a second time returns false and changes
    nothing, whatever the first deletion did. *)
Theorem deleteFile_twice_is_noop (fileId : string) (saved again : bool)
        (st : Store) :
  deleteFile fileId again (deleteFile fileId saved st).2
  = (false, (deleteFile fileId saved st).2).
Proof.
  apply deleteFile_missing.
  unfold deleteFile. cbn [snd].
  destruct (mapHas fileId (files st)); rewrite ?files_saveFilesToStorage;
    cbn [files]; apply mapGet_mapDelete_eq.
Qed.

(** *** Invariants of the service over any sequence of calls *)

Lemma after_inSync (c : Call) (st : Store) :
  callSaves c = true -> inSync st -> inSync (after c st).
Proof.
  intros Hsaved Hst.
  destruct c as [file newId now saved| |fid|fid saved|fid q|fid];
    cbn [after]; auto; cbn [callSaves] in Hsaved; subst saved.
  - destruct (uploadFile file newId now true st).1 as [record|e] eqn:E.
    + destruct (uploadFile_ok_inv _ _ _ _ _ _ E) as (_ & _ & _ & _ & _ & ->).
      now left.
    + now rewrite (uploadFile_failure_keeps_store _ _ _ _ _ _ E).
  - unfold deleteFile, mapHas. cbn [snd].
    destruct (mapGet fid (files st)) eqn:E.
    + now left.
    + rewrite mapDelete_absent by exact E. now rewrite store_eta.
Qed.

(** A call writes the record map to local storage, or leaves the item
    there as it was. *)
Lemma after_storage (c : Call) (st : Store) :
  storage (after c st) = Some (files (after c st))
  \/ storage (after c st) = storage st.
Proof.
  destruct c as [file newId now saved| |fid|fid saved|fid q|fid];
    cbn [after]; auto.
  - destruct (uploadFile file newId now saved st).1 as [record|e] eqn:E.
    + destruct (uploadFile_ok_inv _ _ _ _ _ _ E) as (_ & _ & _ & _ & _ & ->).
      destruct saved; [now left|now right].
    + rewrite (uploadFile_failure_keeps_store _ _ _ _ _ _ E). now right.
  - unfold deleteFile. cbn [snd].
    destruct (mapHas fid (files st)); [|now right].
    destruct saved; [now left|now right].
Qed.

(** X5: as long as local storage takes every write, the item in local
    storage mirrors the record map after any sequence of calls, provided
    it did at the start, which holds for the service built over an empty
    storage.  A write that fails is caught: whatever the call, it leaves
    the item equal to the record map or as it was before the call. *)
Theorem storage_mirrors_records (calls : list Call) (st : Store) :
  (forallb callSaves calls = true -> inSync st -> inSync (run calls st))
  /\ (forall c, storage (after c st) = Some (files (after c st))
                \/ storage (after c st) = storage st).
Proof.
  split; [|intros c; apply after_storage].
  revert st. induction calls as [|c calls IH]; intros st Hsaved Hst; [exact Hst|].
  apply forallb_cons in Hsaved as [Hc Hsaved].
  cbn [run fold_left]. apply IH; [exact Hsaved|]. now apply after_inSync.
Qed.

Lemma storage_mirrors_records_witness :
  inSync (run [CallUpload Samples.scenarioA "f1" 1000 true; CallGetFiles;
               CallUpload Samples.report "f2" 2000 true;
               CallDeleteFile "f1" true] emptyStore).
Proof.
  refine (proj1 (storage_mirrors_records
                   [CallUpload Samples.scenarioA "f1" 1000 true; CallGetFiles;
                    CallUpload Samples.report "f2" 2000 true;
                    CallDeleteFile "f1" true] emptyStore) _ _).
  - reflexivity.
  - right. split; reflexivity.
Defined.

Example failed_write_leaves_item :
  let st := (uploadFile Samples.scenarioA "f1" 1000 false emptyStore).2 in
  storage st = None /\ writes st = 0%nat /\ length (files st) = 1%nat
  /\ ~ inSync st.
Proof.
  repeat split; try (vm_compute; reflexivity).
  intros [H|[_ H]]; vm_compute in H; discriminate.
Qed.

Lemma mapSet_keys (k : string) (v : FileData.t) (m : FileMap) :
  map fst (mapSet k v m) = if mapHas k m then map fst m else map fst m ++ [k].
Proof.
  unfold mapHas.
  induction m as [|[k' v'] m IH]; cbn [mapSet mapGet map fst app]; [reflexivity|].
  destruct (String.eqb_spec k' k) as [->|Hne]; [reflexivity|].
  cbn [map fst]. rewrite IH. now destruct (mapGet k m).
Qed.

Lemma mapGet_None_keys (k : string) (m : FileMap) :
  mapGet k m = None -> ~ In k (map fst m).
Proof.
  induction m as [|[k' v'] m IH]; cbn [mapGet map fst In]; [tauto|].
  destruct (String.eqb_spec k' k) as [->|Hne]; [discriminate|].
  intros H [Heq|Hin]; [congruence|now apply IH].
Qed.

Lemma mapSet_wellKeyed (k : string) (v : FileData.t) (m : FileMap) :
  FileData.id v = k -> wellKeyed m -> wellKeyed (mapSet k v m).
Proof.
  intros Hid [Hnd Hall]. split.
  - rewrite mapSet_keys. unfold mapHas.
    destruct (mapGet k m) eqn:E; [exact Hnd|].
    apply NoDup_app. repeat split; [exact Hnd| |apply NoDup_singleton].
    intros x Hx [->|[]]%list_elem_of_In.
    apply (mapGet_None_keys _ _ E). now apply list_elem_of_In.
  - clear Hnd. induction m as [|[k' v'] m IH]; cbn [mapSet].
    + now repeat constructor.
    + apply Forall_cons in Hall as [Hkv Hall].
      destruct (String.eqb k' k); constructor; auto.
Qed.

Lemma mapDelete_wellKeyed (k : string) (m : FileMap) :
  wellKeyed m -> wellKeyed (mapDelete k m).
Proof.
  intros [Hnd Hall]. split.
  - unfold mapDelete. clear Hall.
    induction m as [|[k' v'] m IH]; cbn [List.filter map fst]; [constructor|].
    apply NoDup_cons in Hnd as [Hk Hnd].
    destruct (negb (String.eqb k' k)); cbn [map fst]; [|now apply IH].
    apply NoDup_cons. split; [|now apply IH].
    intros Hin. apply Hk. apply list_elem_of_In in Hin. apply list_elem_of_In.
    apply in_map_iff in Hin as (kv & Hkv & Hin).
    apply filter_In in Hin as [Hin _]. apply in_map_iff. eauto.
  - unfold mapDelete. rewrite List.Forall_forall in *.
    intros kv Hkv. apply filter_In in Hkv as [Hkv _]. now apply Hall.
Qed.

Lemma after_wellKeyed (c : Call) (st : Store) :
  wellKeyed (files st) -> wellKeyed (files (after c st)).
Proof.
  intros Hst.
  destruct c as [file newId now saved| |fid|fid saved|fid q|fid]; cbn [after]; auto.
  - destruct (uploadFile file newId now saved st).1 as [record|e] eqn:E.
    + destruct (uploadFile_ok_inv _ _ _ _ _ _ E) as (t & parsed & _ & _ & Hr & ->).
      rewrite files_saveFilesToStorage. cbn [files].
      apply mapSet_wellKeyed; [|exact Hst].
      rewrite Hr. reflexivity.
    + now rewrite (uploadFile_failure_keeps_store _ _ _ _ _ _ E).
  - unfold deleteFile. cbn [snd].
    destruct (mapHas fid (files st)); rewrite ?files_saveFilesToStorage;
      cbn [files]; now apply mapDelete_wellKeyed.
Qed.

Lemma run_wellKeyed (calls : list Call) (st : Store) :
  wellKeyed (files st) -> wellKeyed (files (run calls st)).
Proof.
  revert st. induction calls as [|c calls IH]; intros st Hst; [exact Hst|].
  cbn [run fold_left]. apply IH. now apply after_wellKeyed.
Qed.

Lemma wellKeyed_mapGet (m : FileMap) (k : string) (v : FileData.t) :
  wellKeyed m -> mapGet k m = Some v -> FileData.id v = k.
Proof.
  intros [_ Hall]. induction m as [|[k' v'] m IH]; [discriminate|].
  apply Forall_cons in Hall as [Hkv Hall]. cbn [mapGet].
  destruct (String.eqb_spec k' k) as [->|Hne].
  - now intros [= <-].
  - now apply IH.
Qed.

Lemma wellKeyed_ids (m : FileMap) :
  wellKeyed m -> map FileData.id (mapValues m) = map fst m.
Proof.
  intros [_ Hall]. unfold mapValues. rewrite map_map.
  induction Hall as [|kv m Hkv _ IH]; [reflexivity|].
  cbn [map]. now rewrite Hkv, IH.
Qed.

(** X6: after any sequence of calls on the fresh service, the record
    found under an id carries that id, and getFiles lists no id twice. *)
Theorem ids_identify_records (calls : list Call) :
  (forall fileId record,
      getFile fileId (run calls emptyStore) = Some record ->
      FileData.id record = fileId)
  /\ NoDup (map FileData.id (getFiles (run calls emptyStore))).
Proof.
  assert (H : wellKeyed (files (run calls emptyStore))).
  { apply run_wellKeyed. split; constructor. }
  split.
  - intros fileId record. now apply wellKeyed_mapGet.
  - unfold getFiles.
    rewrite (Permutation_map FileData.id (sort_Permutation newestFirst _)).
    rewrite wellKeyed_ids by exact H. apply H.
Qed.

Lemma ids_identify_records_witness :
  exists record,
    getFile "f1" (run Samples.session emptyStore) = Some record
    /\ FileData.id record = "f1".
Proof.
  eexists. split; [vm_compute; reflexivity|].
  apply (proj1 (ids_identify_records Samples.session) "f1").
  vm_compute. reflexivity.
Defined.

Lemma mapSet_fresh (k : string) (v : FileData.t) (m : FileMap) :
  mapGet k m = None -> mapSet k v m = m ++ [(k, v)].
Proof.
  induction m as [|[k' v'] m IH]; cbn [mapGet mapSet app]; [reflexivity|].
  destruct (String.eqb k' k); [discriminate|].
  intros H. now rewrite IH.
Qed.

Lemma mapSet_length (k : string) (v : FileData.t) (m : FileMap) :
  length (mapSet k v m) = if mapHas k m then length m else S (length m).
Proof.
  rewrite <- (length_map fst (mapSet k v m)), mapSet_keys.
  destruct (mapHas k m); [apply length_map|].
  rewrite length_app, length_map. cbn. lia.
Qed.

Lemma getFiles_length (st : Store) : length (getFiles st) = length (files st).
Proof.
  unfold getFiles, mapValues.
  rewrite (Permutation_length (sort_Permutation newestFirst _)).
  apply length_map.
Qed.

(** X7: a successful upload under an id that the map does not hold puts
    the new record after all the others in the map's order and makes the
    list of getFiles one longer; under an id that the map already holds
    it replaces that record where it stands, and the list keeps its
    length. *)
Theorem uploadFile_inserts_or_replaces (file : File) (newId : string) (now : Z)
      (saved : bool)
        (st : Store) (record : FileData.t) :
  (uploadFile file newId now saved st).1 = Ok record ->
  let st' := (uploadFile file newId now saved st).2 in
  match getFile newId st with
  | None =>
      mapValues (files st') = mapValues (files st) ++ [record]
      /\ length (getFiles st') = S (length (getFiles st))
  | Some _ =>
      map fst (files st') = map fst (files st)
      /\ length (getFiles st') = length (getFiles st)
  end.
Proof.
  intros H. cbv zeta.
  destruct (uploadFile_ok_inv _ _ _ _ _ _ H) as (_ & _ & _ & _ & _ & Hst).
  rewrite !getFiles_length, Hst, files_saveFilesToStorage. cbn [files].
  rewrite mapSet_length, mapSet_keys. unfold getFile, mapHas.
  destruct (mapGet newId (files st)) eqn:E; [now split|].
  split; [|reflexivity].
  rewrite mapSet_fresh by exact E.
  unfold mapValues. now rewrite map_app.
Qed.

Lemma uploadFile_inserts_or_replaces_witness :
  exists record,
    (uploadFile Samples.headerOnly "f1" 2000 true Samples.twoAtOnce).1 = Ok record
    /\ map fst (files (uploadFile Samples.headerOnly "f1" 2000 true Samples.twoAtOnce).2)
       = map fst (files Samples.twoAtOnce)
    /\ length (getFiles (uploadFile Samples.headerOnly "f1" 2000 true Samples.twoAtOnce).2)
       = length (getFiles Samples.twoAtOnce).
Proof.
  destruct (uploadFile Samples.headerOnly "f1" 2000 true Samples.twoAtOnce).1
    as [record|e] eqn:H; [|vm_compute in H; discriminate].
  exists record. split; [reflexivity|].
  pose proof (uploadFile_inserts_or_replaces _ _ _ _ _ _ H) as W.
  cbv zeta in W.
  destruct (getFile "f1" Samples.twoAtOnce) eqn:G;
    [exact W|vm_compute in G; discriminate].
Defined.

Lemma StronglySorted_head {A : Type} (R : A -> A -> Prop) (x : A) (l : list A) :
  StronglySorted R (x :: l) -> List.Forall (R x) l.
Proof. intros H. now inversion H. Qed.

(** X8: the first record of getFiles, the one the chat takes as the
    latest file, is at least as new as every stored record, and among
    the records that share its timestamp it is the one inserted first.
    The list is empty only when nothing is stored. *)
Theorem getFiles_first_is_newest (st : Store) :
  (forall newest others,
      getFiles st = newest :: others ->
      (forall r, In r (mapValues (files st)) ->
                 FileData.uploadedAt r <= FileData.uploadedAt newest)
      /\ hd_error (List.filter (uploadedAtIs (FileData.uploadedAt newest))
                               (mapValues (files st)))
         = Some newest)
  /\ (getFiles st = [] <-> files st = []).
Proof.
  split.
  - intros newest others Hg. split.
    + intros r Hr.
      assert (Hin : In r (getFiles st)) by (unfold getFiles; now apply sort_In).
      rewrite Hg in Hin. destruct Hin as [<-|Hin]; [lia|].
      pose proof (sort_newestFirst_sorted (mapValues (files st))) as Hs.
      fold (getFiles st) in Hs. rewrite Hg in Hs.
      apply StronglySorted_head in Hs.
      rewrite List.Forall_forall in Hs. now apply Hs.
    + rewrite <- filter_sort. fold (getFiles st). rewrite Hg.
      cbn [List.filter]. unfold uploadedAtIs at 1. now rewrite Z.eqb_refl.
  - pose proof (getFiles_length st) as Hlen.
    split; intros H; rewrite H in Hlen; cbn in Hlen.
    + destruct (files st); [reflexivity|discriminate].
    + destruct (getFiles st); [reflexivity|discriminate].
Qed.

Lemma getFiles_first_is_newest_witness :
  exists newest others,
    getFiles Samples.twoAtOnce = newest :: others
    /\ FileData.id newest = "f1"
    /\ (forall r, In r (mapValues (files Samples.twoAtOnce)) ->
                  FileData.uploadedAt r <= FileData.uploadedAt newest)
    /\ hd_error (List.filter (uploadedAtIs (FileData.uploadedAt newest))
                             (mapValues (files Samples.twoAtOnce)))
       = Some newest.
Proof.
  do 2 eexists. split; [vm_compute; reflexivity|].
  split; [reflexivity|].
  eapply (proj1 (getFiles_first_is_newest Samples.twoAtOnce)).
  vm_compute. reflexivity.
Defined.

(** *** searchInFile *)

Lemma toLowerCase_String (c : ascii) (s : string) :
  toLowerCase (String c s) = String (lowerChar c) (toLowerCase s).
Proof. reflexivity. Qed.

Lemma prefix_empty (s : string) : String.prefix "" s = true.
Proof. now destruct s. Qed.

Lemma prefix_toLowerCase (q s : string) :
  String.prefix q s = true ->
  String.prefix (toLowerCase q) (toLowerCase s) = true.
Proof.
  revert s. induction q as [|a q IH]; intros s H; [apply prefix_empty|].
  destruct s as [|b s]; [discriminate|].
  rewrite !toLowerCase_String. cbn [String.prefix] in *.
  destruct (ascii_dec a b) as [->|]; [|discriminate].
  destruct (ascii_dec (lowerChar b) (lowerChar b)); [now apply IH|congruence].
Qed.

Lemma includes_toLowerCase (s q : string) :
  includes s q = true -> includes (toLowerCase s) (toLowerCase q) = true.
Proof.
  induction s as [|c s IH]; cbn [includes]; intros H.
  - apply orb_true_iff in H as [H|H]; [|discriminate].
    apply prefix_toLowerCase in H.
    change (toLowerCase "") with "" in *. cbn [includes]. now rewrite H.
  - apply orb_true_iff in H as [H|H].
    + apply prefix_toLowerCase in H.
      rewrite toLowerCase_String in *. cbn [includes]. now rewrite H.
    + rewrite toLowerCase_String. cbn [includes].
      rewrite (IH H). apply orb_true_r.
Qed.

Lemma includes_empty (s : string) : includes s "" = true.
Proof. destruct s; cbn [includes]; now rewrite prefix_empty. Qed.

Section Search.

Variable numberToString : float -> string.

(** X9: search is not sensitive to the case of letters: a row one of
    whose cells, written out, contains the query as typed is returned
    for that query, and also for the query put in lower case. *)
Theorem searchInFile_finds_substring (fileId query : string) (st : Store)
        (file : FileData.t) (row : Row) (value : Value) :
  getFile fileId st = Some file ->
  In row (FileData.data file) ->
  In value (objectValues row) ->
  includes (toString numberToString value) query = true ->
  In row (searchInFile numberToString fileId query st)
  /\ In row (searchInFile numberToString fileId (toLowerCase query) st).
Proof.
  unfold getFile, searchInFile. intros -> Hrow Hvalue Hinc.
  assert (Hmatch : existsb (fun v => includes (toLowerCase (toString numberToString v))
                                              (toLowerCase query))
                           (objectValues row) = true).
  { apply existsb_exists. exists value. split; [exact Hvalue|].
    now apply includes_toLowerCase. }
  split; apply filter_In; split; try exact Hrow.
  - exact Hmatch.
  - now rewrite toLowerCase_idempotent.
Qed.

(** X10: the rows that a search returns are rows of the file, in the
    file's order; the empty query returns every row that has at least
    one cell; an id that is not stored gives no rows. *)
Theorem searchInFile_rows (fileId query : string) (st : Store) :
  match getFile fileId st with
  | Some file =>
      sublist (searchInFile numberToString fileId query st) (FileData.data file)
      /\ searchInFile numberToString fileId "" st
         = List.filter (fun row => negb (Nat.eqb (length (objectValues row)) 0))
                       (FileData.data file)
  | None => searchInFile numberToString fileId query st = []
  end.
Proof.
  unfold getFile, searchInFile.
  destruct (mapGet fileId (files st)) as [file|]; [|reflexivity].
  split.
  - induction (FileData.data file) as [|row rows IH]; cbn [List.filter].
    + constructor.
    + destruct (existsb _ _); [now apply sublist_skip|now apply sublist_cons].
  - change (toLowerCase "") with "".
    induction (FileData.data file) as [|row rows IH]; [reflexivity|].
    cbn [List.filter]. rewrite IH.
    destruct (objectValues row) as [|v vs]; [reflexivity|].
    cbn [existsb length Nat.eqb negb]. now rewrite includes_empty.
Qed.

End Search.

Lemma searchInFile_finds_substring_witness :
  In (Papa.toObject ["id"; "company"] ["1"; "ABC Corp"])
     (searchInFile Samples.numberToString "c1" "Corp"
        (uploadFile Samples.customers "c1" 5000 true emptyStore).2)
  /\ In (Papa.toObject ["id"; "company"] ["1"; "ABC Corp"])
        (searchInFile Samples.numberToString "c1" (toLowerCase "Corp")
           (uploadFile Samples.customers "c1" 5000 true emptyStore).2).
Proof.
  eapply (searchInFile_finds_substring Samples.numberToString "c1" "Corp" _ _ _
            (JStr "ABC Corp")).
  - vm_compute. reflexivity.
  - cbn. left. reflexivity.
  - vm_compute. auto.
  - vm_compute. reflexivity.
Defined.

(** *** getFileStats *)

(** X11: the statistics of a stored file count each column once, as
    numeric or as text: the two counts add up to the number of columns,
    and when a block is reported its column is one of the file's columns
    and at least one column is counted numeric.  The builder returns
    them unless the first numeric column has more cells that convert to
    a number than a call takes arguments: then it throws a RangeError.
    An id that is not stored has no statistics. *)
Theorem getFileStats_counts (maxArguments : nat) (fileId : string) (st : Store) :
  match getFile fileId st with
  | Some file =>
      let tooMany :=
        match statsNumericColumns file with
        | col :: _ =>
            (maxArguments
             <? length (List.filter convertsToNumber (columnCells file col)))%nat
        | [] => false
        end in
      if tooMany then getFileStats maxArguments fileId st = Err RangeError
      else
        exists stats,
          getFileStats maxArguments fileId st = Ok (Some stats)
          /\ Stats.totalRows stats = FileData.rowCount file
          /\ Stats.totalColumns stats = length (FileData.columns file)
          /\ (Stats.numericColumns stats + Stats.textColumns stats
              = Stats.totalColumns stats)%nat
          /\ (forall block,
                Stats.sampleStats stats = Some block ->
                In (SampleStats.column block) (FileData.columns file)
                /\ (1 <= Stats.numericColumns stats)%nat)
  | None => getFileStats maxArguments fileId st = Ok None
  end.
Proof.
  unfold getFile, getFileStats.
  destruct (mapGet fileId (files st)) as [file|]; [|reflexivity].
  cbv zeta. unfold sampleStatsOf.
  pose proof (filter_length_le
                (fun col => forallb (looksNumeric col) (take 100 (FileData.data file)))
                (FileData.columns file)) as Hle.
  fold (statsNumericColumns file) in Hle.
  destruct (statsNumericColumns file) as [|col others] eqn:E.
  - eexists. split; [reflexivity|].
    cbn [Stats.totalRows Stats.totalColumns Stats.numericColumns
         Stats.textColumns Stats.sampleStats length] in *.
    repeat split; [lia|discriminate|discriminate].
  - assert (Hin : In col (FileData.columns file)).
    { assert (Hin : In col (statsNumericColumns file)) by (rewrite E; now left).
      unfold statsNumericColumns in Hin. now apply filter_In in Hin. }
    rewrite <- (length_map Number), <- columnValues_map_filter.
    destruct (maxArguments <? length (columnValues file col))%nat eqn:Hmax.
    + apply Nat.ltb_lt in Hmax.
      replace (0 <? length (columnValues file col))%nat with true
        by (symmetry; apply Nat.ltb_lt; lia).
      reflexivity.
    + destruct (0 <? length (columnValues file col))%nat;
        (eexists; split; [reflexivity|]);
        cbn [Stats.totalRows Stats.totalColumns Stats.numericColumns
             Stats.textColumns Stats.sampleStats length] in *;
        (split; [reflexivity|]); (split; [reflexivity|]); (split; [lia|]);
        intros block [= <-]; (split; [exact Hin|lia]).
Qed.

Lemma getFileStats_counts_witness :
  getFileStats 2 "m1" Samples.measured = Err RangeError
  /\ exists stats,
      getFileStats 3 "m1" Samples.measured = Ok (Some stats)
      /\ (forall block,
            Stats.sampleStats stats = Some block ->
            In (SampleStats.column block) ["x"; "y"]
            /\ (1 <= Stats.numericColumns stats)%nat).
Proof.
  assert (G : exists file,
             getFile "m1" Samples.measured = Some file
             /\ FileData.columns file = ["x"; "y"]
             /\ statsNumericColumns file = ["x"; "y"]
             /\ length (List.filter convertsToNumber (columnCells file "x"))
                = 3%nat).
  { eexists. split; [vm_compute; reflexivity|].
    repeat split; vm_compute; reflexivity. }
  destruct G as (file & G & Hc & Hn & Hl).
  split.
  - pose proof (getFileStats_counts 2 "m1" Samples.measured) as W.
    rewrite G in W. cbv zeta in W. rewrite Hn, Hl in W. exact W.
  - pose proof (getFileStats_counts 3 "m1" Samples.measured) as W.
    rewrite G in W. cbv zeta in W. rewrite Hn, Hl in W.
    destruct W as (stats & Hs & _ & _ & _ & Hblock).
    exists stats. split; [exact Hs|].
    rewrite <- Hc. exact Hblock.
Defined.

(** X12: for a stored file without rows, every column is counted as
    numeric, none as text, and no block is reported. *)
Theorem getFileStats_no_rows (maxArguments : nat) (fileId : string)
        (st : Store) (file : FileData.t) :
  getFile fileId st = Some file ->
  FileData.data file = [] ->
  exists stats,
    getFileStats maxArguments fileId st = Ok (Some stats)
    /\ Stats.numericColumns stats = length (FileData.columns file)
    /\ Stats.textColumns stats = 0%nat
    /\ Stats.sampleStats stats = None.
Proof.
  unfold getFile, getFileStats. intros -> Hdata.
  assert (Hall : statsNumericColumns file = FileData.columns file).
  { unfold statsNumericColumns. rewrite Hdata. cbn [take forallb].
    induction (FileData.columns file) as [|c cs IH]; [reflexivity|].
    cbn [List.filter]. now rewrite IH. }
  assert (Hnone : sampleStatsOf maxArguments file (statsNumericColumns file)
                  = Ok None).
  { unfold sampleStatsOf.
    destruct (statsNumericColumns file) as [|col cols]; [reflexivity|].
    unfold columnValues. now rewrite Hdata. }
  rewrite Hnone. eexists. split; [reflexivity|].
  cbn [Stats.numericColumns Stats.textColumns Stats.sampleStats].
  rewrite Hall. repeat split. lia.
Qed.

Lemma getFileStats_no_rows_witness :
  exists file stats,
    getFile "f2" Samples.twoAtOnce = Some file
    /\ getFileStats 1000 "f2" Samples.twoAtOnce = Ok (Some stats)
    /\ Stats.numericColumns stats = length (FileData.columns file)
    /\ Stats.textColumns stats = 0%nat
    /\ Stats.sampleStats stats = None.
Proof.
  assert (G : exists file, getFile "f2" Samples.twoAtOnce = Some file
                           /\ FileData.data file = []).
  { eexists. split; vm_compute; reflexivity. }
  destruct G as (file & G & Hd).
  destruct (getFileStats_no_rows 1000 "f2" Samples.twoAtOnce file G Hd)
    as (stats & H).
  exists file, stats. split; [exact G|exact H].
Defined.

(** *** The shape of parsed tables *)

Lemma foldl_setCell_keys {A : Type} (name : A -> string) (value : A -> Value)
      (l : list A) (acc : Row) (h : string) :
  is_Some (foldl (fun obj x => setCell (name x) (value x) obj) acc l !! h)
  <-> (In h (map name l) /\ h <> "__proto__") \/ is_Some (acc !! h).
Proof.
  revert acc. induction l as [|x l IH]; intros acc; cbn [foldl map In].
  - tauto.
  - rewrite IH, setCell_lookup.
    destruct (String.eqb_spec (name x) "__proto__") as [Hp|Hp].
    + split; [intros [[Hin Hne]|Hacc]; [left; tauto|now right]|].
      intros [[[Heq|Hin] Hne]|Hacc]; [congruence|left; tauto|now right].
    + destruct (String.eqb_spec (name x) h) as [<-|Hne].
      * split; [intros _; left; tauto|intros _; right; eauto].
      * tauto.
Qed.

Lemma foldl_setCell_values {A : Type} (name : A -> string) (value : A -> Value)
      (P : Value -> Prop) (l : list A) (acc : Row) (h : string) (v : Value) :
  (forall x, P (value x)) ->
  foldl (fun obj x => setCell (name x) (value x) obj) acc l !! h = Some v ->
  P v \/ acc !! h = Some v.
Proof.
  intros HP. revert acc. induction l as [|x l IH]; intros acc; cbn [foldl].
  - now right.
  - intros Hv. destruct (IH _ Hv) as [H|H]; [now left|].
    rewrite setCell_lookup in H.
    destruct (String.eqb (name x) "__proto__"); [now right|].
    destruct (String.eqb (name x) h); [|now right].
    injection H as <-. left. apply HP.
Qed.

Lemma imap_headers (headers : list string) :
  map snd (imap (fun (index : nat) (header : string) => (index, header)) headers)
  = headers.
Proof.
  assert (H : forall (f : nat -> nat),
             map snd (imap (fun i (h : string) => (f i, h)) headers) = headers).
  { induction headers as [|h headers IH]; intros f; [reflexivity|].
    cbn [imap map snd]. f_equal. apply (IH (fun i => f (S i))). }
  apply (H (fun i => i)).
Qed.

Lemma rowToObject_shape (headers : list string) (row : list Value) :
  (forall h, is_Some (rowToObject headers row !! h)
             <-> In h headers /\ h <> "__proto__")
  /\ (forall h v, rowToObject headers row !! h = Some v -> truthyOrEmpty v).
Proof.
  unfold rowToObject. split.
  - intros h.
    rewrite (foldl_setCell_keys snd
               (fun hi => JS.or (default JUndefined (row !! hi.1)) (JStr ""))).
    rewrite imap_headers, lookup_empty.
    split; [intros [H|[? ?]]; [exact H|discriminate]|auto].
  - intros h v Hv.
    destruct (foldl_setCell_values snd
                (fun hi => JS.or (default JUndefined (row !! hi.1)) (JStr ""))
                truthyOrEmpty
                (imap (fun (index : nat) (header : string) => (index, header))
                      headers)
                ∅ h v) as [H|H]; [|exact Hv|exact H|].
    + intros hi. unfold JS.or, truthyOrEmpty.
      destruct (toBoolean (default JUndefined (row !! hi.1))) eqn:E; auto.
    + now rewrite lookup_empty in H.
Qed.

Lemma combine_keys {A B : Type} (l : list A) (l' : list B) :
  length l' = length l -> map fst (combine l l') = l.
Proof.
  revert l'. induction l as [|x l IH]; intros [|y l'] H; try discriminate;
    [reflexivity|].
  cbn [combine map fst]. f_equal. apply IH. now injection H.
Qed.

Lemma toObject_shape (header row : list string) :
  length row = length header ->
  (forall h, is_Some (Papa.toObject header row !! h)
             <-> In h header /\ h <> "__proto__")
  /\ (forall h v, Papa.toObject header row !! h = Some v -> isString v).
Proof.
  intros Hlen. unfold Papa.toObject. split.
  - intros h.
    rewrite (foldl_setCell_keys fst (fun hv => JStr hv.2)).
    rewrite combine_keys by exact Hlen. rewrite lookup_empty.
    split; [intros [H|[? ?]]; [exact H|discriminate]|auto].
  - intros h v Hv.
    destruct (foldl_setCell_values fst (fun hv : string * string => JStr hv.2)
                isString (combine header row) ∅ h v) as [H|H];
      [|exact Hv|exact H|].
    + intros hv. now exists hv.2.
    + now rewrite lookup_empty in H.
Qed.

Lemma In_ownColumns (columns : list string) (h : string) :
  In h (ownColumns columns) <-> In h columns /\ h <> "__proto__".
Proof.
  unfold ownColumns. rewrite filter_In, negb_true_iff, String.eqb_neq.
  reflexivity.
Qed.

Lemma parseCSV_shape (file : File) (parsed : ParsedData.t) :
  parseCSV file = Ok parsed ->
  rectangular (ownColumns (ParsedData.columns parsed)) (ParsedData.data parsed)
  /\ cellsSatisfy isString (ParsedData.data parsed).
Proof.
  unfold parseCSV, Papa.parse.
  destruct (Papa.tokenize _ (fileText file)) as [records quoteErrs].
  destruct (List.filter _ _) as [|header body].
  - cbn [Papa.errors Papa.data Papa.metaFields].
    destruct (quoteErrs ++ _); [|discriminate]. intros [= <-].
    split; constructor.
  - cbn [Papa.errors Papa.data Papa.metaFields default].
    destruct (quoteErrs ++ _ ++ flat_map (Papa.mismatch header) body) eqn:E;
      [|discriminate].
    intros [= <-]. cbn [ParsedData.columns ParsedData.data].
    apply app_eq_nil in E as [_ E]. apply app_eq_nil in E as [_ E].
    apply no_mismatch_inv in E.
    unfold rectangular, cellsSatisfy.
    split; apply Forall_fmap;
      (eapply List.Forall_impl; [|exact E]); intros l Hl; cbn;
      [intros h; rewrite In_ownColumns|]; now apply toObject_shape.
Qed.

Lemma parseXLSX_shape (file : File) (parsed : ParsedData.t) :
  parseXLSX file = Ok parsed ->
  rectangular (ownColumns (ParsedData.columns parsed)) (ParsedData.data parsed)
  /\ cellsSatisfy truthyOrEmpty (ParsedData.data parsed).
Proof.
  unfold parseXLSX. destruct (fileSheet file) as [| |headers rows]; try discriminate.
  intros [= <-]. cbn [ParsedData.columns ParsedData.data].
  unfold rectangular, cellsSatisfy.
  split; apply Forall_fmap, Forall_true; intros row; cbn;
    [intros h; rewrite In_ownColumns|]; apply rowToObject_shape.
Qed.

(** X13: in the record of a successful upload every row has as its keys
    exactly the record's columns, but for a column named __proto__,
    under which no row gets a property.  The cells of a CSV file are all
    strings; the cells of a spreadsheet are all truthy or the empty
    string, so none is undefined, null, false, 0 or NaN. *)
Theorem uploaded_table_is_rectangular (file : File) (newId : string) (now : Z)
        (saved : bool) (st : Store) (record : FileData.t) :
  (uploadFile file newId now saved st).1 = Ok record ->
  rectangular (ownColumns (FileData.columns record)) (FileData.data record)
  /\ match FileData.type record with
     | csv => cellsSatisfy isString (FileData.data record)
     | xlsx => cellsSatisfy truthyOrEmpty (FileData.data record)
     end.
Proof.
  intros H.
  destruct (uploadFile_ok_inv _ _ _ _ _ _ H)
    as (fileType & parsed & _ & Hp & -> & _).
  cbn [FileData.columns FileData.data FileData.type].
  destruct fileType;
    [exact (parseCSV_shape _ _ Hp)|exact (parseXLSX_shape _ _ Hp)].
Qed.

Lemma uploaded_table_is_rectangular_witness :
  rectangular ["item"; "qty"]
    (map (rowToObject ["item"; "qty"])
         [[JStr "bolt"; JNum 0]; [JStr "nut"; JNum 12]; [JStr "washer"]])
  /\ cellsSatisfy truthyOrEmpty
       (map (rowToObject ["item"; "qty"])
            [[JStr "bolt"; JNum 0]; [JStr "nut"; JNum 12]; [JStr "washer"]]).
Proof.
  exact (uploaded_table_is_rectangular Samples.stock "s1" 7000 true emptyStore
           (FileData.mk "s1" "stock.xlsx" xlsx 512 7000
              (map (rowToObject ["item"; "qty"])
                   [[JStr "bolt"; JNum 0]; [JStr "nut"; JNum 12];
                    [JStr "washer"]])
              ["item"; "qty"] 3
              (map (rowToObject ["item"; "qty"])
                   [[JStr "bolt"; JNum 0]; [JStr "nut"; JNum 12];
                    [JStr "washer"]]))
           eq_refl).
Defined.

Example proto_header_gets_no_property :
  rowToObject ["item"; "__proto__"] [JStr "bolt"; JStr "x"]
  = rowToObject ["item"] [JStr "bolt"]
  /\ Papa.toObject ["item"; "__proto__"] ["bolt"; "x"]
     = Papa.toObject ["item"] ["bolt"]
  /\ getCell (rowToObject ["item"] [JStr "bolt"]) "__proto__"
     = JObject "[object Object]".
Proof. vm_compute. repeat split; reflexivity. Qed.

(** *** The data quality of the dashboard *)

Lemma filledCells_bound (n : nat) (data : list Row) (count : nat) :
  List.Forall (fun row => length (objectValues row) = n) data ->
  (foldl (fun count row =>
            count
            + length (List.filter (fun val => negb (isNullish val)
                                              && negb (isEmptyString val))
                                  (objectValues row)))
         count data
   <= count + length data * n)%nat.
Proof.
  intros H. revert count. induction H as [|row data Hrow _ IH]; intros count.
  - cbn. lia.
  - cbn [foldl length]. etransitivity; [apply IH|].
    pose proof (filter_length_le
                  (fun val => negb (isNullish val) && negb (isEmptyString val))
                  (objectValues row)) as Hle.
    rewrite Hrow in Hle. lia.
Qed.

Lemma same_keys_same_size (row first : Row) :
  (forall h, is_Some (row !! h) <-> is_Some (first !! h)) ->
  length (objectValues row) = length (objectKeys first).
Proof.
  intros H. unfold objectValues, objectKeys.
  rewrite !length_map, !length_map_to_list.
  rewrite <- !size_dom. f_equal.
  apply set_eq. intros h. rewrite !elem_of_dom. apply H.
Qed.

(** X24: for a table whose rows all have the same keys, as the table of
    every uploaded file has, the number of filled cells that the
    dashboard counts is at most the number of cells it divides by, so
    the data quality shown is at most 100 per cent. *)
Theorem filledCells_at_most_totalCells (columns : list string) (data : list Row)
        (total : nat) :
  rectangular columns data ->
  totalCells data = Some total ->
  (filledCells data <= total)%nat.
Proof.
  intros Hrect. destruct data as [|first data]; [discriminate|].
  cbn [totalCells]. intros [= <-].
  unfold filledCells.
  etransitivity; [apply (filledCells_bound (length (objectKeys first)))|apply le_n].
  unfold rectangular in Hrect.
  pose proof (Forall_inv Hrect) as Hfirst.
  eapply List.Forall_impl; [|exact Hrect].
  intros row Hrow. apply same_keys_same_size.
  cbv beta in Hfirst, Hrow.
  intros h. etransitivity; [apply Hrow|symmetry; apply Hfirst].
Qed.

Lemma filledCells_at_most_totalCells_witness :
  exists parsed total,
    parseXLSX Samples.stock = Ok parsed
    /\ totalCells (ParsedData.data parsed) = Some total
    /\ (filledCells (ParsedData.data parsed) <= total)%nat.
Proof.
  eexists. eexists.
  split; [vm_compute; reflexivity|].
  split; [vm_compute; reflexivity|].
  apply (filledCells_at_most_totalCells
           (ownColumns
              (ParsedData.columns
                 (match parseXLSX Samples.stock with
                  | Ok parsed => parsed
                  | Err _ => ParsedData.mk [] [] 0 []
                  end)))).
  - apply (parseXLSX_shape Samples.stock). vm_compute. reflexivity.
  - vm_compute. reflexivity.
Defined.

(** *** The rows of a spreadsheet *)

(** X25: a sheet with a header row of distinct names is accepted,
    whether or not rows follow it: the columns are the header, there is
    one record for each row below it, and the record's cell under the
    header at a position is the row's cell at that position if that is
    truthy, else the empty string.  So a row shorter than the header is
    padded with empty strings, and what a row holds beyond the header's
    width is dropped.  The one exception is a header named __proto__:
    it is among the columns, but no record has a cell under it. *)
Theorem parseXLSX_rows (file : File) (headers : list string)
        (rows : list (list Value)) :
  fileSheet file = XlsxRows headers rows ->
  NoDup headers ->
  exists parsed,
    parseXLSX file = Ok parsed
    /\ ParsedData.columns parsed = headers
    /\ ParsedData.rowCount parsed = length rows
    /\ length (ParsedData.data parsed) = length rows
    /\ (forall r row, rows !! r = Some row ->
          exists record,
            ParsedData.data parsed !! r = Some record
            /\ (forall i header, headers !! i = Some header ->
                  record !! header
                  = if String.eqb header "__proto__" then None
                    else Some (JS.or (default JUndefined (row !! i)) (JStr "")))
            /\ (forall key, is_Some (record !! key)
                            <-> In key (ownColumns headers))).
Proof.
  intros Hsheet Hnd. unfold parseXLSX. rewrite Hsheet.
  eexists. split; [reflexivity|].
  cbn [ParsedData.columns ParsedData.rowCount ParsedData.data].
  rewrite length_map.
  split; [reflexivity|]. split; [reflexivity|]. split; [reflexivity|].
  intros r row Hrow. exists (rowToObject headers row). split.
  - now rewrite list_lookup_fmap, Hrow.
  - split.
    + intros i header Hi. now apply rowToObject_lookup.
    + intros key. rewrite In_ownColumns. apply rowToObject_shape.
Qed.

Lemma parseXLSX_rows_witness :
  exists parsed,
    parseXLSX Samples.stock = Ok parsed
    /\ ParsedData.columns parsed = ["item"; "qty"]
    /\ ParsedData.rowCount parsed = 3%nat
    /\ length (ParsedData.data parsed) = 3%nat
    /\ (forall r row,
          [[JStr "bolt"; JNum 0]; [JStr "nut"; JNum 12]; [JStr "washer"]] !! r
          = Some row ->
          exists record,
            ParsedData.data parsed !! r = Some record
            /\ (forall i header, ["item"; "qty"] !! i = Some header ->
                  record !! header
                  = if String.eqb header "__proto__" then None
                    else Some (JS.or (default JUndefined (row !! i)) (JStr "")))
            /\ (forall key, is_Some (record !! key)
                            <-> In key (ownColumns ["item"; "qty"]))).
Proof.
  apply (parseXLSX_rows Samples.stock ["item"; "qty"]
           [[JStr "bolt"; JNum 0]; [JStr "nut"; JNum 12]; [JStr "washer"]]).
  - reflexivity.
  - apply (bool_decide_unpack _). vm_compute. exact I.
Defined.

(** *** inferDataTypes: what the answer depends on *)

Section InferredTypes.

Variable dateParse : string -> float.
Variable numberToString : float -> string.

Lemma inferColumnType_sample (data data' : list Row) (column : string) :
  take 100 data = take 100 data' ->
  inferColumnType dateParse numberToString data column
  = inferColumnType dateParse numberToString data' column.
Proof. intros H. unfold inferColumnType, sampleOf. now rewrite H. Qed.

(** X15: the inferred types depend on the first 100 rows only: two
    tables that agree on them get the same type for every column, however
    many rows follow and whatever these hold. *)
Theorem inferDataTypes_first_100_rows (data data' : list Row)
        (columns : list string) :
  take 100 data = take 100 data' ->
  inferDataTypes dateParse numberToString data columns
  = inferDataTypes dateParse numberToString data' columns.
Proof.
  intros H. unfold inferDataTypes.
  generalize (∅ : gmap string string) as types.
  induction columns as [|c columns IH]; intros types; [reflexivity|].
  cbn [foldl]. rewrite (inferColumnType_sample data data' c H). apply IH.
Qed.

Lemma inferDataTypes_keys (data : list Row) (columns : list string)
      (column : string) :
  is_Some (inferDataTypes dateParse numberToString data columns !! column)
  <-> In column (ownColumns columns).
Proof.
  rewrite In_ownColumns. split.
  - unfold inferDataTypes.
    induction columns as [|c columns IH] using rev_ind.
    + cbn. rewrite lookup_empty. now intros [? ?].
    + rewrite foldl_app, in_app_iff. cbn [foldl In]. unfold setType at 1.
      destruct (String.eqb_spec c "__proto__") as [Hp|Hp]; [tauto|].
      destruct (decide (c = column)) as [->|Hne]; [auto|].
      rewrite lookup_insert_ne by exact Hne. tauto.
  - intros [Hin Hown]. rewrite inferDataTypes_lookup by assumption. eauto.
Qed.

Lemma sampleOf_nil (data : list Row) (column : string) :
  sampleOf data column = []
  <-> List.Forall (fun row => isBlank (getCell row column) = true) (take 100 data).
Proof.
  unfold sampleOf. induction (take 100 data) as [|row rows IH]; cbn [map List.filter].
  - split; [constructor|reflexivity].
  - unfold isBlank at 1.
    destruct (isNullish (getCell row column)) eqn:E1;
      destruct (isEmptyString (getCell row column)) eqn:E2; cbn [negb andb orb];
      try (rewrite IH; split;
           [intros H; constructor; [unfold isBlank; now rewrite E1, E2|exact H]
           |now inversion 1]).
    split; [discriminate|].
    inversion 1 as [|? ? Hb]. unfold isBlank in Hb. rewrite E1, E2 in Hb.
    discriminate.
Qed.

(** X16: the answer has an entry for exactly the columns asked about,
    but for a column named __proto__, under which the answer gets no
    entry; each is one of 'unknown', 'numeric', 'date' and 'text', and
    it is 'unknown' exactly when the column is null, undefined or the
    empty string in every one of the first 100 rows. *)
Theorem inferDataTypes_labels (data : list Row) (columns : list string)
        (column : string) :
  (is_Some (inferDataTypes dateParse numberToString data columns !! column)
   <-> In column (ownColumns columns))
  /\ (forall label,
        inferDataTypes dateParse numberToString data columns !! column
        = Some label ->
        In label ["unknown"; "numeric"; "date"; "text"]
        /\ (label = "unknown"
            <-> List.Forall (fun row => isBlank (getCell row column) = true)
                            (take 100 data))).
Proof.
  split; [apply inferDataTypes_keys|].
  intros label Hlabel.
  assert (Hin : In column columns /\ column <> "__proto__").
  { apply In_ownColumns, (inferDataTypes_keys data). eauto. }
  rewrite inferDataTypes_lookup in Hlabel by apply Hin.
  injection Hlabel as <-.
  rewrite <- sampleOf_nil. unfold inferColumnType.
  destruct (sampleOf data column) as [|v sample].
  - cbn. split; [auto|tauto].
  - change (Nat.eqb (length (v :: sample)) 0) with false. cbv beta iota zeta.
    repeat match goal with
           | |- context [if ?b then _ else _] => destruct b
           end;
      (split; [cbn; tauto|split; discriminate]).
Qed.

End InferredTypes.

Lemma inferDataTypes_first_100_rows_witness :
  inferDataTypes Samples.dateParse Samples.numberToString
    (replicate 100 (Samples.object [("n", JStr "1")])
     ++ [Samples.object [("n", JStr "abc")]]) ["n"]
  = inferDataTypes Samples.dateParse Samples.numberToString
      (replicate 100 (Samples.object [("n", JStr "1")])) ["n"].
Proof.
  apply (inferDataTypes_first_100_rows Samples.dateParse Samples.numberToString).
  reflexivity.
Defined.

Lemma inferDataTypes_labels_witness :
  In "unknown" ["unknown"; "numeric"; "date"; "text"]
  /\ ("unknown" = "unknown"
      <-> List.Forall (fun row => isBlank (getCell row "note") = true)
            (take 100 [Samples.object [("n", JStr "1"); ("note", JStr "")];
                       Samples.object [("n", JStr "2")]])).
Proof.
  apply (proj2 (inferDataTypes_labels Samples.dateParse Samples.numberToString
                  [Samples.object [("n", JStr "1"); ("note", JStr "")];
                   Samples.object [("n", JStr "2")]]
                  ["n"; "note"] "note")).
  vm_compute. reflexivity.
Defined.

(** *** The commands in a reply *)

Section Commands.

Import LocalLLM.

Lemma span_inv (p : ascii -> bool) (cs run rest : list ascii) :
  span p cs = (run, rest) ->
  cs = run ++ rest /\ forallb p run = true.
Proof.
  revert run rest. induction cs as [|c cs IH]; intros run rest; cbn [span].
  - intros [= <- <-]. now split.
  - destruct (p c) eqn:E.
    + destruct (span p cs) as [run' rest'].
      intros [= <- <-]. destruct (IH _ _ eq_refl) as [-> Hp].
      split; [reflexivity|]. cbn [forallb]. now rewrite E, Hp.
    + intros [= <- <-]. now split.
Qed.

Lemma span_run (p : ascii -> bool) (run : list ascii) (c : ascii)
      (rest : list ascii) :
  forallb p run = true -> p c = false ->
  span p (run ++ c :: rest) = (run, c :: rest).
Proof.
  intros Hrun Hc. induction run as [|r run IH]; cbn [span app].
  - now rewrite Hc.
  - cbn [forallb] in Hrun. apply andb_true_iff in Hrun as [-> Hrun].
    now rewrite IH.
Qed.

Lemma stripPrefix_inv (literal cs rest : list ascii) :
  stripPrefix literal cs = Some rest -> cs = literal ++ rest.
Proof.
  revert cs. induction literal as [|a literal IH]; intros cs; cbn [stripPrefix].
  - now intros [= ->].
  - destruct cs as [|c cs]; [discriminate|].
    destruct (Ascii.eqb a c) eqn:E; [|discriminate].
    apply Ascii.eqb_eq in E as ->. intros H. cbn [app]. f_equal. now apply IH.
Qed.

Lemma stripPrefix_app (literal rest : list ascii) :
  stripPrefix literal (literal ++ rest) = Some rest.
Proof.
  induction literal as [|a literal IH]; cbn [stripPrefix app]; [reflexivity|].
  now rewrite Ascii.eqb_refl.
Qed.

Lemma matchCommand_inv (cs chartType title rest : list ascii) :
  matchCommand cs = Some (chartType, title, rest) ->
  cs = opener ++ chartType ++ ":"%char :: title ++ "]"%char :: rest
  /\ chartType <> [] /\ forallb isWordChar chartType = true
  /\ title <> [] /\ forallb isNotClose title = true.
Proof.
  unfold matchCommand.
  destruct (stripPrefix opener cs) as [afterOpener|] eqn:E0; [|discriminate].
  apply stripPrefix_inv in E0 as ->.
  destruct (span isWordChar afterOpener) as [[|w ws] r1] eqn:E1; [discriminate|].
  destruct r1 as [|colon afterColon]; [discriminate|].
  destruct (Ascii.eqb colon ":"%char) eqn:Ec.
  2:{ intros H. exfalso. revert H.
      destruct colon as [[] [] [] [] [] [] [] []]; try discriminate Ec;
        discriminate. }
  apply Ascii.eqb_eq in Ec as ->.
  destruct (span isNotClose afterColon) as [[|t ts] r2] eqn:E2.
  { intros H. exfalso. revert H. discriminate. }
  destruct r2 as [|close rest'].
  { intros H. exfalso. revert H. discriminate. }
  destruct (Ascii.eqb close "]"%char) eqn:Eb.
  2:{ intros H. exfalso. revert H.
      destruct close as [[] [] [] [] [] [] [] []]; try discriminate Eb;
        discriminate. }
  apply Ascii.eqb_eq in Eb as ->.
  intros [= <- <- <-].
  apply span_inv in E1 as [-> Hw]. apply span_inv in E2 as [-> Ht].
  split; [reflexivity|]. split; [discriminate|]. split; [assumption|].
  split; [discriminate|assumption].
Qed.

Lemma matchCommand_marker (chartType title rest : list ascii) :
  chartType <> [] -> forallb isWordChar chartType = true ->
  title <> [] -> forallb isNotClose title = true ->
  matchCommand (opener ++ chartType ++ ":"%char :: title ++ "]"%char :: rest)
  = Some (chartType, title, rest).
Proof.
  intros Hc Hw Ht Hn. unfold matchCommand.
  rewrite stripPrefix_app.
  rewrite (span_run isWordChar chartType ":"%char) by (assumption || reflexivity).
  destruct chartType as [|w ws]; [contradiction|].
  rewrite (span_run isNotClose title "]"%char) by (assumption || reflexivity).
  destruct title as [|t ts]; [contradiction|]. reflexivity.
Qed.

Lemma matchCommand_not_open (c : ascii) (cs : list ascii) :
  Ascii.eqb c "["%char = false -> matchCommand (c :: cs) = None.
Proof.
  intros H. unfold matchCommand, opener. cbn [list_ascii_of_string stripPrefix].
  rewrite Ascii.eqb_sym, H. reflexivity.
Qed.

Lemma matchMarker_not_open (c : ascii) (cs : list ascii) :
  Ascii.eqb c "["%char = false -> matchMarker (c :: cs) = None.
Proof.
  intros H. unfold matchMarker, opener. cbn [list_ascii_of_string stripPrefix].
  rewrite Ascii.eqb_sym, H. reflexivity.
Qed.

Lemma firstCommand_skip (pre cs : list ascii) :
  forallb (fun c => negb (Ascii.eqb c "["%char)) pre = true ->
  firstCommand (pre ++ cs) = firstCommand cs.
Proof.
  induction pre as [|c pre IH]; [reflexivity|].
  cbn [forallb]. intros [Hc Hpre]%andb_true_iff. apply negb_true_iff in Hc.
  cbn [app firstCommand]. rewrite matchCommand_not_open by exact Hc. now apply IH.
Qed.

Lemma removeFirstMarker_skip (pre cs : list ascii) :
  forallb (fun c => negb (Ascii.eqb c "["%char)) pre = true ->
  removeFirstMarker (pre ++ cs) = pre ++ removeFirstMarker cs.
Proof.
  induction pre as [|c pre IH]; [reflexivity|].
  cbn [forallb]. intros [Hc Hpre]%andb_true_iff. apply negb_true_iff in Hc.
  cbn [app removeFirstMarker]. rewrite matchMarker_not_open by exact Hc.
  f_equal. now apply IH.
Qed.

Lemma firstCommand_unfold (cs : list ascii) :
  firstCommand cs
  = match matchCommand cs with
    | Some (chartType, title, _) => Some (chartType, title)
    | None => match cs with [] => None | _ :: cs' => firstCommand cs' end
    end.
Proof. destruct cs; reflexivity. Qed.

Lemma firstCommand_sound (cs chartType title : list ascii) :
  firstCommand cs = Some (chartType, title) ->
  exists pre post,
    cs = pre ++ opener ++ chartType ++ ":"%char :: title ++ "]"%char :: post
    /\ chartType <> [] /\ forallb isWordChar chartType = true
    /\ title <> [] /\ forallb isNotClose title = true.
Proof.
  induction cs as [|c cs IH]; rewrite firstCommand_unfold.
  - destruct (matchCommand []) as [[[c0 t0] r0]|] eqn:E; [|discriminate].
    intros [= <- <-]. exists [], r0. now apply matchCommand_inv.
  - destruct (matchCommand (c :: cs)) as [[[c0 t0] r0]|] eqn:E.
    + intros [= <- <-]. exists [], r0. now apply matchCommand_inv.
    + intros H. destruct (IH H) as (pre & post & -> & Hrest).
      exists (c :: pre), post. split; [reflexivity|exact Hrest].
Qed.

Lemma firstCommand_complete (pre chartType title post : list ascii) :
  chartType <> [] -> forallb isWordChar chartType = true ->
  title <> [] -> forallb isNotClose title = true ->
  is_Some (firstCommand
             (pre ++ opener ++ chartType ++ ":"%char :: title ++ "]"%char :: post)).
Proof.
  intros Hc Hw Ht Hn. induction pre as [|c pre IH].
  - cbn [app]. rewrite firstCommand_unfold, matchCommand_marker by assumption. eauto.
  - cbn [app]. rewrite firstCommand_unfold.
    destruct (matchCommand _) as [[[c0 t0] r0]|]; [eauto|exact IH].
Qed.

Lemma marker_chars (chartType title : string) :
  list_ascii_of_string (marker chartType title)
  = opener ++ list_ascii_of_string chartType
    ++ ":"%char :: list_ascii_of_string title ++ ["]"%char].
Proof.
  unfold marker. rewrite !list_ascii_of_string_append. reflexivity.
Qed.

Lemma response_chars (pre chartType title post : string) :
  list_ascii_of_string (pre +:+ marker chartType title +:+ post)
  = list_ascii_of_string pre ++ opener ++ list_ascii_of_string chartType
    ++ ":"%char :: list_ascii_of_string title
    ++ "]"%char :: list_ascii_of_string post.
Proof.
  rewrite !list_ascii_of_string_append, marker_chars.
  rewrite <- !app_assoc. cbn [app]. rewrite <- !app_assoc. reflexivity.
Qed.

Lemma nonempty_chars (s : string) :
  negb (String.eqb s "") = true -> list_ascii_of_string s <> [].
Proof. destruct s; [discriminate|]. intros _. discriminate. Qed.

Lemma isChartWord_chars (s : string) :
  isChartWord s = true ->
  list_ascii_of_string s <> []
  /\ forallb isWordChar (list_ascii_of_string s) = true.
Proof.
  unfold isChartWord. intros [H1 H2]%andb_true_iff.
  split; [now apply nonempty_chars|exact H2].
Qed.

Lemma isTitle_chars (s : string) :
  isTitle s = true ->
  list_ascii_of_string s <> []
  /\ forallb isNotClose (list_ascii_of_string s) = true.
Proof.
  unfold isTitle. intros [H1 H2]%andb_true_iff.
  split; [now apply nonempty_chars|exact H2].
Qed.

Lemma chars_nonempty (cs : list ascii) :
  cs <> [] -> negb (String.eqb (string_of_list_ascii cs) "") = true.
Proof. destruct cs; [contradiction|reflexivity]. Qed.

(** X17: parseVisualizationCommand answers with a command only if the
    response holds the marker of that command, with a chart type of one
    or more word characters and a title of one or more characters other
    than the closing bracket; and a response that holds such a marker
    anywhere is answered with a command. *)
Theorem parseVisualizationCommand_finds_marker (response : string) :
  (forall command,
      parseVisualizationCommand response = Some command ->
      exists pre post,
        response = pre +:+ marker (Command.chartType command)
                                  (Command.title command) +:+ post
        /\ isChartWord (Command.chartType command) = true
        /\ isTitle (Command.title command) = true)
  /\ (forall pre chartType title post,
        response = pre +:+ marker chartType title +:+ post ->
        isChartWord chartType = true ->
        isTitle title = true ->
        is_Some (parseVisualizationCommand response)).
Proof.
  split.
  - intros command. unfold parseVisualizationCommand.
    destruct (firstCommand (list_ascii_of_string response))
      as [[chartType title]|] eqn:E; [|discriminate].
    intros [= <-]. cbn [Command.chartType Command.title].
    apply firstCommand_sound in E as (pre & post & E & Hc & Hw & Ht & Hn).
    exists (string_of_list_ascii pre), (string_of_list_ascii post). split.
    + rewrite <- (string_of_list_ascii_of_string response).
      rewrite <- (string_of_list_ascii_of_string (_ +:+ _)).
      f_equal. rewrite response_chars, !list_ascii_of_string_of_list_ascii.
      exact E.
    + unfold isChartWord, isTitle.
      rewrite !list_ascii_of_string_of_list_ascii, Hw, Hn.
      now rewrite !chars_nonempty.
  - intros pre chartType title post -> Hc Ht.
    apply isChartWord_chars in Hc as [Hc Hw].
    apply isTitle_chars in Ht as [Ht Hn].
    unfold parseVisualizationCommand. rewrite response_chars.
    destruct (firstCommand_complete (list_ascii_of_string pre) _ _
                (list_ascii_of_string post) Hc Hw Ht Hn) as [[c t] ->].
    eauto.
Qed.

Lemma parseVisualizationCommand_finds_marker_witness :
  is_Some (parseVisualizationCommand
             ("A pie chart would be perfect here "
              +:+ marker "pie" "Market Share Distribution" +:+ "")).
Proof.
  apply (proj2 (parseVisualizationCommand_finds_marker _)
           "A pie chart would be perfect here " "pie"
           "Market Share Distribution" "");
    reflexivity.
Defined.

Lemma matchMarker_marker (chartType title rest : list ascii) :
  forallb isWordChar chartType = true ->
  title <> [] -> forallb isNotClose title = true ->
  matchMarker (opener ++ chartType ++ ":"%char :: title ++ "]"%char :: rest)
  = Some rest.
Proof.
  intros Hw Ht Hn. unfold matchMarker. rewrite stripPrefix_app.
  change (chartType ++ ":"%char :: title ++ "]"%char :: rest)
    with (chartType ++ [":"%char] ++ title ++ "]"%char :: rest).
  rewrite !app_assoc.
  rewrite (span_run isNotClose ((chartType ++ [":"%char]) ++ title) "]"%char).
  - destruct chartType; reflexivity.
  - rewrite !forallb_app, Hn. cbn [forallb]. rewrite andb_true_r, andb_true_r.
    apply forallb_forall. intros c Hin.
    rewrite forallb_forall in Hw. specialize (Hw c Hin).
    unfold isNotClose. destruct (Ascii.eqb_spec c "]"%char) as [->|]; [|reflexivity].
    discriminate Hw.
  - reflexivity.
Qed.

Lemma generateResponse_ok (svc : Service) (text : string) :
  isConnected svc = true -> negb (String.eqb text "") = true ->
  generateResponse svc (GenerateOk (Some text)) = Ok text.
Proof.
  intros Hc Ht. unfold generateResponse. rewrite Hc. cbn [negb].
  apply negb_true_iff in Ht. now rewrite Ht.
Qed.

(** X18: when the model answers with text that holds the marker the
    prompt asks for, and no opening bracket comes before it, the
    analysis asks for a chart of the marker's type and title, and its
    text is the reply without the marker, trimmed.  The chart type is
    taken as written: it need not be one of the available ones. *)
Theorem analyzeDataWithVisualization_reads_marker
        (data : list Row) (query : string) (svc : Service)
        (pre chartType title post : string) (suggestionReply : GenerateReply) :
  data <> [] ->
  isConnected svc = true ->
  hasNoOpenBracket pre = true ->
  isChartWord chartType = true ->
  isTitle title = true ->
  analyzeDataWithVisualization data query svc
    (GenerateOk (Some (pre +:+ marker chartType title +:+ post)))
    suggestionReply
  = Analysis.mk (trimmed (pre +:+ post)) true (Some chartType) (Some title).
Proof.
  intros Hdata Hconn Hpre Hc Ht.
  pose proof (isChartWord_chars _ Hc) as [Hc1 Hw].
  pose proof (isTitle_chars _ Ht) as [Ht1 Hn].
  unfold analyzeDataWithVisualization, analyzeData.
  destruct data as [|row data]; [contradiction|].
  rewrite generateResponse_ok; [|exact Hconn|].
  2:{ apply negb_true_iff.
      destruct (String.eqb_spec (pre +:+ marker chartType title +:+ post) "")
        as [E|]; [|reflexivity].
      apply (f_equal list_ascii_of_string) in E.
      rewrite response_chars in E. apply app_eq_nil in E as [_ E].
      discriminate E. }
  cbv zeta. unfold parseVisualizationCommand, withoutMarker.
  rewrite response_chars.
  rewrite firstCommand_skip by exact Hpre.
  rewrite firstCommand_unfold, matchCommand_marker by assumption.
  rewrite removeFirstMarker_skip by exact Hpre.
  assert (Hrm : removeFirstMarker
                  (opener ++ list_ascii_of_string chartType
                   ++ ":"%char :: list_ascii_of_string title
                   ++ "]"%char :: list_ascii_of_string post)
                = list_ascii_of_string post).
  { destruct (opener ++ _) eqn:E; cbn [removeFirstMarker]; rewrite <- E;
      now rewrite matchMarker_marker. }
  rewrite Hrm. cbn [Command.chartType Command.title].
  rewrite !string_of_list_ascii_of_string.
  unfold trimmed. now rewrite list_ascii_of_string_append.
Qed.

Lemma analyzeDataWithVisualization_reads_marker_witness :
  analyzeDataWithVisualization [Samples.object [("n", JStr "1")]] "sales?"
    (mkService "llama3.1:8b" true connected)
    (GenerateOk (Some ("Here it is. " +:+ marker "histogram" "Sales by Region"
                       +:+ "  ")))
    (GenerateNotOk "500" "Internal Server Error")
  = Analysis.mk (trimmed ("Here it is. " +:+ "  ")) true (Some "histogram")
                (Some "Sales by Region").
Proof.
  apply (analyzeDataWithVisualization_reads_marker
           [Samples.object [("n", JStr "1")]] "sales?"
           (mkService "llama3.1:8b" true connected)
           "Here it is. " "histogram" "Sales by Region" "  ");
    [discriminate|reflexivity..].
Defined.

Lemma chartTypeIn_available (text : string) :
  In (chartTypeIn text) availableChartTypes.
Proof.
  unfold chartTypeIn, availableChartTypes.
  repeat match goal with
         | |- context [if ?b then _ else _] => destruct b
         end; cbn; tauto.
Qed.

Lemma suggestVisualization_available (data : list Row) (svc : Service)
      (reply : GenerateReply) :
  In (Suggestion.chartType (suggestVisualization data svc reply))
     availableChartTypes.
Proof.
  unfold suggestVisualization.
  destruct data; [cbn; tauto|].
  destruct (generateResponse svc reply); cbn [Suggestion.chartType];
    [apply chartTypeIn_available|cbn; tauto].
Qed.

(** X19: when the reply of the model carries no command, the analysis
    hands its text on unchanged and, if it asks for a chart at all, asks
    for one of the six available types under the title made of that type,
    capitalised, and the word Chart.  With or without a command, a chart
    is asked for exactly when a chart type and a title are given. *)
Theorem analyzeDataWithVisualization_without_command
        (data : list Row) (query : string) (svc : Service)
        (analysisReply suggestionReply : GenerateReply) :
  let result :=
    analyzeDataWithVisualization data query svc analysisReply suggestionReply in
  (Analysis.shouldCreateVisualization result = true
   <-> is_Some (Analysis.chartType result))
  /\ (is_Some (Analysis.chartType result) <-> is_Some (Analysis.chartTitle result))
  /\ (parseVisualizationCommand (analyzeData data svc analysisReply) = None ->
      Analysis.response result = analyzeData data svc analysisReply
      /\ Analysis.shouldCreateVisualization result
         = hasVisualizationIntent (toLowerCase query)
             (toLowerCase (analyzeData data svc analysisReply))
      /\ forall chartType,
           Analysis.chartType result = Some chartType ->
           In chartType availableChartTypes
           /\ Analysis.chartTitle result
              = Some (capitalize chartType +:+ " Chart")).
Proof.
  cbv zeta. unfold analyzeDataWithVisualization.
  destruct (parseVisualizationCommand (analyzeData data svc analysisReply))
    as [command|].
  - cbn [Analysis.shouldCreateVisualization Analysis.chartType
         Analysis.chartTitle].
    split; [split; eauto|]. split; [split; eauto|]. discriminate.
  - destruct (hasVisualizationIntent _ _);
      cbn [Analysis.shouldCreateVisualization Analysis.chartType
           Analysis.chartTitle Analysis.response].
    + split; [split; eauto|]. split; [split; eauto|].
      intros _. split; [reflexivity|]. split; [reflexivity|].
      intros chartType [= <-].
      split; [apply suggestVisualization_available|reflexivity].
    + split; [split; [discriminate|now intros [? ?]]|].
      split; [split; now intros [? ?]|].
      intros _. split; [reflexivity|]. split; [reflexivity|].
      intros chartType [=].
Qed.

Lemma existsb_or_false {A : Type} (f g : A -> bool) (l : list A) :
  forallb (fun x => negb (g x)) l = true ->
  existsb (fun x => f x || g x) l = existsb f l.
Proof.
  induction l as [|x l IH]; [reflexivity|].
  cbn [forallb existsb]. intros [Hx Hl]%andb_true_iff.
  apply negb_true_iff in Hx. now rewrite Hx, orb_false_r, IH.
Qed.

(** X20: while the service is not connected, an analysis of a table that
    has rows answers with the error text whatever the replies would be,
    and asks for a chart exactly when the query itself holds one of the
    keywords: then for the default, a bar chart titled Bar Chart. *)
Theorem analyzeDataWithVisualization_offline
        (data : list Row) (query : string) (svc : Service)
        (analysisReply suggestionReply : GenerateReply) :
  data <> [] ->
  isConnected svc = false ->
  analyzeDataWithVisualization data query svc analysisReply suggestionReply
  = if existsb (includes (toLowerCase query)) visualizationKeywords
    then Analysis.mk offlineMessage true (Some "bar") (Some "Bar Chart")
    else Analysis.mk offlineMessage false None None.
Proof.
  intros Hdata Hconn.
  unfold analyzeDataWithVisualization, analyzeData, suggestVisualization.
  destruct data as [|row data]; [contradiction|].
  unfold generateResponse. rewrite Hconn. cbn [negb]. cbv zeta.
  change ("I encountered an error while analyzing your data: "
          +:+ notConnectedMessage +:+ ". Please check your local LLM connection.")
    with offlineMessage.
  assert (Hparse : parseVisualizationCommand offlineMessage = None)
    by (vm_compute; reflexivity).
  rewrite Hparse. unfold hasVisualizationIntent.
  rewrite existsb_or_false by (vm_compute; reflexivity).
  destruct (existsb _ _); reflexivity.
Qed.

Lemma analyzeDataWithVisualization_offline_witness :
  analyzeDataWithVisualization [Samples.object [("n", JStr "1")]]
    "Show me the totals" initial
    (GenerateOk (Some "The total is 1.")) (GenerateOk (Some "a line chart"))
  = Analysis.mk offlineMessage true (Some "bar") (Some "Bar Chart").
Proof.
  apply (analyzeDataWithVisualization_offline
           [Samples.object [("n", JStr "1")]] "Show me the totals" initial
           (GenerateOk (Some "The total is 1.")) (GenerateOk (Some "a line chart")));
    [discriminate|reflexivity].
Defined.

(** *** The connection *)

Lemma runSteps_app (steps : list Step) (s : Step) (svc : Service) :
  runSteps (steps ++ [s]) svc = afterStep s (runSteps steps svc).
Proof. unfold runSteps. now rewrite fold_left_app. Qed.

(** X21: over any sequence of configuration updates and connection
    tests on the fresh service, a status of connected means that
    generateResponse will send its request; the service never rests in
    the status connecting; and it lets requests through only after some
    test was answered with a list of models that held a match for the
    model configured at that time.  A test that is answered, but not ok
    or without the model, sets the status to error and leaves
    isConnected as it was: only a test that throws clears it. *)
Theorem connection_status_sound (steps : list Step) :
  let svc := runSteps steps initial in
  (connectionStatus svc = connected -> isConnected svc = true)
  /\ connectionStatus svc <> connecting
  /\ (isConnected svc = true ->
      exists before names later,
        steps = before ++ StepTestConnection (TagsOk (Some names)) :: later
        /\ modelExists (model (runSteps before initial)) names = true)
  /\ (forall reply,
        reply <> TagsThrows ->
        (testConnection reply svc).1 = false ->
        connectionStatus (testConnection reply svc).2 = error
        /\ isConnected (testConnection reply svc).2 = isConnected svc).
Proof.
  cbv zeta. split; [|split; [|split]].
  - induction steps as [|s steps IH] using rev_ind; [discriminate|].
    rewrite runSteps_app. destruct s as [newModel|reply]; [exact IH|].
    cbn [afterStep]. unfold testConnection.
    destruct reply as [| |data]; [discriminate..|].
    destruct (modelExists _ _); [reflexivity|discriminate].
  - induction steps as [|s steps IH] using rev_ind; [discriminate|].
    rewrite runSteps_app. destruct s as [newModel|reply]; [exact IH|].
    cbn [afterStep]. unfold testConnection.
    destruct reply as [| |data]; [discriminate..|].
    destruct (modelExists _ _); discriminate.
  - induction steps as [|s steps IH] using rev_ind; [discriminate|].
    rewrite runSteps_app.
    assert (Hold : isConnected (runSteps steps initial) = true ->
              exists before names later,
                steps ++ [s]
                = before ++ StepTestConnection (TagsOk (Some names)) :: later
                /\ modelExists (model (runSteps before initial)) names = true).
    { intros H. destruct (IH H) as (before & names & later & -> & Hm).
      exists before, names, (later ++ [s]). split; [|exact Hm].
      now rewrite <- app_assoc. }
    destruct s as [newModel|reply]; [exact Hold|].
    cbn [afterStep]. unfold testConnection.
    destruct reply as [| |[names|]]; [discriminate|exact Hold| |exact Hold].
    change (default [] (Some names)) with names.
    destruct (modelExists (model (runSteps steps initial)) names) eqn:E;
      [|exact Hold].
    intros _. exists steps, names, []. now split.
  - intros reply Hreply. unfold testConnection.
    destruct reply as [| |data]; [contradiction|now split|].
    destruct (modelExists _ _); [discriminate|now split].
Qed.

End Commands.

(** *** The upload dialog *)

Lemma uploadEach_app (a b : list Upload) (d : Dialog.t) :
  Dialog.error d = None ->
  Dialog.error (uploadEach a d) = None ->
  uploadEach (a ++ b) d = uploadEach b (uploadEach a d)
  /\ Dialog.service (uploadEach a d) = uploaded a (Dialog.service d)
  /\ Dialog.selectedFile (uploadEach a d) = Dialog.selectedFile d.
Proof.
  revert d. induction a as [|u a IH]; intros d Hd Ha; [now repeat split|].
  cbn [app uploadEach uploaded fold_left] in *.
  destruct (uploadFile (uploadOf u) (idOf u) (clockOf u) (savedOf u)
                       (Dialog.service d))
    as [[fileData|failure] st]; [|discriminate Ha].
  cbn [snd].
  destruct (IH (Dialog.mk (fileData :: Dialog.uploadedFiles d)
                          (Dialog.selectedFile d) (Dialog.error d) st) Hd Ha)
    as (H1 & H2 & H3).
  now repeat split.
Qed.

(** X22: handleFiles stops at the first file that uploadFile rejects:
    the files before it are stored and listed, the rejection is shown as
    the error, and the files after it are never handed to the service,
    whether they would have been accepted or not. *)
Theorem handleFiles_stops_at_first_failure
        (before : list Upload) (bad : Upload) (later : list Upload)
        (d : Dialog.t) (failure : UploadFailure) :
  Dialog.error (handleFiles before d) = None ->
  (uploadFile (uploadOf bad) (idOf bad) (clockOf bad) (savedOf bad)
              (uploaded before (Dialog.service d))).1 = Err failure ->
  handleFiles (before ++ bad :: later) d
  = Dialog.mk (Dialog.uploadedFiles (handleFiles before d))
              (Dialog.selectedFile d) (Some failure)
              (uploaded before (Dialog.service d)).
Proof.
  unfold handleFiles. intros Hbefore Hbad.
  destruct (uploadEach_app before (bad :: later)
              (Dialog.mk (Dialog.uploadedFiles d) (Dialog.selectedFile d) None
                         (Dialog.service d)) eq_refl Hbefore)
    as (-> & Hs & Hsel).
  cbn [Dialog.service Dialog.selectedFile] in Hs, Hsel.
  cbn [uploadEach]. rewrite Hs, Hsel.
  pose proof (uploadFile_failure_keeps_store _ _ _ _ _ _ Hbad) as Hkeep.
  destruct (uploadFile (uploadOf bad) (idOf bad) (clockOf bad) (savedOf bad)
                       (uploaded before (Dialog.service d)))
    as [[fileData|failure'] st]; [discriminate|].
  cbn [fst snd] in *. now injection Hbad as ->; subst st.
Qed.

Lemma handleFiles_stops_at_first_failure_witness :
  handleFiles
    ([mkUpload Samples.scenarioA "f1" 1000 true]
     ++ mkUpload Samples.emptySheet "f2" 2000 true
        :: [mkUpload Samples.measurements "f3" 3000 true])
    (mountDialog emptyStore)
  = Dialog.mk
      (Dialog.uploadedFiles
         (handleFiles [mkUpload Samples.scenarioA "f1" 1000 true]
                      (mountDialog emptyStore)))
      None
      (Some (FailedToProcessFile ExcelFileIsEmpty))
      (uploaded [mkUpload Samples.scenarioA "f1" 1000 true] emptyStore).
Proof.
  apply (handleFiles_stops_at_first_failure
           [mkUpload Samples.scenarioA "f1" 1000 true]
           (mkUpload Samples.emptySheet "f2" 2000 true)
           [mkUpload Samples.measurements "f3" 3000 true]
           (mountDialog emptyStore)).
  - vm_compute. reflexivity.
  - vm_compute. reflexivity.
Defined.

Lemma sort_newest_last (x : FileData.t) (l : list FileData.t) :
  forallb (fun r => FileData.uploadedAt r <? FileData.uploadedAt x) l = true ->
  sort newestFirst (l ++ [x]) = x :: sort newestFirst l.
Proof.
  unfold sort. rewrite foldr_app. cbn [foldr sortInsert].
  induction l as [|y l IH]; [reflexivity|].
  cbn [forallb foldr]. intros [Hy Hl]%andb_true_iff.
  rewrite IH by exact Hl. cbn [sortInsert].
  apply Z.ltb_lt in Hy. unfold newestFirst at 1.
  destruct (Z.leb_spec (FileData.uploadedAt x - FileData.uploadedAt y) 0);
    [lia|reflexivity].
Qed.

Lemma getFiles_after_newer (u : Upload) (st : Store) (record : FileData.t) :
  isNewer u st = true ->
  (uploadFile (uploadOf u) (idOf u) (clockOf u) (savedOf u) st).1 = Ok record ->
  getFiles (uploadFile (uploadOf u) (idOf u) (clockOf u) (savedOf u) st).2
  = record :: getFiles st.
Proof.
  unfold isNewer, mapHas. intros [Hfresh Hlater]%andb_true_iff Hok.
  destruct (mapGet (idOf u) (files st)) eqn:E; [discriminate|].
  destruct (uploadFile_ok_inv _ _ _ _ _ _ Hok) as (t & parsed & _ & _ & Hr & ->).
  unfold getFiles. rewrite files_saveFilesToStorage. cbn [files].
  rewrite mapSet_fresh by exact E.
  unfold mapValues. rewrite map_app. cbn [map snd].
  apply sort_newest_last.
  rewrite Hr. cbn [FileData.uploadedAt]. exact Hlater.
Qed.

Lemma uploadFile_wellKeyed (file : File) (newId : string) (now : Z)
      (saved : bool) (st : Store) :
  wellKeyed (files st) -> wellKeyed (files (uploadFile file newId now saved st).2).
Proof. apply (after_wellKeyed (CallUpload file newId now saved)). Qed.

Lemma uploadEach_mirrors (batch : list Upload) (d : Dialog.t) :
  wellKeyed (files (Dialog.service d)) ->
  mirrorsService d ->
  allNewer batch (Dialog.service d) = true ->
  mirrorsService (uploadEach batch d)
  /\ wellKeyed (files (Dialog.service (uploadEach batch d))).
Proof.
  revert d. induction batch as [|u batch IH]; intros d Hkeys Hd Hnew;
    [now split|].
  cbn [allNewer] in Hnew. apply andb_true_iff in Hnew as [Hu Hnew].
  cbn [uploadEach].
  pose proof (uploadFile_wellKeyed (uploadOf u) (idOf u) (clockOf u) (savedOf u)
                _ Hkeys)
    as Hkeys'.
  pose proof (getFiles_after_newer u (Dialog.service d)) as Hlist.
  pose proof (uploadFile_failure_keeps_store (uploadOf u) (idOf u) (clockOf u)
                (savedOf u) (Dialog.service d)) as Hkeep.
  destruct (uploadFile (uploadOf u) (idOf u) (clockOf u) (savedOf u)
                       (Dialog.service d))
    as [[fileData|failure] st]; cbn [fst snd] in *.
  - apply IH; cbn [Dialog.service]; [exact Hkeys'| |exact Hnew].
    unfold mirrorsService. cbn [Dialog.uploadedFiles Dialog.service].
    rewrite (Hlist fileData Hu eq_refl). now rewrite Hd.
  - rewrite (Hkeep failure eq_refl) in *. split; [exact Hd|exact Hkeys].
Qed.

Lemma sortInsert_front (x : FileData.t) (l : list FileData.t) :
  List.Forall (notOlder x) l -> sortInsert newestFirst x l = x :: l.
Proof.
  destruct 1 as [|y l Hy _]; [reflexivity|].
  cbn [sortInsert]. unfold newestFirst, notOlder in *.
  destruct (Z.leb_spec (FileData.uploadedAt y - FileData.uploadedAt x) 0);
    [reflexivity|lia].
Qed.

Lemma filter_sortInsert_sorted (p : FileData.t -> bool) (x : FileData.t)
      (l : list FileData.t) :
  StronglySorted notOlder l ->
  List.filter p (sortInsert newestFirst x l)
  = if p x then sortInsert newestFirst x (List.filter p l) else List.filter p l.
Proof.
  induction 1 as [|y l Hl IH Hy]; cbn [sortInsert List.filter].
  - now destruct (p x).
  - destruct (Z.leb_spec (newestFirst x y) 0) as [Hle|Hgt].
    + cbn [List.filter]. destruct (p x); [|reflexivity].
      symmetry. apply sortInsert_front.
      assert (Hall : List.Forall (notOlder x) (y :: l)).
      { constructor; [unfold notOlder, newestFirst in *; lia|].
        eapply List.Forall_impl; [|exact Hy].
        intros z Hz. unfold notOlder, newestFirst in *. lia. }
      rewrite List.Forall_forall in Hall. apply List.Forall_forall.
      intros z Hz. apply Hall.
      change (In z (List.filter p (y :: l))) in Hz.
      now apply filter_In in Hz.
    + cbn [List.filter]. rewrite IH.
      destruct (p y), (p x); try reflexivity.
      cbn [sortInsert].
      destruct (Z.leb_spec (newestFirst x y) 0); [lia|reflexivity].
Qed.

Lemma filter_sort_sorted (p : FileData.t -> bool) (l : list FileData.t) :
  List.filter p (sort newestFirst l) = sort newestFirst (List.filter p l).
Proof.
  induction l as [|x l IH]; [reflexivity|].
  unfold sort in *. cbn [foldr List.filter].
  rewrite filter_sortInsert_sorted by apply sort_newestFirst_sorted.
  rewrite IH. now destruct (p x).
Qed.

Lemma mapValues_mapDelete_filter (k : string) (m : FileMap) :
  wellKeyed m ->
  mapValues (mapDelete k m)
  = List.filter (fun f => negb (String.eqb (FileData.id f) k)) (mapValues m).
Proof.
  intros [_ Hall]. unfold mapValues, mapDelete.
  induction Hall as [|[k' v] m Hkv _ IH]; [reflexivity|].
  cbn [List.filter map fst snd] in *. rewrite Hkv.
  destruct (String.eqb k' k); cbn [negb map snd]; now rewrite IH.
Qed.

Lemma deleteFile_files (fileId : string) (saved : bool) (st : Store) :
  files (deleteFile fileId saved st).2 = mapDelete fileId (files st).
Proof.
  unfold deleteFile. cbn [snd].
  destruct (mapHas fileId (files st)); now rewrite ?files_saveFilesToStorage.
Qed.

(** X23: the list of the upload dialog stays the list of getFiles.  If
    it is so when the keys of the record map are the ids of its records,
    it is so again after handleFiles on a batch in which every file gets
    an id the service does not hold and a time after that of every
    stored record, whether the batch goes through or stops at a file
    that is rejected, and after handleDeleteFile on any id. *)
Theorem dialog_mirrors_service (d : Dialog.t) :
  wellKeyed (files (Dialog.service d)) ->
  mirrorsService d ->
  (forall batch,
      allNewer batch (Dialog.service d) = true ->
      mirrorsService (handleFiles batch d)
      /\ wellKeyed (files (Dialog.service (handleFiles batch d))))
  /\ (forall fileId saved,
        mirrorsService (handleDeleteFile fileId saved d)
        /\ wellKeyed (files (Dialog.service (handleDeleteFile fileId saved d)))).
Proof.
  intros Hkeys Hd. split.
  - intros batch Hnew. unfold handleFiles. now apply uploadEach_mirrors.
  - intros fileId saved. unfold handleDeleteFile, mirrorsService.
    cbn [Dialog.uploadedFiles Dialog.service].
    rewrite deleteFile_files. split; [|now apply mapDelete_wellKeyed].
    unfold getFiles. rewrite deleteFile_files.
    rewrite mapValues_mapDelete_filter by exact Hkeys.
    rewrite <- filter_sort_sorted. now rewrite Hd.
Qed.

Lemma dialog_mirrors_service_witness :
  mirrorsService
    (handleFiles [mkUpload Samples.scenarioA "f1" 1000 true;
                  mkUpload Samples.report "f2" 2000 true]
                 (mountDialog emptyStore))
  /\ mirrorsService (handleDeleteFile "f1" true (mountDialog emptyStore)).
Proof.
  assert (Hkeys : wellKeyed (files (Dialog.service (mountDialog emptyStore)))).
  { split; constructor. }
  destruct (dialog_mirrors_service (mountDialog emptyStore) Hkeys eq_refl)
    as [Hbatch Hdelete].
  split.
  - apply Hbatch. vm_compute. reflexivity.
  - apply Hdelete.
Defined.
